(** * A shallow embedding of the gateway's session, connection and
      WebSocket core, with the properties of its specification.

    The Python sources are embedded function by function.  The Redis
    keyspace is a finite map from flat string keys to typed entries with
    an expiry instant; every manager object of the program is a record
    that holds the fields of the Python class; asynchronous code is
    written in a state-and-exception monad over one [World] record, in
    program order.  Effects the outside can observe (KV writes, pipeline
    executions, publications, task creations, socket frames) are appended
    to a trace, oldest first. *)

From Stdlib Require Import ZArith String List Ascii Lia.
From stdpp Require Import gmap strings list fin_maps pretty.

Set Warnings "-register-all".

Open Scope string_scope.
Open Scope Z_scope.

(** ** Python values *)

(** JSON-like values: message payloads and the session data bag. *)
Inductive json :=
| JNull
| JBool (b : bool)
| JNum (z : Z)
| JStr (s : string)
| JList (l : list json)
| JObj (o : list (string * json)).

(** A Redis hash field.  Redis stores text; a field written from a
    Python number is kept as [FNum] so that [float(...)] reads it back. *)
Inductive Field :=
| FStr (s : string)
| FNum (z : Z).

(** [str.split(sep)] for a one-character separator. *)
Fixpoint split_on (sep : ascii) (s : string) : list string :=
  match s with
  | EmptyString => [EmptyString]
  | String c rest =>
      if Ascii.eqb c sep then EmptyString :: split_on sep rest
      else match split_on sep rest with
           | hd :: tl => String c hd :: tl
           | [] => [String c EmptyString]
           end
  end.

(** Truthiness of an optional string: [None] and [""] are falsy. *)
Definition truthy (o : option string) : bool :=
  match o with
  | Some s => negb (String.eqb s "")
  | None => false
  end.

(** [a or b] on optional strings. *)
Definition py_or (a b : option string) : option string :=
  if truthy a then a else b.

(** ** Exceptions *)

Inductive Detail :=
| DText (s : string)
| DError (error detail : string).

Inductive Exn :=
| HTTPException (status_code : Z) (detail : Detail)
| ExpiredSignatureError
| JWTClaimsError
| JWTError
| ResponseError (msg : string)
| ValueError (msg : string)
| ValidationError (msg : string)
| KeyError (key : string)
| RuntimeError (msg : string)
| AttributeError (msg : string)
| IndexError.

Inductive Res (A : Type) :=
| Ok (a : A)
| Raise (e : Exn).
Arguments Ok {A} a.
Arguments Raise {A} e.

(** ** Records of the program *)

(** The session blob stored under [sessions:<id>]; [json.dumps] and
    [json.loads] are the identity on it. *)
Record Session := {
  s_user_id : string;
  s_chat_id : string;
  s_data : gmap string json;
  s_created_at : Z;
  s_last_access : Z;
}.

Inductive RValue :=
| RString (s : Session)
| RHash (h : gmap string Field).

Record Entry := {
  e_value : RValue;
  e_expire_at : option Z;
}.

(** [_pending_updates[session_id]] of the batched writer. *)
Record Pending := {
  p_user_id : string;
  p_chat_id : string;
  p_updates : gmap string json;
  p_last_access : Z;
}.

(** Detached coroutines handed to [asyncio.create_task]. *)
Inductive Task :=
| TPublish (channel : string) (payload : json)
| TProcessApiKeyUpdate (user_id session_id key : string)
| TPingLoop (user_id session_id : string) (ws : nat)
| TInactivityMonitor (user_id session_id : string) (ws : nat).

(** Commands queued on a pipeline. *)
Inductive PipeCmd :=
| PGet (key : string)
| PSet (key : string) (v : Session) (ex : Z).

Inductive WsEvent :=
| WsAccept
| WsSend (frame : json)
| WsClose (code : Z) (reason : string).

Inductive Event :=
| EvSet (key : string) (v : Session) (ex : Z)
| EvHSet (key : string) (mapping : list (string * Field))
| EvExpire (key : string) (seconds : Z)
| EvDelete (key : string)
| EvHDel (key field : string)
| EvPipeline (cmds : list PipeCmd)
| EvPublish (channel : string) (payload : json)
| EvCreateTask (t : Task)
| EvCancelTask (t : Task)
| EvWs (ws : nat) (e : WsEvent)
| EvDynamicHandler (name user_id session_id : string) (ws : nat) (message_data : json)
| EvMessageLoop (user_id session_id : string).

Inductive WebSocketState := CONNECTING | CONNECTED | DISCONNECTED.

(** A starlette [WebSocket]: the two connection states, the frames the
    server sent, and the close frame it sent, if any. *)
Record WebSocket := {
  client_state : WebSocketState;
  application_state : WebSocketState;
  sent : list json;
  close_frame : option (Z * string);
}.

(** Claims of a decoded token. *)
Abbreviation Claims := (gmap string string).

Inductive JwtResult :=
| Decoded (payload : Claims)
| DecodeFails (e : Exn).

(** Opaque primitives: the JOSE codec, SHA-256 and the UUID source. *)
Record Externals := {
  jwt_encode : Claims → string;
  jwt_decode : string → Z → JwtResult;
  sha256_hexdigest : string → string;
  uuid4 : nat → string;
}.

Record SecurityManager := {
  access_token_expire_minutes : Z;
}.

Record UserManager := {
  um_timeout_seconds : Z;
  users_cache : gmap string (gmap string Field);
}.

Record SessionHandler := {
  sh_timeout_seconds : Z;
  _pending_updates : list (string * Pending);
  _session_cache : gmap string (Session * Z);
  _last_timestamp_updates : gmap string Z;
  _cache_ttl : Z;
  sh_timestamp_update_interval : Z;
}.

Record ConnectionManager := {
  cm_timeout_seconds : Z;
  cm_timestamp_update_interval : Z;
  _last_connection_updates : gmap string Z;
}.

(** [wss.models.ConnectionInfo]; the socket is referred to by its id. *)
Record ConnectionInfo := {
  ci_websocket : nat;
  ci_gateway_id : string;
  ci_last_seen : Z;
  ci_user_id : string;
  ci_session_id : string;
  ci_connected_at : Z;
  ci_role : string;
}.

Record WebsocketsRegistry := {
  reg_timeout_seconds : Z;
  active_connections : gmap string ConnectionInfo;
  _connections_count : Z;
  last_seen_update_interval : Z;
}.

Record CachedMessage := {
  cmsg_message_type : string;
  cmsg_message_data : string;
  cmsg_timestamp : Z;
  cmsg_user_id : string;
  cmsg_session_id : string;
}.

Record ConnectionState := {
  last_activity : Z;
  last_pong : Z;
  ping_task : option Task;
  inactivity_task : option Task;
}.

Record WebsocketsManager := {
  message_cache : gmap string (gmap string (gmap string CachedMessage));
  cache_ttl : Z;
  connection_states : gmap string ConnectionState;
  ping_interval : Z;
  pong_timeout : Z;
  inactivity_timeout : Z;
  message_permissions : gmap string (list string);
  ws_handlers : gmap string bool;
}.

Record World := {
  redis : gmap string Entry;
  trace : list Event;
  clock : Z;
  environ : gmap string string;
  ext : Externals;
  uuid_counter : nat;
  security_manager : SecurityManager;
  user_manager : UserManager;
  session_handler : SessionHandler;
  connection_manager : ConnectionManager;
  ws_registry : WebsocketsRegistry;
  ws_manager : WebsocketsManager;
  sockets : gmap nat WebSocket;
}.

(** Field updates. *)
Definition set_redis (f : gmap string Entry → gmap string Entry) (w : World) : World :=
  {| redis := f (redis w); trace := trace w; clock := clock w; environ := environ w;
     ext := ext w; uuid_counter := uuid_counter w; security_manager := security_manager w;
     user_manager := user_manager w; session_handler := session_handler w;
     connection_manager := connection_manager w; ws_registry := ws_registry w;
     ws_manager := ws_manager w; sockets := sockets w |}.

Definition emit (e : Event) (w : World) : World :=
  {| redis := redis w; trace := trace w ++ [e]; clock := clock w; environ := environ w;
     ext := ext w; uuid_counter := uuid_counter w; security_manager := security_manager w;
     user_manager := user_manager w; session_handler := session_handler w;
     connection_manager := connection_manager w; ws_registry := ws_registry w;
     ws_manager := ws_manager w; sockets := sockets w |}.

Definition set_clock (t : Z) (w : World) : World :=
  {| redis := redis w; trace := trace w; clock := t; environ := environ w;
     ext := ext w; uuid_counter := uuid_counter w; security_manager := security_manager w;
     user_manager := user_manager w; session_handler := session_handler w;
     connection_manager := connection_manager w; ws_registry := ws_registry w;
     ws_manager := ws_manager w; sockets := sockets w |}.

Definition bump_uuid (w : World) : World :=
  {| redis := redis w; trace := trace w; clock := clock w; environ := environ w;
     ext := ext w; uuid_counter := S (uuid_counter w); security_manager := security_manager w;
     user_manager := user_manager w; session_handler := session_handler w;
     connection_manager := connection_manager w; ws_registry := ws_registry w;
     ws_manager := ws_manager w; sockets := sockets w |}.

Definition set_user_manager (f : UserManager → UserManager) (w : World) : World :=
  {| redis := redis w; trace := trace w; clock := clock w; environ := environ w;
     ext := ext w; uuid_counter := uuid_counter w; security_manager := security_manager w;
     user_manager := f (user_manager w); session_handler := session_handler w;
     connection_manager := connection_manager w; ws_registry := ws_registry w;
     ws_manager := ws_manager w; sockets := sockets w |}.

Definition set_session_handler (f : SessionHandler → SessionHandler) (w : World) : World :=
  {| redis := redis w; trace := trace w; clock := clock w; environ := environ w;
     ext := ext w; uuid_counter := uuid_counter w; security_manager := security_manager w;
     user_manager := user_manager w; session_handler := f (session_handler w);
     connection_manager := connection_manager w; ws_registry := ws_registry w;
     ws_manager := ws_manager w; sockets := sockets w |}.

Definition set_connection_manager (f : ConnectionManager → ConnectionManager) (w : World) : World :=
  {| redis := redis w; trace := trace w; clock := clock w; environ := environ w;
     ext := ext w; uuid_counter := uuid_counter w; security_manager := security_manager w;
     user_manager := user_manager w; session_handler := session_handler w;
     connection_manager := f (connection_manager w); ws_registry := ws_registry w;
     ws_manager := ws_manager w; sockets := sockets w |}.

Definition set_ws_registry (f : WebsocketsRegistry → WebsocketsRegistry) (w : World) : World :=
  {| redis := redis w; trace := trace w; clock := clock w; environ := environ w;
     ext := ext w; uuid_counter := uuid_counter w; security_manager := security_manager w;
     user_manager := user_manager w; session_handler := session_handler w;
     connection_manager := connection_manager w; ws_registry := f (ws_registry w);
     ws_manager := ws_manager w; sockets := sockets w |}.

Definition set_ws_manager (f : WebsocketsManager → WebsocketsManager) (w : World) : World :=
  {| redis := redis w; trace := trace w; clock := clock w; environ := environ w;
     ext := ext w; uuid_counter := uuid_counter w; security_manager := security_manager w;
     user_manager := user_manager w; session_handler := session_handler w;
     connection_manager := connection_manager w; ws_registry := ws_registry w;
     ws_manager := f (ws_manager w); sockets := sockets w |}.

Definition set_sockets (f : gmap nat WebSocket → gmap nat WebSocket) (w : World) : World :=
  {| redis := redis w; trace := trace w; clock := clock w; environ := environ w;
     ext := ext w; uuid_counter := uuid_counter w; security_manager := security_manager w;
     user_manager := user_manager w; session_handler := session_handler w;
     connection_manager := connection_manager w; ws_registry := ws_registry w;
     ws_manager := ws_manager w; sockets := f (sockets w) |}.

(** ** The monad of coroutines: state and exceptions *)

Definition M (A : Type) : Type := World → Res A * World.

Definition ret {A} (a : A) : M A := λ w, (Ok a, w).

Definition bind {A B} (m : M A) (k : A → M B) : M B :=
  λ w, match m w with
       | (Ok a, w') => k a w'
       | (Raise e, w') => (Raise e, w')
       end.

Definition raise {A} (e : Exn) : M A := λ w, (Raise e, w).

(** [try: m  except Exception as e: h e] *)
Definition try_except {A} (m : M A) (h : Exn → M A) : M A :=
  λ w, match m w with
       | (Ok a, w') => (Ok a, w')
       | (Raise e, w') => h e w'
       end.

(** [try: m  finally: f] *)
Definition try_finally {A} (m : M A) (f : M unit) : M A :=
  λ w, match m w with
       | (r, w') =>
           match f w' with
           | (Ok _, w'') => (r, w'')
           | (Raise e, w'') => (Raise e, w'')
           end
       end.

Definition gets {A} (f : World → A) : M A := λ w, (Ok (f w), w).
Definition modify (f : World → World) : M unit := λ w, (Ok tt, f w).

Declare Scope gw_scope.
Delimit Scope gw_scope with gw.
Notation "'do' x <- m ; k" := (bind m (λ x, k))
  (at level 10, x name, m at level 100, k at level 200, only parsing) : gw_scope.
Notation "'do' ' p <- m ; k" := (bind m (λ x, match x with p => k end))
  (at level 10, p pattern, m at level 100, k at level 200, only parsing) : gw_scope.
Notation "'run' m ; k" := (bind m (λ _, k))
  (at level 10, m at level 100, k at level 200, only parsing) : gw_scope.
Open Scope gw_scope.

Definition when (b : bool) (m : M unit) : M unit := if b then m else ret tt.

(** [for x in l: body x] *)
Fixpoint for_each {A} (l : list A) (body : A → M unit) : M unit :=
  match l with
  | [] => ret tt
  | x :: rest => run body x; for_each rest body
  end.

(** Several events, in order. *)
Definition emit_all (es : list Event) (w : World) : World :=
  foldl (λ w e, emit e w) w es.

(** [time.time()], [os.getenv(k, d)], [str(uuid.uuid4())]. *)
Definition time_time : M Z := gets clock.
Definition getenv (k d : string) : M string := gets (λ w, default d (environ w !! k)).
Definition new_uuid : M string :=
  do n <- gets uuid_counter;
  do e <- gets ext;
  run modify bump_uuid;
  ret (uuid4 e n).

Definition field_json (f : Field) : json :=
  match f with
  | FStr s => JStr s
  | FNum z => JNum z
  end.

(** The text Redis hands back for a field. *)
Definition field_text (f : Field) : string :=
  match f with
  | FStr s => s
  | FNum z => pretty z
  end.

(** [float(x)] of a field read back from Redis. *)
Definition field_float (f : Field) : M Z :=
  match f with
  | FNum z => ret z
  | FStr s => raise (ValueError "could not convert string to float")
  end.

Definition dict_json (d : list (string * Field)) : json :=
  JObj (map (λ kv, (fst kv, field_json (snd kv))) d).

(** ** The KV store (redis.asyncio) *)

Module Redis.

(** An entry is visible until its expiry instant. *)
Definition live (now : Z) (e : Entry) : bool :=
  match e_expire_at e with
  | None => true
  | Some t => now <? t
  end.

Definition peek (now : Z) (store : gmap string Entry) (key : string) : option Entry :=
  match store !! key with
  | Some e => if live now e then Some e else None
  | None => None
  end.

Definition wrongtype : Exn :=
  ResponseError "WRONGTYPE Operation against a key holding the wrong kind of value".

Definition get_pure (now : Z) (store : gmap string Entry) (key : string) : Res (option Session) :=
  match peek now store key with
  | None => Ok None
  | Some e =>
      match e_value e with
      | RString s => Ok (Some s)
      | RHash _ => Raise wrongtype
      end
  end.

Definition get (key : string) : M (option Session) :=
  do now <- time_time;
  do store <- gets redis;
  match get_pure now store key with
  | Ok r => ret r
  | Raise e => raise e
  end.

Definition set_pure (now : Z) (store : gmap string Entry) (key : string) (v : Session) (ex : Z)
  : Res (gmap string Entry) :=
  if ex <=? 0 then Raise (ResponseError "invalid expire time in 'set' command")
  else Ok (<[key := {| e_value := RString v; e_expire_at := Some (now + ex) |}]> store).

(** [set(key, value, ex=seconds)] *)
Definition set (key : string) (v : Session) (ex : Z) : M unit :=
  do now <- time_time;
  do store <- gets redis;
  match set_pure now store key v ex with
  | Ok store' => run modify (set_redis (λ _, store')); modify (emit (EvSet key v ex))
  | Raise e => raise e
  end.

Definition hash_update (mapping : list (string * Field)) (h : gmap string Field) : gmap string Field :=
  foldl (λ acc kv, <[fst kv := snd kv]> acc) h mapping.

Definition hset_pure (now : Z) (store : gmap string Entry) (key : string)
    (mapping : list (string * Field)) : Res (gmap string Entry) :=
  match peek now store key with
  | None =>
      Ok (<[key := {| e_value := RHash (hash_update mapping ∅); e_expire_at := None |}]> store)
  | Some e =>
      match e_value e with
      | RHash h =>
          Ok (<[key := {| e_value := RHash (hash_update mapping h);
                          e_expire_at := e_expire_at e |}]> store)
      | RString _ => Raise wrongtype
      end
  end.

(** [hset(key, mapping=...)]: a fresh hash has no expiry, an existing
    one keeps its own. *)
Definition hset (key : string) (mapping : list (string * Field)) : M unit :=
  do now <- time_time;
  do store <- gets redis;
  match hset_pure now store key mapping with
  | Ok store' => run modify (set_redis (λ _, store')); modify (emit (EvHSet key mapping))
  | Raise e => raise e
  end.

Definition hgetall_pure (now : Z) (store : gmap string Entry) (key : string)
  : Res (gmap string Field) :=
  match peek now store key with
  | None => Ok ∅
  | Some e =>
      match e_value e with
      | RHash h => Ok h
      | RString _ => Raise wrongtype
      end
  end.

(** [hgetall(key)]: the empty dict when the key is absent. *)
Definition hgetall (key : string) : M (gmap string Field) :=
  do now <- time_time;
  do store <- gets redis;
  match hgetall_pure now store key with
  | Ok h => ret h
  | Raise e => raise e
  end.

Definition expire_pure (now : Z) (store : gmap string Entry) (key : string) (seconds : Z)
  : option (gmap string Entry) :=
  match peek now store key with
  | None => None
  | Some e => Some (<[key := {| e_value := e_value e; e_expire_at := Some (now + seconds) |}]> store)
  end.

(** [expire(key, seconds)]: nothing happens when the key is absent. *)
Definition expire (key : string) (seconds : Z) : M unit :=
  do now <- time_time;
  do store <- gets redis;
  match expire_pure now store key seconds with
  | None => ret tt
  | Some store' => run modify (set_redis (λ _, store')); modify (emit (EvExpire key seconds))
  end.

Definition delete (key : string) : M unit :=
  run modify (set_redis (base.delete key));
  modify (emit (EvDelete key)).

Definition hdel_pure (now : Z) (store : gmap string Entry) (key field : string)
  : Res (option (gmap string Entry)) :=
  match peek now store key with
  | None => Ok None
  | Some e =>
      match e_value e with
      | RHash h =>
          let h' := base.delete field h in
          Ok (Some (if decide (h' = ∅) then base.delete key store
                    else <[key := {| e_value := RHash h'; e_expire_at := e_expire_at e |}]> store))
      | RString _ => Raise wrongtype
      end
  end.

(** [hdel(key, field)]: a hash left empty is removed. *)
Definition hdel (key field : string) : M unit :=
  do now <- time_time;
  do store <- gets redis;
  match hdel_pure now store key field with
  | Ok None => ret tt
  | Ok (Some store') => run modify (set_redis (λ _, store')); modify (emit (EvHDel key field))
  | Raise e => raise e
  end.

Definition keys_pure (now : Z) (store : gmap string Entry) (prefix : string) : list string :=
  omap (λ kv, if String.prefix prefix (fst kv) && live now (snd kv) then Some (fst kv) else None)
       (map_to_list store).

(** [keys("<prefix>*")] *)
Definition keys (prefix : string) : M (list string) :=
  do now <- time_time;
  do store <- gets redis;
  ret (keys_pure now store prefix).

Definition publish (channel : string) (payload : json) : M unit :=
  modify (emit (EvPublish channel payload)).

(** A pipeline with [transaction=False]: every queued command runs, in
    order; the first error, if any, is raised once all have run. *)
Fixpoint pipe_run (now : Z) (store : gmap string Entry) (cmds : list PipeCmd)
  : gmap string Entry * list (Res (option Session)) :=
  match cmds with
  | [] => (store, [])
  | PGet key :: rest =>
      let '(store', rs) := pipe_run now store rest in
      (store', get_pure now store key :: rs)
  | PSet key v ex :: rest =>
      match set_pure now store key v ex with
      | Ok store1 =>
          let '(store', rs) := pipe_run now store1 rest in
          (store', Ok None :: rs)
      | Raise e =>
          let '(store', rs) := pipe_run now store rest in
          (store', Raise e :: rs)
      end
  end.

Fixpoint first_error (rs : list (Res (option Session))) : option Exn :=
  match rs with
  | [] => None
  | Raise e :: _ => Some e
  | Ok _ :: rest => first_error rest
  end.

Definition responses (rs : list (Res (option Session))) : list (option Session) :=
  map (λ r, match r with Ok v => v | Raise _ => None end) rs.

(** [pipe.execute()]; an empty command stack returns without I/O. *)
Definition execute (cmds : list PipeCmd) : M (list (option Session)) :=
  match cmds with
  | [] => ret []
  | _ =>
      do now <- time_time;
      do store <- gets redis;
      let '(store', rs) := pipe_run now store cmds in
      run modify (set_redis (λ _, store'));
      run modify (emit (EvPipeline cmds));
      match first_error rs with
      | Some e => raise e
      | None => ret (responses rs)
      end
  end.

Definition ttl_pure (now : Z) (store : gmap string Entry) (key : string) : Z :=
  match peek now store key with
  | None => -2
  | Some e =>
      match e_expire_at e with
      | None => -1
      | Some t => t - now
      end
  end.

(** [ttl(key)]: [-2] for a missing key, [-1] for one without expiry. *)
Definition ttl (key : string) : M Z :=
  do now <- time_time;
  do store <- gets redis;
  ret (ttl_pure now store key).

(** [delete] of several keys at once, recorded key by key. *)
Definition delete_many (keys : list string) : M unit := for_each keys delete.

End Redis.

#[global] Instance Field_eq_dec : EqDecision Field.
Proof. solve_decision. Defined.

(** [host:port] of this replica, read from the environment. *)
Definition replica (w : World) : string :=
  default "localhost" (environ w !! "HOST") +:+ ":" +:+ default "8000" (environ w !! "PORT").

(** ** session/events.py *)

Module Events.

(** [EventManager.publish] *)
Definition publish (channel : string) (data : json) : M unit :=
  Redis.publish channel data.

End Events.

(** ** fast_api/security_manager.py *)

Module Security.

Definition unauthorized (error detail : string) : Exn :=
  HTTPException 401 (DError error detail).

(** [SecurityManager.create_access_token]; the expiry claim is left to
    the codec, which is given the claims to sign. *)
Definition create_access_token (data : Claims) : M string :=
  do e <- gets ext;
  ret (jwt_encode e data).

(** [SecurityManager.verify_token] *)
Definition verify_token (token : option string) : M Claims :=
  if negb (truthy token) || bool_decide (token = Some "undefined")
     || bool_decide (token = Some "null")
  then raise (unauthorized "Authentication required" "Token is missing or invalid")
  else
    do e <- gets ext;
    do now <- time_time;
    match jwt_decode e (default "" token) now with
    | Decoded payload => ret payload
    | DecodeFails ExpiredSignatureError =>
        raise (unauthorized "Token expired" "Your token has expired. Please login again.")
    | DecodeFails JWTClaimsError =>
        raise (unauthorized "Invalid token claims" "Token claims are invalid")
    | DecodeFails JWTError =>
        raise (unauthorized "Invalid token" "Token verification failed")
    | DecodeFails other => raise other
    end.

(** The dict [get_current_user] returns. *)
Record AuthUser := {
  au_username : string;
  au_role : string;
  au_user_id : string;
}.

(** [SecurityManager.get_current_user] *)
Definition get_current_user (token : option string) : M AuthUser :=
  try_except
    (do payload <- verify_token token;
     let username := payload !! "sub" in
     let role := default "user" (payload !! "role") in
     if negb (truthy username) then
       raise (unauthorized "Invalid token" "Username not found in token")
     else
       let username := default "" username in
       ret {| au_username := username; au_role := role; au_user_id := username |})
    (λ e, match e with
          | HTTPException _ _ => raise e
          | _ => raise (HTTPException 500
                          (DError "Authentication failed"
                             "Internal server error during authentication"))
          end).

End Security.

(** ** session/connections.py *)

(** The dict [get_connection_info] returns: the hash as read, with
    [ws_connected] and [last_seen] converted. *)
Record ConnDict := {
  cd_fields : gmap string Field;
  cd_ws_connected : bool;
  cd_last_seen : Z;
}.

(** [conn.get(k)] for a text field. *)
Definition cd_get (c : ConnDict) (k : string) : option string :=
  field_text <$> (cd_fields c !! k).

Module Connections.

Definition connection_key (user_id : string) : string := "connections:" +:+ user_id.

Definition tracked_fields (session_id gateway_id : string) (ws_connected : bool) (now : Z)
  : list (string * Field) :=
  [("session_id", FStr session_id);
   ("gateway_id", FStr gateway_id);
   ("ws_connected", FStr (if ws_connected then "1" else "0"));
   ("last_seen", FNum now)].

(** [ConnectionManager.track_connection] *)
Definition track_connection (user_id session_id : string) (gateway_id : option string)
    (ws_connected : bool) : M unit :=
  do gateway_id <-
    match gateway_id with
    | Some g => ret g
    | None =>
        do host <- getenv "HOST" "localhost";
        do port <- getenv "PORT" "8000";
        ret (host +:+ ":" +:+ port)
    end;
  let key := connection_key user_id in
  do now <- time_time;
  let data := tracked_fields session_id gateway_id ws_connected now in
  run Redis.hset key data;
  do timeout <- gets (λ w, cm_timeout_seconds (connection_manager w));
  run Redis.expire key timeout;
  Events.publish ("events:connection:" +:+ (if ws_connected then "ws" else "http") +:+ ":" +:+ user_id)
                 (dict_json data).

(** The conversions of [get_connection_info], as a function of the hash
    that was read. *)
Definition conn_dict (h : gmap string Field) : Res (option ConnDict) :=
  if decide (h = ∅) then Ok None
  else match default (FNum 0) (h !! "last_seen") with
       | FNum z =>
           Ok (Some {| cd_fields := h;
                       cd_ws_connected :=
                         bool_decide (field_text (default (FStr "0") (h !! "ws_connected")) = "1");
                       cd_last_seen := z |})
       | FStr _ => Raise (ValueError "could not convert string to float")
       end.

(** [ConnectionManager.get_connection_info]; [None] is the empty dict. *)
Definition get_connection_info (user_id : string) : M (option ConnDict) :=
  let key := connection_key user_id in
  do info <- Redis.hgetall key;
  if decide (info = ∅) then ret None
  else
    let ws := bool_decide (field_text (default (FStr "0") (info !! "ws_connected")) = "1") in
    do last_seen <- field_float (default (FNum 0) (info !! "last_seen"));
    ret (Some {| cd_fields := info; cd_ws_connected := ws; cd_last_seen := last_seen |}).

Definition note_connection_update (user_id : string) (now : Z) (c : ConnectionManager)
  : ConnectionManager :=
  {| cm_timeout_seconds := cm_timeout_seconds c;
     cm_timestamp_update_interval := cm_timestamp_update_interval c;
     _last_connection_updates := <[user_id := now]> (_last_connection_updates c) |}.

(** The world a refresh of the record of [u], read as [h], leaves. *)
Definition refreshed_connection (u : string) (h : gmap string Field) (w : World) : World :=
  let data := [("last_seen", FNum (clock w)); ("gateway_id", FStr (replica w))] in
  let seconds := cm_timeout_seconds (connection_manager w) in
  set_connection_manager (note_connection_update u (clock w))
    (emit (EvExpire (connection_key u) seconds)
       (emit (EvHSet (connection_key u) data)
          (set_redis
             (λ _, <[connection_key u :=
                       {| e_value := RHash (Redis.hash_update data h);
                          e_expire_at := Some (clock w + seconds) |}]> (redis w)) w))).

(** [ConnectionManager.update_connection_timestamp] *)
Definition update_connection_timestamp (user_id : string) (session_id : option string) : M unit :=
  do current_time <- time_time;
  do c <- gets connection_manager;
  let last_update := default 0 (_last_connection_updates c !! user_id) in
  if cm_timestamp_update_interval c <=? current_time - last_update then
    let key := connection_key user_id in
    do host <- getenv "HOST" "localhost";
    do port <- getenv "PORT" "8000";
    let gateway_id := host +:+ ":" +:+ port in
    run Redis.hset key [("last_seen", FNum current_time); ("gateway_id", FStr gateway_id)];
    run Redis.expire key (cm_timeout_seconds c);
    modify (set_connection_manager (note_connection_update user_id current_time))
  else ret tt.

(** [ConnectionManager.remove_connection] *)
Definition remove_connection (user_id : string) : M unit :=
  let key := connection_key user_id in
  run Redis.delete key;
  Events.publish ("events:connection:removed:" +:+ user_id) (JObj [("user_id", JStr user_id)]).

End Connections.

(** ** session/handler.py *)

Module Handler.

Definition session_key (session_id : string) : string := "sessions:" +:+ session_id.

Definition cache_session (session_id : string) (s : Session) (now : Z) (h : SessionHandler)
  : SessionHandler :=
  {| sh_timeout_seconds := sh_timeout_seconds h;
     _pending_updates := _pending_updates h;
     _session_cache := <[session_id := (s, now)]> (_session_cache h);
     _last_timestamp_updates := _last_timestamp_updates h;
     _cache_ttl := _cache_ttl h;
     sh_timestamp_update_interval := sh_timestamp_update_interval h |}.

Definition set_pending (p : list (string * Pending)) (h : SessionHandler) : SessionHandler :=
  {| sh_timeout_seconds := sh_timeout_seconds h;
     _pending_updates := p;
     _session_cache := _session_cache h;
     _last_timestamp_updates := _last_timestamp_updates h;
     _cache_ttl := _cache_ttl h;
     sh_timestamp_update_interval := sh_timestamp_update_interval h |}.

Definition note_timestamp_update (session_id : string) (now : Z) (h : SessionHandler)
  : SessionHandler :=
  {| sh_timeout_seconds := sh_timeout_seconds h;
     _pending_updates := _pending_updates h;
     _session_cache := _session_cache h;
     _last_timestamp_updates := <[session_id := now]> (_last_timestamp_updates h);
     _cache_ttl := _cache_ttl h;
     sh_timestamp_update_interval := sh_timestamp_update_interval h |}.

Definition new_session (user_id chat_id : string) (now : Z) : Session :=
  {| s_user_id := user_id;
     s_chat_id := chat_id;
     s_data := <["conversation" := JList []]> (<["api_key" := JNull]> ∅);
     s_created_at := now;
     s_last_access := now |}.

(** The creation branch of [get_or_create_session]. *)
Definition create_session (user_id chat_id : string) : M (Session * string) :=
  do new_session_id <- new_uuid;
  do now <- time_time;
  let session := new_session user_id chat_id now in
  let key := session_key new_session_id in
  do timeout <- gets (λ w, sh_timeout_seconds (session_handler w));
  run Redis.set key session timeout;
  run modify (set_session_handler (cache_session new_session_id session now));
  run Events.publish ("events:session:new:" +:+ user_id)
        (JObj [("session_id", JStr new_session_id); ("user_id", JStr user_id);
               ("chat_id", JStr chat_id)]);
  ret (session, new_session_id).

(** The Redis fetch of [get_or_create_session], inside its [try]. *)
Definition fetch_session (session_id : string) : M (option (Session * string)) :=
  try_except
    (do serialized <- Redis.get (session_key session_id);
     match serialized with
     | Some session =>
         do now <- time_time;
         run modify (set_session_handler (cache_session session_id session now));
         ret (Some (session, session_id))
     | None => ret None
     end)
    (λ _, ret None).

(** [SessionHandler.get_or_create_session] *)
Definition get_or_create_session (user_id chat_id : string) (session_id : option string)
  : M (Session * string) :=
  if truthy session_id then
    let sid := default "" session_id in
    do now <- time_time;
    do h <- gets session_handler;
    match _session_cache h !! sid with
    | Some (cached_data, cached_at) =>
        if now - cached_at <? _cache_ttl h then ret (cached_data, sid)
        else
          do r <- fetch_session sid;
          match r with
          | Some found => ret found
          | None => create_session user_id chat_id
          end
    | None =>
        do r <- fetch_session sid;
        match r with
        | Some found => ret found
        | None => create_session user_id chat_id
        end
    end
  else create_session user_id chat_id.

(** [dict.update]: the keys of [updates] win. *)
Definition dict_update (d updates : gmap string json) : gmap string json := updates ∪ d.

Fixpoint enqueue (session_id user_id chat_id : string) (updates : gmap string json) (now : Z)
    (pending : list (string * Pending)) : list (string * Pending) :=
  match pending with
  | [] => [(session_id, {| p_user_id := user_id; p_chat_id := chat_id;
                           p_updates := updates; p_last_access := now |})]
  | (sid, p) :: rest =>
      if String.eqb sid session_id then
        (sid, {| p_user_id := p_user_id p; p_chat_id := p_chat_id p;
                 p_updates := dict_update (p_updates p) updates;
                 p_last_access := now |}) :: rest
      else (sid, p) :: enqueue session_id user_id chat_id updates now rest
  end.

(** [SessionHandler.update_session]: queue for the batched writer. *)
Definition update_session (user_id chat_id : string) (updates : gmap string json)
    (session_id : string) : M unit :=
  do now <- time_time;
  modify (set_session_handler
            (λ h, set_pending (enqueue session_id user_id chat_id updates now (_pending_updates h)) h)).

(** [SessionHandler.delete_session] *)
Definition delete_session (session_id : string) : M unit :=
  Redis.delete (session_key session_id).

Definition touch (s : Session) (now : Z) : Session :=
  {| s_user_id := s_user_id s; s_chat_id := s_chat_id s; s_data := s_data s;
     s_created_at := s_created_at s; s_last_access := now |}.

(** The world a refresh of [last_access] of session [s] leaves. *)
Definition touched_session (sid : string) (s : Session) (w : World) : World :=
  let seconds := sh_timeout_seconds (session_handler w) in
  set_session_handler (note_timestamp_update sid (clock w))
    (emit (EvSet (session_key sid) (touch s (clock w)) seconds)
       (set_redis
          (λ _, <[session_key sid :=
                    {| e_value := RString (touch s (clock w));
                       e_expire_at := Some (clock w + seconds) |}]> (redis w)) w)).

(** [SessionHandler.update_timestamp_only] *)
Definition update_timestamp_only (session_id : string) : M unit :=
  do current_time <- time_time;
  do h <- gets session_handler;
  let last_update := default 0 (_last_timestamp_updates h !! session_id) in
  if sh_timestamp_update_interval h <=? current_time - last_update then
    let key := session_key session_id in
    do serialized <- Redis.get key;
    match serialized with
    | Some session =>
        run Redis.set key (touch session current_time) (sh_timeout_seconds h);
        modify (set_session_handler (note_timestamp_update session_id current_time))
    | None => ret tt
    end
  else ret tt.

(** [SessionHandler.cleanup_user_sessions] *)
Definition cleanup_user_sessions (user_id : string) : M unit :=
  do session_keys <- Redis.keys "sessions:";
  for_each session_keys
    (λ key,
      do serialized <- Redis.get key;
      match serialized with
      | Some session =>
          if String.eqb (s_user_id session) user_id then Redis.delete key else ret tt
      | None => ret tt
      end).

(** The live session records owned by [user_id]: the keys the loop of
    [cleanup_user_sessions] deletes. *)
Definition owned_sessions (now : Z) (store : gmap string Entry) (user_id : string)
  : list string :=
  List.filter
    (λ key, match Redis.get_pure now store key with
            | Ok (Some session) => String.eqb (s_user_id session) user_id
            | _ => false
            end)
    (Redis.keys_pure now store "sessions:").

End Handler.

(** [asyncio.create_task(coro)]: the coroutine is handed to the event
    loop; its body is not run by the caller. *)
Definition create_task (t : Task) : M unit := modify (emit (EvCreateTask t)).

Module BatchWriter.

Import Handler.

Definition merge_session (session : Session) (data : Pending) : Session :=
  {| s_user_id := s_user_id session;
     s_chat_id := s_chat_id session;
     s_data := dict_update (s_data session) (p_updates data);
     s_created_at := s_created_at session;
     s_last_access := p_last_access data |}.

Definition update_event (session_id : string) (data : Pending) : Task :=
  TPublish ("events:session:update:" +:+ p_user_id data)
           (JObj [("session_id", JStr session_id);
                  ("updates", JObj (map_to_list (p_updates data)));
                  ("chat_id", JStr (p_chat_id data))]).

(** The second loop of a round: for every session the read returned,
    queue its [SET] on the write pipeline and create the publication
    task. *)
Fixpoint fill_write_pipeline (timeout : Z) (to_process : list (string * Pending))
    (results : list (option Session)) : M (list PipeCmd) :=
  match to_process with
  | [] => ret []
  | (session_id, data) :: rest =>
      match results with
      | [] => raise IndexError
      | serialized :: results' =>
          match serialized with
          | Some session =>
              let cmd := PSet (session_key session_id) (merge_session session data) timeout in
              run create_task (update_event session_id data);
              do cmds <- fill_write_pipeline timeout rest results';
              ret (cmd :: cmds)
          | None => fill_write_pipeline timeout rest results'
          end
      end
  end.

(** One iteration of the [while True] of [SessionHandler._batch_writer],
    after its 100 ms sleep. *)
Definition flush_round : M unit :=
  try_except
    (do h <- gets session_handler;
     match _pending_updates h with
     | [] => ret tt
     | to_process =>
         run modify (set_session_handler (set_pending []));
         do results <- Redis.execute (map (λ it, PGet (session_key (fst it))) to_process);
         do cmds <- fill_write_pipeline (sh_timeout_seconds h) to_process results;
         run Redis.execute cmds;
         ret tt
     end)
    (λ _, ret tt).

(** What a round does, as functions of the store it reads: the
    pending entries whose session the read pipeline returns, the
    [SET]s queued for them and the publication tasks created for
    them. *)
Definition flushed (now : Z) (store : gmap string Entry) (to_process : list (string * Pending))
  : list (string * Pending * Session) :=
  omap (λ it, match Redis.get_pure now store (session_key (fst it)) with
              | Ok (Some session) => Some (fst it, snd it, session)
              | _ => None
              end) to_process.

Definition writes (timeout : Z) (fl : list (string * Pending * Session)) : list PipeCmd :=
  map (λ x, PSet (session_key (fst (fst x))) (merge_session (snd x) (snd (fst x))) timeout) fl.

Definition publications (fl : list (string * Pending * Session)) : list Event :=
  map (λ x, EvCreateTask (update_event (fst (fst x)) (snd (fst x)))) fl.

(** The reads of a round succeed: no pending session key holds a hash. *)
Definition reads_succeed (now : Z) (store : gmap string Entry)
    (to_process : list (string * Pending)) : Prop :=
  Forall (λ it, ∃ r, Redis.get_pure now store (session_key (fst it)) = Ok r) to_process.

(** The ordering the specification states for a round, read off a
    trace: wherever a publication of [events:session:update:...] is
    initiated, a write pipeline (one that carries a [SET]) has been
    executed before. *)
Definition is_write_pipeline (e : Event) : Prop :=
  ∃ cmds key v ex, e = EvPipeline cmds ∧ PSet key v ex ∈ cmds.

Definition publishes_after_write (round : list Event) : Prop :=
  ∀ before channel payload later,
    round = (before ++ EvCreateTask (TPublish channel payload) :: later)%list →
    ∃ e, e ∈ before ∧ is_write_pipeline e.

(** [_batch_writer], run for the rounds that wake at the given instants. *)
Fixpoint _batch_writer (wakeups : list Z) : M unit :=
  match wakeups with
  | [] => ret tt
  | t :: rest =>
      run modify (set_clock t);
      run flush_round;
      _batch_writer rest
  end.

End BatchWriter.

(** ** session/users.py *)

Record RegisterRequest := {
  rr_username : string;
  rr_email : string;
  rr_password : string;
}.

Record LoginRequest := {
  lr_username : string;
  lr_password : string;
}.

Record LoginResponse := {
  access_token : string;
  token_type : string;
  expires_in : Z;
  lresp_user : list (string * string);
  lresp_session_id : string;
}.

(** What the auth gate returns: [current_user]. *)
Record Principal := {
  pr_user_id : string;
  pr_username : option string;
  pr_role : string;
  pr_session_id : option string;
}.

Module Users.

Definition user_key (username : string) : string := "users:" +:+ username.

Definition cache_user (username : string) (user_data : gmap string Field) (u : UserManager)
  : UserManager :=
  {| um_timeout_seconds := um_timeout_seconds u;
     users_cache := <[username := user_data]> (users_cache u) |}.

Definition user_json (user_data : gmap string Field) : json :=
  dict_json (map_to_list user_data).

(** [UserManager.save_user_to_redis] *)
Definition save_user_to_redis (username : string) (user_data : gmap string Field) : M unit :=
  let key := user_key username in
  run Redis.hset key (map_to_list user_data);
  do timeout <- gets (λ w, um_timeout_seconds (user_manager w));
  run Redis.expire key (timeout * 12);
  run modify (set_user_manager (cache_user username user_data));
  Events.publish ("events:user:register:" +:+ username)
    (JObj [("username", JStr username); ("user_data", user_json user_data)]).

(** [UserManager.get_user_from_redis]; [None] when the user is unknown. *)
Definition get_user_from_redis (username : string) : M (option (gmap string Field)) :=
  do u <- gets user_manager;
  match users_cache u !! username with
  | Some cached => ret (Some cached)
  | None =>
      do user_data <- Redis.hgetall (user_key username);
      if decide (user_data = ∅) then ret None
      else
        do last_login <- field_float (default (FNum 0) (user_data !! "last_login"));
        let loaded : gmap string Field :=
          <["password" := FStr (field_text (default (FStr "") (user_data !! "password")))]>
          (<["email" := FStr (field_text (default (FStr "") (user_data !! "email")))]>
          (<["role" := FStr (field_text (default (FStr "user") (user_data !! "role")))]>
          (<["last_login" := FNum last_login]> ∅))) in
        run modify (set_user_manager (cache_user username loaded));
        ret (Some loaded)
  end.

(** Truthiness of the dict [get_user_from_redis] returned. *)
Definition user_found (o : option (gmap string Field)) : bool :=
  match o with
  | Some d => negb (bool_decide (d = ∅))
  | None => false
  end.

Definition _hash_password (password : string) : M string :=
  do e <- gets ext;
  ret (sha256_hexdigest e password).

(** [d[k]] on a user dict. *)
Definition item (d : gmap string Field) (k : string) : M string :=
  match d !! k with
  | Some f => ret (field_text f)
  | None => raise (KeyError k)
  end.

(** [UserManager.register] *)
Definition register (request : RegisterRequest) : M string :=
  do existing_user <- get_user_from_redis (rr_username request);
  if user_found existing_user then
    raise (HTTPException 400 (DText "Username already exists"))
  else
    do hashed_pw <- _hash_password (rr_password request);
    do now <- time_time;
    let user_data : gmap string Field :=
      <["password" := FStr hashed_pw]>
      (<["email" := FStr (rr_email request)]>
      (<["role" := FStr "user"]>
      (<["last_login" := FNum now]> ∅))) in
    run save_user_to_redis (rr_username request) user_data;
    ret (rr_username request).

(** The head of [login]: the credentials are checked and the token is
    issued.  Returns the user dict and the token. *)
Definition check_credentials (request : LoginRequest) : M (gmap string Field * string) :=
  do user_data <- get_user_from_redis (lr_username request);
  if negb (user_found user_data) then
    raise (HTTPException 401 (DText "Invalid username or password"))
  else
    let user_data := default ∅ user_data in
    do stored_hash <- item user_data "password";
    do given_hash <- _hash_password (lr_password request);
    if negb (String.eqb stored_hash given_hash) then
      raise (HTTPException 401 (DText "Invalid username or password"))
    else
      do role <- item user_data "role";
      let user_data_jwt : Claims :=
        <["sub" := lr_username request]>
        (<["user_id" := lr_username request]>
        (<["role" := role]> ∅)) in
      do token <- Security.create_access_token user_data_jwt;
      ret (user_data, token).

(** "Check for and delete old session for this user (single session
    policy)": the [if existing_conn:] block of [login]. *)
Definition delete_old_session (user_id : string) : M unit :=
  do existing_conn <- Connections.get_connection_info user_id;
  match existing_conn with
  | Some conn =>
      let old_session_id := cd_get conn "session_id" in
      if truthy old_session_id then
        let old := default "" old_session_id in
        run Handler.delete_session old;
        run Connections.remove_connection user_id;
        Events.publish ("events:session:logout:" +:+ user_id)
          (JObj [("user_id", JStr user_id); ("session_id", JStr old);
                 ("reason", JStr "new_login")])
      else ret tt
  | None => ret tt
  end.

(** [UserManager.login] *)
Definition login (request : LoginRequest) : M LoginResponse :=
  do '(user_data, token) <- check_credentials request;
  let user_id := lr_username request in
  do now <- time_time;
  let user_data := <["last_login" := FNum now]> user_data in
  run save_user_to_redis (lr_username request) user_data;
  run delete_old_session user_id;
  let chat_id := "default" in
  do '(session, session_id) <- Handler.get_or_create_session user_id chat_id None;
  do gateway_id <- gets replica;
  run Connections.track_connection user_id session_id (Some gateway_id) false;
  run Handler.update_timestamp_only session_id;
  do minutes <- gets (λ w, access_token_expire_minutes (security_manager w));
  do role <- item user_data "role";
  ret {| access_token := token;
         token_type := "bearer";
         expires_in := minutes * 60;
         lresp_user := [("username", lr_username request); ("role", role)];
         lresp_session_id := session_id |}.

(** [UserManager.logout] *)
Definition logout (current_user : Principal) : M string :=
  let user_id := pr_user_id current_user in
  let session_id := pr_session_id current_user in
  run Connections.remove_connection user_id;
  run Events.publish ("events:session:logout:" +:+ user_id)
        (JObj [("user_id", JStr user_id);
               ("session_id", match session_id with Some s => JStr s | None => JNull end);
               ("action", JStr "cleanup_ws")]);
  ret "Logged out successfully".

Definition uncache_user (username : string) (u : UserManager) : UserManager :=
  {| um_timeout_seconds := um_timeout_seconds u;
     users_cache := base.delete username (users_cache u) |}.

(** [UserManager.delete_user_from_redis] *)
Definition delete_user_from_redis (username : string) : M unit :=
  run Redis.delete (user_key username);
  run modify (set_user_manager (uncache_user username));
  Events.publish ("events:user:delete:" +:+ username) (JObj [("username", JStr username)]).

(** [UserManager.delete_account]; [current_user["username"]] is the
    [sub] claim, which the gate leaves [None] when the token has none. *)
Definition delete_account (current_user : Principal) : M string :=
  let username := pr_username current_user in
  let user_id := pr_user_id current_user in
  run delete_user_from_redis (default "None" username);
  run Handler.cleanup_user_sessions user_id;
  run Connections.remove_connection user_id;
  run Events.publish ("events:account:deleted:" +:+ user_id)
        (JObj [("user_id", JStr user_id);
               ("username", match username with Some n => JStr n | None => JNull end)]);
  ret "Account deleted successfully".

End Users.

(** ** session/cleaner.py *)

Module Cleaner.

(** [key.split(":")[1]] *)
Definition username_of_key (key : string) : M string :=
  match split_on ":" key !! 1%nat with
  | Some u => ret u
  | None => raise IndexError
  end.

(** [SessionCleaner.cleanup_inactive_users] *)
Definition cleanup_inactive_users (days_inactive : Z) : M unit :=
  do now <- time_time;
  let cutoff := now - days_inactive * 86400 in
  do user_keys <- Redis.keys "users:";
  for_each user_keys
    (λ key,
      do username <- username_of_key key;
      do user_data <- Redis.hgetall key;
      do last_login <- field_float (default (FNum 0) (user_data !! "last_login"));
      if last_login <? cutoff then
        run Handler.cleanup_user_sessions username;
        run Connections.remove_connection username;
        Events.publish ("events:user:inactive_cleanup:" +:+ username)
          (JObj [("username", JStr username); ("reason", JStr "long_inactivity");
                 ("action", JStr "cleanup_sessions_and_ws")])
      else ret tt).

(** The loop of [cleanup_expired_sessions]; [deleted] is the list it
    builds.  The keys come from a client created with
    [decode_responses=True]: they are [str], and the log line of the
    inactivity branch evaluates [key.decode()] once the key has been
    appended. *)
Fixpoint scan_expired (now max_inactive_days : Z) (keys deleted : list string)
  : M (list string) :=
  match keys with
  | [] => ret deleted
  | key :: rest =>
      do ttl <- Redis.ttl key;
      if ttl =? -2 then scan_expired now max_inactive_days rest (deleted ++ [key])
      else
        do serialized <- Redis.get key;
        match serialized with
        | Some session =>
            if max_inactive_days * 86400 <? now - s_last_access session then
              raise (AttributeError "'str' object has no attribute 'decode'")
            else scan_expired now max_inactive_days rest deleted
        | None => scan_expired now max_inactive_days rest deleted
        end
  end.

(** [SessionCleaner.cleanup_expired_sessions] *)
Definition cleanup_expired_sessions (max_inactive_days : Z) : M unit :=
  do keys <- Redis.keys "sessions:";
  do now <- time_time;
  do deleted <- scan_expired now max_inactive_days keys [];
  match deleted with
  | [] => ret tt
  | _ => Redis.delete_many deleted
  end.

(** [SessionCleaner.cleanup] *)
Definition cleanup (days_inactive : Z) : M unit :=
  run cleanup_expired_sessions days_inactive;
  cleanup_inactive_users days_inactive.

End Cleaner.

(** ** session/manager.py *)

(** [f"{x}"] of an optional string. *)
Definition py_str (o : option string) : string := default "None" o.

Module Manager.

(** [session.utils._get_gateway_id] *)
Definition _get_gateway_id : M string :=
  do pod_name <- getenv "POD_NAME" "localhost";
  ret (pod_name +:+ ":8000").

(** [except HTTPException: raise] / [except Exception: raise 500] *)
Definition internal_auth_error (e : Exn) : M Principal :=
  match e with
  | HTTPException _ _ => raise e
  | _ => raise (HTTPException 500 (DText "Internal auth error"))
  end.

Definition principal (user_id : string) (payload : Claims) (session_id : option string)
  : Principal :=
  {| pr_user_id := user_id;
     pr_username := payload !! "sub";
     pr_role := default "user" (payload !! "role");
     pr_session_id := session_id |}.

(** The dependency built by [SessionManager.get_current_user_with_activity]:
    the gate of every authenticated HTTP route. *)
Definition get_current_user_with_activity (token : option string) : M Principal :=
  try_except
    (do payload <- Security.verify_token token;
     let user_id := py_or (payload !! "sub") (payload !! "user_id") in
     if negb (truthy user_id) then
       raise (HTTPException 401 (DText "Invalid token: missing user_id"))
     else
       let user_id := default "" user_id in
       do conn <- Connections.get_connection_info user_id;
       do conn <-
         match conn with
         | Some c => ret (Some c)
         | None =>
             let chat_id := "default" in
             do '(session, session_id) <- Handler.get_or_create_session user_id chat_id None;
             do gateway_id <- _get_gateway_id;
             run Connections.track_connection user_id session_id (Some gateway_id) false;
             Connections.get_connection_info user_id
         end;
       let session_id := conn ≫= λ c, cd_get c "session_id" in
       if negb (truthy session_id) then
         raise (HTTPException 400 (DText "No active session found"))
       else
         run Connections.update_connection_timestamp user_id session_id;
         run Handler.update_timestamp_only (py_str session_id);
         ret (principal user_id payload session_id))
    internal_auth_error.

(** [SessionManager.verify_and_update_activity]: the gate called from
    WebSocket code. *)
Definition verify_and_update_activity (token : option string)
    (expected_session_id : option string) : M Principal :=
  try_except
    (do payload <- Security.verify_token token;
     let user_id := py_or (payload !! "sub") (payload !! "user_id") in
     if negb (truthy user_id) then
       raise (HTTPException 401 (DText "Invalid token"))
     else
       let user_id := default "" user_id in
       do conn <- Connections.get_connection_info user_id;
       match conn with
       | None => raise (HTTPException 400 (DText "No active session"))
       | Some c =>
           let session_id := cd_get c "session_id" in
           if truthy expected_session_id && negb (bool_decide (session_id = expected_session_id))
           then raise (HTTPException 400 (DText "Session mismatch"))
           else
             run Connections.update_connection_timestamp user_id session_id;
             run Handler.update_timestamp_only (py_str session_id);
             ret (principal user_id payload session_id)
       end)
    internal_auth_error.

(** Route [POST /sessions/logout]. *)
Definition logout_user (token : option string) : M string :=
  do current_user <- get_current_user_with_activity token;
  Users.logout current_user.

End Manager.

(** ** starlette sockets *)

Module Socket.

Definition fresh : WebSocket :=
  {| client_state := CONNECTING; application_state := CONNECTING;
     sent := []; close_frame := None |}.

Definition lookup (ws : nat) : M WebSocket :=
  gets (λ w, default fresh (sockets w !! ws)).

Definition connected (st : WebSocketState) : bool :=
  match st with
  | CONNECTED => true
  | _ => false
  end.

(** [websocket.accept()] *)
Definition accept (ws : nat) : M unit :=
  do s <- lookup ws;
  run modify (set_sockets
                <[ws := {| client_state := CONNECTED; application_state := CONNECTED;
                           sent := sent s; close_frame := close_frame s |}]>);
  modify (emit (EvWs ws WsAccept)).

(** [websocket.send_text] / [websocket.send_bytes] of a JSON frame. *)
Definition send (ws : nat) (frame : json) : M unit :=
  do s <- lookup ws;
  if connected (application_state s) then
    run modify (set_sockets
                  <[ws := {| client_state := client_state s;
                             application_state := application_state s;
                             sent := sent s ++ [frame]; close_frame := close_frame s |}]>);
    modify (emit (EvWs ws (WsSend frame)))
  else raise (RuntimeError "Cannot call send once a close message has been sent.").

(** [websocket.close(code, reason)] *)
Definition close (ws : nat) (code : Z) (reason : string) : M unit :=
  do s <- lookup ws;
  if connected (application_state s) then
    run modify (set_sockets
                  <[ws := {| client_state := client_state s;
                             application_state := DISCONNECTED;
                             sent := sent s; close_frame := Some (code, reason) |}]>);
    modify (emit (EvWs ws (WsClose code reason)))
  else raise (RuntimeError "Cannot call send once a close message has been sent.").

Definition client_connected (ws : nat) : M bool :=
  do s <- lookup ws;
  ret (connected (client_state s)).

End Socket.

(** ** wss/registry.py *)

Module WssRegistry.

Definition set_active (f : gmap string ConnectionInfo → gmap string ConnectionInfo) (d : Z)
    (r : WebsocketsRegistry) : WebsocketsRegistry :=
  {| reg_timeout_seconds := reg_timeout_seconds r;
     active_connections := f (active_connections r);
     _connections_count := _connections_count r + d;
     last_seen_update_interval := last_seen_update_interval r |}.

(** [WebsocketsRegistry.track_ws_connection].  [ConnectionInfo] declares
    [session_id: str]; building it validates the argument, and the
    validated string is returned to the caller. *)
Definition track_ws_connection (user_id : string) (session_id : option string)
    (gateway_id chat_id : string) (websocket : nat) : M string :=
  do current_time <- time_time;
  match session_id with
  | None => raise (ValidationError "session_id: Input should be a valid string")
  | Some sid =>
      let conn_info :=
        {| ci_websocket := websocket; ci_gateway_id := gateway_id;
           ci_last_seen := current_time; ci_user_id := user_id; ci_session_id := sid;
           ci_connected_at := current_time; ci_role := "user" |} in
      run modify (set_ws_registry (set_active <[user_id := conn_info]> 1));
      let key := Connections.connection_key user_id in
      let data := [("session_id", FStr sid); ("gateway_id", FStr gateway_id);
                   ("ws_connected", FStr "1"); ("last_seen", FNum current_time);
                   ("connected_at", FNum current_time)] in
      run Redis.hset key data;
      do timeout <- gets (λ w, reg_timeout_seconds (ws_registry w));
      run Redis.expire key timeout;
      ret sid
  end.

Definition seen (now : Z) (c : ConnectionInfo) : ConnectionInfo :=
  {| ci_websocket := ci_websocket c; ci_gateway_id := ci_gateway_id c;
     ci_last_seen := now; ci_user_id := ci_user_id c; ci_session_id := ci_session_id c;
     ci_connected_at := ci_connected_at c; ci_role := ci_role c |}.

(** [WebsocketsRegistry.update_connection_timestamp] *)
Definition update_connection_timestamp (user_id session_id : string) : M unit :=
  do r <- gets ws_registry;
  match active_connections r !! user_id with
  | Some c =>
      do current_time <- time_time;
      if last_seen_update_interval r <=? current_time - ci_last_seen c then
        run modify (set_ws_registry (set_active <[user_id := seen current_time c]> 0));
        let key := Connections.connection_key user_id in
        run Redis.hset key [("last_seen", FNum current_time)];
        Redis.expire key (reg_timeout_seconds r)
      else ret tt
  | None => ret tt
  end.

(** [WebsocketsRegistry.remove_ws_connection] *)
Definition remove_ws_connection (user_id : string) (session_id : option string) : M unit :=
  do r <- gets ws_registry;
  run match active_connections r !! user_id with
      | Some conn_info =>
          run modify (set_ws_registry (set_active (base.delete user_id) (-1)));
          try_except (Socket.close (ci_websocket conn_info) 1000 "Session ended") (λ _, ret tt)
      | None => ret tt
      end;
  let key := Connections.connection_key user_id in
  run Redis.hdel key "ws_connected";
  Redis.publish ("events:connection:removed:" +:+ user_id)
    (JObj [("user_id", JStr user_id);
           ("session_id", match session_id with Some s => JStr s | None => JNull end)]).

End WssRegistry.

(** ** wss/manager.py *)

(** A decoded inbound frame ([orjson.loads]). *)
Inductive Frame :=
| InvalidJson
| JsonObject (d : gmap string json)
| JsonOther (v : json).

(** What [websocket.receive()] returns. *)
Inductive Incoming :=
| Receive (frame : Frame)
| Disconnect.

(** How the receive loop was left: it returned, or it is suspended in
    [websocket.receive()] with no further inbound message. *)
Inductive LoopExit := LoopReturned | LoopWaiting.

(** The value under ["type"], as the dispatcher uses it. *)
Inductive MsgType :=
| TypeFalsy
| TypeText (s : string)
| TypeScalar (repr : string)
| TypeUnhashable.

Definition classify (v : option json) : MsgType :=
  match v with
  | None | Some JNull | Some (JBool false) | Some (JNum 0) | Some (JStr "")
  | Some (JList []) | Some (JObj []) => TypeFalsy
  | Some (JStr s) => TypeText s
  | Some (JBool true) => TypeScalar "True"
  | Some (JNum z) => TypeScalar (pretty z)
  | Some (JList _) | Some (JObj _) => TypeUnhashable
  end.

Module WssManager.

Definition gateway_id : M string :=
  do host <- getenv "HOST" "localhost";
  do port <- getenv "PORT" "8000";
  ret (host +:+ ":" +:+ port).

Definition error_frame (message : string) : json :=
  JObj [("type", JStr "error"); ("message", JStr message)].

(** [_send_error] *)
Definition _send_error (ws : nat) (message : string) : M unit :=
  do up <- Socket.client_connected ws;
  if up then try_except (Socket.send ws (error_frame message)) (λ _, ret tt)
  else ret tt.

Definition welcome_frame (user_id session_id gw : string) (m : WebsocketsManager) : json :=
  JObj [("type", JStr "connected");
        ("message", JStr "WebSocket connection established");
        ("user_id", JStr user_id);
        ("session_id", JStr session_id);
        ("gateway_id", JStr gw);
        ("ping_interval", JNum (ping_interval m));
        ("inactivity_timeout", JNum (inactivity_timeout m))].

(** [_send_welcome] *)
Definition _send_welcome (ws : nat) (user_id session_id : string) : M unit :=
  do up <- Socket.client_connected ws;
  if up then
    try_except
      (do gw <- gateway_id;
       do m <- gets ws_manager;
       Socket.send ws (welcome_frame user_id session_id gw m))
      (λ _, ret tt)
  else ret tt.

(** [_send_pong] *)
Definition _send_pong (ws : nat) : M unit :=
  do up <- Socket.client_connected ws;
  if up then
    try_except
      (do now <- time_time;
       Socket.send ws (JObj [("type", JStr "pong"); ("timestamp", JNum now)]))
      (λ _, ret tt)
  else ret tt.

Definition ack_frame (key session_id gw : string) : json :=
  JObj [("type", JStr "ack");
        ("message", JStr "API key update acknowledged");
        ("api_key", JStr key);
        ("data", JNull);
        ("session_id", JStr session_id);
        ("gateway_id", JStr gw)].

(** [_send_ack] *)
Definition _send_ack (ws : nat) (key session_id : string) : M unit :=
  do up <- Socket.client_connected ws;
  if up then
    try_except
      (do gw <- gateway_id;
       Socket.send ws (ack_frame key session_id gw))
      (λ _, ret tt)
  else ret tt.

Definition set_states (f : gmap string ConnectionState → gmap string ConnectionState)
    (m : WebsocketsManager) : WebsocketsManager :=
  {| message_cache := message_cache m; cache_ttl := cache_ttl m;
     connection_states := f (connection_states m);
     ping_interval := ping_interval m; pong_timeout := pong_timeout m;
     inactivity_timeout := inactivity_timeout m;
     message_permissions := message_permissions m; ws_handlers := ws_handlers m |}.

Definition set_message_cache
    (f : gmap string (gmap string (gmap string CachedMessage))
         → gmap string (gmap string (gmap string CachedMessage)))
    (m : WebsocketsManager) : WebsocketsManager :=
  {| message_cache := f (message_cache m); cache_ttl := cache_ttl m;
     connection_states := connection_states m;
     ping_interval := ping_interval m; pong_timeout := pong_timeout m;
     inactivity_timeout := inactivity_timeout m;
     message_permissions := message_permissions m; ws_handlers := ws_handlers m |}.

(** [_update_activity] *)
Definition _update_activity (user_id : string) : M unit :=
  do now <- time_time;
  modify (set_ws_manager (set_states (λ st,
    match st !! user_id with
    | Some s => <[user_id := {| last_activity := now; last_pong := last_pong s;
                                ping_task := ping_task s;
                                inactivity_task := inactivity_task s |}]> st
    | None => st
    end))).

(** [_update_pong] *)
Definition _update_pong (user_id : string) : M unit :=
  do now <- time_time;
  modify (set_ws_manager (set_states (λ st,
    match st !! user_id with
    | Some s => <[user_id := {| last_activity := last_activity s; last_pong := now;
                                ping_task := ping_task s;
                                inactivity_task := inactivity_task s |}]> st
    | None => st
    end))).

(** [_stop_health_monitoring] *)
Definition _stop_health_monitoring (user_id : string) : M unit :=
  do m <- gets ws_manager;
  match connection_states m !! user_id with
  | None => ret tt
  | Some state =>
      for_each [ping_task state; inactivity_task state]
        (λ task, match task with
                 | Some t => modify (emit (EvCancelTask t))
                 | None => ret tt
                 end)
  end.

(** [_start_health_monitoring] *)
Definition _start_health_monitoring (user_id session_id : string) (ws : nat) : M unit :=
  run _stop_health_monitoring user_id;
  let ping := TPingLoop user_id session_id ws in
  let inactivity := TInactivityMonitor user_id session_id ws in
  run create_task ping;
  run create_task inactivity;
  modify (set_ws_manager (set_states (λ st,
    match st !! user_id with
    | Some s => <[user_id := {| last_activity := last_activity s; last_pong := last_pong s;
                                ping_task := Some ping;
                                inactivity_task := Some inactivity |}]> st
    | None => st
    end))).

(** [_is_message_allowed], for a textual message type. *)
Definition _is_message_allowed (message_type user_role : string) (m : WebsocketsManager) : bool :=
  let allowed := default [] (message_permissions m !! user_role) in
  if bool_decide ("*" ∈ allowed) then true
  else if bool_decide (message_type ∈ allowed) then true
  else match ws_handlers m !! message_type with
       | Some require_auth => negb require_auth
       | None => false
       end.

(** [_is_duplicate_message] *)
Definition _is_duplicate_message (user_id session_id message_type message_data : string)
  : M bool :=
  do m <- gets ws_manager;
  match message_cache m !! user_id with
  | None => ret false
  | Some sessions =>
      match sessions !! session_id with
      | None => ret false
      | Some messages =>
          match messages !! message_type with
          | None => ret false
          | Some cached_msg =>
              do now <- time_time;
              let is_recent := now - cmsg_timestamp cached_msg <? cache_ttl m in
              ret (String.eqb (cmsg_message_data cached_msg) message_data && is_recent)
          end
      end
  end.

Definition cache_insert (user_id session_id message_type : string) (c : CachedMessage)
    (cache : gmap string (gmap string (gmap string CachedMessage)))
  : gmap string (gmap string (gmap string CachedMessage)) :=
  let sessions := default ∅ (cache !! user_id) in
  let messages := default ∅ (sessions !! session_id) in
  <[user_id := <[session_id := <[message_type := c]> messages]> sessions]> cache.

(** [_cache_message] *)
Definition _cache_message (user_id session_id message_type message_data : string) : M unit :=
  do now <- time_time;
  let cached_msg :=
    {| cmsg_message_type := message_type; cmsg_message_data := message_data;
       cmsg_timestamp := now; cmsg_user_id := user_id; cmsg_session_id := session_id |} in
  modify (set_ws_manager (set_message_cache (cache_insert user_id session_id message_type cached_msg))).

(** [_cleanup_user_cache] *)
Definition _cleanup_user_cache (user_id : string) (session_id : option string) : M unit :=
  modify (set_ws_manager (set_message_cache (λ cache,
    match cache !! user_id with
    | Some sessions =>
        let sessions' := match session_id with
                         | Some sid => base.delete sid sessions
                         | None => sessions
                         end in
        if bool_decide (dom sessions' = ∅) then base.delete user_id cache
        else <[user_id := sessions']> cache
    | None => cache
    end))).

(** [_process_api_key_update]: the body of the background task. *)
Definition _process_api_key_update (user_id session_id key : string) : M unit :=
  try_except
    (Handler.update_session user_id "default" (<["api_key" := JStr key]> ∅) session_id)
    (λ _, modify (set_ws_manager (set_message_cache (λ cache,
       match cache !! user_id with
       | Some sessions =>
           match sessions !! session_id with
           | Some messages =>
               <[user_id := <[session_id := base.delete "update_api_key" messages]> sessions]> cache
           | None => cache
           end
       | None => cache
       end)))).

(** [msg_dict.get("key", "")], which [CachedMessage] requires to be text. *)
Definition key_of (msg_dict : gmap string json) : M string :=
  match msg_dict !! "key" with
  | None => ret ""
  | Some (JStr k) => ret k
  | Some _ => raise (ValidationError "message_data: Input should be a valid string")
  end.

(** [_handle_api_key_update] *)
Definition _handle_api_key_update (user_id session_id : string) (msg_dict : gmap string json)
    (ws : nat) : M unit :=
  do key <- key_of msg_dict;
  let message_type := "update_api_key" in
  do dup <- _is_duplicate_message user_id session_id message_type key;
  if dup then _send_ack ws key session_id
  else
    run _cache_message user_id session_id message_type key;
    run _send_ack ws key session_id;
    create_task (TProcessApiKeyUpdate user_id session_id key).

(** [_handle_dynamic_message]; the registered upstream handler is an
    effect of its own. *)
Definition _handle_dynamic_message (user_id session_id msg_type : string)
    (msg_dict : gmap string json) (ws : nat) : M unit :=
  let message_data := default (JObj []) (msg_dict !! "data") in
  modify (emit (EvDynamicHandler msg_type user_id session_id ws message_data)).

(** [handle_ws_message] *)
Definition handle_ws_message (user_id session_id : string) (frame : Frame) (ws : nat)
    (user_role : string) : M unit :=
  match frame with
  | InvalidJson => _send_error ws "Invalid JSON"
  | JsonOther _ => _send_error ws "Internal error"
  | JsonObject msg_dict =>
      try_except
        (match classify (msg_dict !! "type") with
         | TypeFalsy => _send_error ws "Missing message type"
         | TypeUnhashable => raise (AttributeError "unhashable type")
         | TypeScalar repr =>
             do m <- gets ws_manager;
             if bool_decide ("*" ∈ default [] (message_permissions m !! user_role)) then
               _send_error ws ("Unknown message type: " +:+ repr)
             else
               _send_error ws ("Unauthorized: role '" +:+ user_role +:+ "' cannot send '"
                               +:+ repr +:+ "'")
         | TypeText msg_type =>
             if String.eqb msg_type "pong" then _update_pong user_id
             else if String.eqb msg_type "ping" then _send_pong ws
             else
               do m <- gets ws_manager;
               if negb (_is_message_allowed msg_type user_role m) then
                 _send_error ws ("Unauthorized: role '" +:+ user_role +:+ "' cannot send '"
                                 +:+ msg_type +:+ "'")
               else if String.eqb msg_type "update_api_key" then
                 _handle_api_key_update user_id session_id msg_dict ws
               else if bool_decide (is_Some (ws_handlers m !! msg_type)) then
                 _handle_dynamic_message user_id session_id msg_type msg_dict ws
               else _send_error ws ("Unknown message type: " +:+ msg_type)
         end)
        (λ _, _send_error ws "Internal error")
  end.

(** [_message_loop], fed the inbound messages with their arrival
    instants.  [EvMessageLoop] marks the entry in the trace. *)
Fixpoint receive_loop (ws : nat) (user_id session_id : string) (token : option string)
    (user_role : string) (last_session_update : Z) (incoming : list (Z * Incoming))
  : M LoopExit :=
  match incoming with
  | [] => ret LoopWaiting
  | (t, Disconnect) :: _ => run modify (set_clock t); ret LoopReturned
  | (t, Receive frame) :: rest =>
      run modify (set_clock t);
      run _update_activity user_id;
      run WssRegistry.update_connection_timestamp user_id session_id;
      run handle_ws_message user_id session_id frame ws user_role;
      do current_time <- time_time;
      if 60 <=? current_time - last_session_update then
        do refreshed <-
          try_except
            (run Manager.verify_and_update_activity token (Some session_id); ret true)
            (λ _, ret false);
        receive_loop ws user_id session_id token user_role
          (if refreshed then current_time else last_session_update) rest
      else receive_loop ws user_id session_id token user_role last_session_update rest
  end.

Definition _message_loop (ws : nat) (user_id session_id : string) (token : option string)
    (user_role : string) (incoming : list (Z * Incoming)) : M LoopExit :=
  run modify (emit (EvMessageLoop user_id session_id));
  do last_session_update <- time_time;
  try_except
    (receive_loop ws user_id session_id token user_role last_session_update incoming)
    (λ _, ret LoopReturned).

(** [message_cache[user][session][type]], when the three levels exist. *)
Definition cached (cache : gmap string (gmap string (gmap string CachedMessage)))
    (user_id session_id message_type : string) : option CachedMessage :=
  cache !! user_id ≫= λ sessions, sessions !! session_id ≫= λ messages,
  messages !! message_type.

(** The decoded frame [{"type": "update_api_key", "key": key}]. *)
Definition api_key_frame (key : string) : Frame :=
  JsonObject (<["type" := JStr "update_api_key"]> (<["key" := JStr key]> ∅)).

(** The dispatcher, handed the same frame at each of the given
    instants, as the receive loop does for a burst of identical
    messages. *)
Fixpoint handle_repeated (user_id session_id : string) (frame : Frame) (ws : nat)
    (user_role : string) (instants : list Z) : M unit :=
  match instants with
  | [] => ret tt
  | t :: rest =>
      run modify (set_clock t);
      run handle_ws_message user_id session_id frame ws user_role;
      handle_repeated user_id session_id frame ws user_role rest
  end.

(** The first [try] of [ws_connect]: who the socket belongs to, or
    [None] when the handshake was closed. *)
Definition authenticate (ws : nat) (session_id token : option string)
  : M (option (string * string)) :=
  try_except
    (do user <- Security.verify_token token;
     if bool_decide (dom user = ∅) then raise (ValueError "Token verification returned None")
     else
       let user_id := py_or (user !! "user_id") (user !! "sub") in
       let user_role := default "user" (user !! "role") in
       if negb (truthy user_id) then raise (ValueError "Invalid user ID in token")
       else
         let user_id := default "" user_id in
         do conn_info <- Connections.get_connection_info user_id;
         match conn_info with
         | Some c =>
             if negb (bool_decide (cd_get c "session_id" = session_id)) then
               run Socket.close ws 1008 "Session mismatch";
               ret None
             else ret (Some (user_id, user_role))
         | None => ret (Some (user_id, user_role))
         end)
    (λ _, run Socket.close ws 1008 "Invalid token"; ret None).

(** The [finally] of [ws_connect]. *)
Definition disconnect_cleanup (user_id : string) (session_id : option string) : M unit :=
  run _stop_health_monitoring user_id;
  run modify (set_ws_manager (set_states (base.delete user_id)));
  run _cleanup_user_cache user_id session_id;
  WssRegistry.remove_ws_connection user_id session_id.

(** Route [/ws/connect]. *)
Definition ws_connect (ws : nat) (session_id token : option string)
    (incoming : list (Z * Incoming)) : M unit :=
  run Socket.accept ws;
  do auth <- authenticate ws session_id token;
  match auth with
  | None => ret tt
  | Some (user_id, user_role) =>
      do gw <- gateway_id;
      do left <-
        try_except
          (do sid <- WssRegistry.track_ws_connection user_id session_id gw "default" ws;
           do current_time <- time_time;
           run modify (set_ws_manager (set_states
                 <[user_id := {| last_activity := current_time; last_pong := current_time;
                                 ping_task := None; inactivity_task := None |}]>));
           run _start_health_monitoring user_id sid ws;
           run _send_welcome ws user_id sid;
           _message_loop ws user_id sid token user_role incoming)
          (λ _, ret LoopReturned);
      match left with
      | LoopWaiting => ret tt
      | LoopReturned => disconnect_cleanup user_id session_id
      end
  end.

(** [_cleanup_old_cache_entries]: expired messages go, then the sessions
    and users left empty. *)
Definition _cleanup_old_cache_entries : M unit :=
  do current_time <- time_time;
  modify (set_ws_manager (λ m, set_message_cache (λ cache,
    omap (λ sessions : gmap string (gmap string CachedMessage),
            let sessions' :=
              omap (λ messages : gmap string CachedMessage,
                      let messages' :=
                        filter (λ kv, current_time - cmsg_timestamp (snd kv) ≤ cache_ttl m)
                               messages in
                      if bool_decide (dom messages' = ∅) then None else Some messages')
                   sessions in
            if bool_decide (dom sessions' = ∅) then None else Some sessions')
         cache) m)).

Definition set_permissions (f : gmap string (list string) → gmap string (list string))
    (m : WebsocketsManager) : WebsocketsManager :=
  {| message_cache := message_cache m; cache_ttl := cache_ttl m;
     connection_states := connection_states m;
     ping_interval := ping_interval m; pong_timeout := pong_timeout m;
     inactivity_timeout := inactivity_timeout m;
     message_permissions := f (message_permissions m); ws_handlers := ws_handlers m |}.

(** [add_message_permission] *)
Definition add_message_permission (role message_type : string) : M unit :=
  modify (set_ws_manager (set_permissions (λ perms,
    let allowed : list string := default [] (perms !! role) in
    if bool_decide (message_type ∈ allowed) then <[role := allowed]> perms
    else <[role := (allowed ++ [message_type])%list]> perms))).

(** [list.remove(x)]: the first occurrence goes. *)
Fixpoint remove_first (x : string) (l : list string) : list string :=
  match l with
  | [] => []
  | y :: rest => if String.eqb y x then rest else y :: remove_first x rest
  end.

(** [remove_message_permission] *)
Definition remove_message_permission (role message_type : string) : M unit :=
  modify (set_ws_manager (set_permissions (λ perms,
    match perms !! role with
    | Some allowed =>
        if bool_decide (message_type ∈ allowed)
        then <[role := remove_first message_type allowed]> perms
        else perms
    | None => perms
    end))).

End WssManager.

(** ** utils/httpx_manager.py *)

Module Httpx.

(** What [await decorated_execute(...)] can raise: the httpx classes the
    module names, the breaker's error, anything else. *)
Inductive Failure :=
| TimeoutException
| NetworkError
| OtherRequestError
| HTTPStatusError (status_code : Z)
| CircuitBreakerError
| OtherException.

(** The outcome of one upstream call through the circuit breaker. *)
Inductive Outcome :=
| Responded (body : json)
| Failed (e : Failure).

(** The result of one run of the body of [make_request]. *)
Inductive Result :=
| Return (body : json)
| Raised (e : Failure).

(** [_should_retry]: defined by the module, referenced nowhere. *)
Definition _should_retry (exception : Failure) : bool :=
  match exception with
  | TimeoutException | NetworkError | CircuitBreakerError => true
  | HTTPStatusError status_code => (500 <=? status_code) || (status_code =? 429)
  | _ => false
  end.

(** The [retry=retry_if_exception_type((...))] of the decorator. *)
Definition retry_if_exception_type (e : Failure) : bool :=
  match e with
  | TimeoutException | NetworkError | CircuitBreakerError | HTTPStatusError _ => true
  | _ => false
  end.

Definition error_dict (error message : string) : json :=
  JObj [("error", JStr error); ("message", JStr message)].

(** [str(e)] of a status error, left opaque up to the code. *)
Definition status_message (status_code : Z) : string :=
  "HTTPStatusError " +:+ pretty status_code.

(** The body of [make_request]: one call, with its two [except] arms. *)
Definition make_request_once (o : Outcome) : Result :=
  match o with
  | Responded body => Return body
  | Failed CircuitBreakerError =>
      Return (error_dict "CIRCUIT_BREAKER_OPEN" "Service temporarily unavailable")
  | Failed (HTTPStatusError status_code) =>
      if status_code <? 500 then
        Return (error_dict ("HTTP_" +:+ pretty status_code) (status_message status_code))
      else Raised (HTTPStatusError status_code)
  | Failed e => Raised e
  end.

(** [wait_exponential(multiplier=1, min=1, max=10)] after attempt [n]. *)
Definition wait_exponential (attempt_number : nat) : Z :=
  Z.max (Z.max 0 1) (Z.min (1 * 2 ^ (Z.of_nat attempt_number - 1)) 10).

Record Run := {
  result : Result;
  attempts : nat;
  sleeps : list Z;
}.

(** The tenacity loop around [make_request]: [stop_after_attempt(3)],
    [reraise=True].  [upstream n] is what the [n]-th attempt meets. *)
Fixpoint retrying (remaining : nat) (attempt_number : nat) (upstream : nat → Outcome) : Run :=
  match make_request_once (upstream attempt_number) with
  | Return body => {| result := Return body; attempts := attempt_number; sleeps := [] |}
  | Raised e =>
      if retry_if_exception_type e then
        match remaining with
        | O => {| result := Raised e; attempts := attempt_number; sleeps := [] |}
        | S remaining' =>
            let r := retrying remaining' (S attempt_number) upstream in
            {| result := result r; attempts := attempts r;
               sleeps := wait_exponential attempt_number :: sleeps r |}
        end
      else {| result := Raised e; attempts := attempt_number; sleeps := [] |}
  end.

Definition stop_after_attempt : nat := 3.

(** [HttpxManager.make_request], decorated. *)
Definition make_request (upstream : nat → Outcome) : Run :=
  retrying (stop_after_attempt - 1) 1 upstream.

(** The failure classes after which the specification allows a retry. *)
Definition retryable (e : Failure) : Prop :=
  e = TimeoutException ∨ e = NetworkError ∨
  ∃ c, e = HTTPStatusError c ∧ (500 ≤ c ∨ c = 429).

(** Attempt [n] was made and another one followed it. *)
Definition retried_after (upstream : nat → Outcome) (n : nat) : Prop :=
  (1 ≤ n)%nat ∧ (n < attempts (make_request upstream))%nat.

(** An upstream that times out once, then answers 404. *)
Definition timeout_then_404 (n : nat) : Outcome :=
  match n with
  | 1%nat => Failed TimeoutException
  | _ => Failed (HTTPStatusError 404)
  end.

End Httpx.

(** ** A concrete gateway, for running the embedding *)

Module Demo.

(** A toy codec: the token is the subject; every non-blank token
    decodes to a [user] principal. *)
Definition demo_ext : Externals :=
  {| jwt_encode := λ c, default "" (c !! "sub");
     jwt_decode := λ t _,
       Decoded (<["sub" := t]> (<["user_id" := t]> (<["role" := "user"]> ∅)));
     sha256_hexdigest := λ p, "sha256(" +:+ p +:+ ")";
     uuid4 := λ n, "uuid-" +:+ pretty n |}.

(** A freshly started replica with the default configuration. *)
Definition init : World :=
  {| redis := ∅; trace := []; clock := 0; environ := ∅; ext := demo_ext; uuid_counter := 0;
     security_manager := {| access_token_expire_minutes := 30 |};
     user_manager := {| um_timeout_seconds := 1800; users_cache := ∅ |};
     session_handler :=
       {| sh_timeout_seconds := 1800; _pending_updates := []; _session_cache := ∅;
          _last_timestamp_updates := ∅; _cache_ttl := 30;
          sh_timestamp_update_interval := 30 |};
     connection_manager :=
       {| cm_timeout_seconds := 1800; cm_timestamp_update_interval := 30;
          _last_connection_updates := ∅ |};
     ws_registry :=
       {| reg_timeout_seconds := 1800; active_connections := ∅; _connections_count := 0;
          last_seen_update_interval := 30 |};
     ws_manager :=
       {| message_cache := ∅; cache_ttl := 300; connection_states := ∅;
          ping_interval := 25; pong_timeout := 30; inactivity_timeout := 60;
          message_permissions :=
            <["user" := ["update_api_key"; "chat_message"; "pong"; "ping"]]>
            (<["admin" := ["*"]]> ∅);
          ws_handlers := ∅ |};
     sockets := ∅ |}.

(** Run [m] at instant [t]. *)
Definition at_time {A} (t : Z) (m : M A) : M A :=
  run modify (set_clock t); m.

(** The world a computation leaves. *)
Definition after {A} (m : M A) (w : World) : World := snd (m w).

(** What the toy codec decodes the token ["alice"] to. *)
Definition alice_claims : Claims :=
  <["sub" := "alice"]> (<["user_id" := "alice"]> (<["role" := "user"]> ∅)).

Definition alice_login : LoginRequest :=
  {| lr_username := "alice"; lr_password := "pw" |}.

(** Seed scenario 1: alice registers at instant 1000 ... *)
Definition registered : World :=
  after (at_time 1000 (Users.register
           {| rr_username := "alice"; rr_email := "a@x"; rr_password := "pw" |})) init.

(** ... and logs in at 1010. *)
Definition logged_in : World := after (at_time 1010 (Users.login alice_login)) registered.

(** She logs out at 1020 and logs in again at 1030. *)
Definition logged_out : World :=
  after (at_time 1020 (Manager.logout_user (Some "alice"))) logged_in.

Definition logged_in_again : World :=
  after (at_time 1030 (Users.login alice_login)) logged_out.

(** Or, without logging out, she logs in a second time at 1030. *)
Definition relogged : World :=
  after (at_time 1030 (Users.login alice_login)) logged_in.

(** Logged in, alice has one update queued for her session at 1011;
    the batched writer wakes at 1012. *)
Definition update_queued : World :=
  set_clock 1012
    (after (at_time 1011 (Handler.update_session "alice" "default"
                            (<["api_key" := JStr "K"]> ∅) "uuid-0")) logged_in).

(** The events of that round. *)
Definition round_events : list Event :=
  drop (length (trace update_queued)) (trace (after BatchWriter.flush_round update_queued)).

(** The connection record of alice once she is logged in. *)
Definition alice_connection : ConnDict :=
  {| cd_fields := Redis.hash_update
                    (Connections.tracked_fields "uuid-0" "localhost:8000" false 1010) ∅;
     cd_ws_connected := false;
     cd_last_seen := 1010 |}.

(** Logged in, alice opens her socket at 1011; no message has arrived
    yet. *)
Definition connected : World :=
  after (at_time 1011 (WssManager.ws_connect 7 (Some "uuid-0") (Some "alice") [])) logged_in.

(** Seed scenario 6, for a user whose name holds a colon: [a:b]
    registers at 1000 and logs in at 1010; the reaper runs at 1100 with
    [MAX_INACTIVE_DAYS=0]. *)
Definition colon_user : World :=
  after (at_time 1010 (Users.login {| lr_username := "a:b"; lr_password := "pw" |}))
    (after (at_time 1000 (Users.register
              {| rr_username := "a:b"; rr_email := "ab@x"; rr_password := "pw" |})) init).

Definition swept : World :=
  after (at_time 1100 (Cleaner.cleanup_inactive_users 0)) colon_user.

(** The connection record of alice while her socket is open. *)
Definition alice_ws_connection : ConnDict :=
  {| cd_fields := Redis.hash_update
                    [("session_id", FStr "uuid-0"); ("gateway_id", FStr "localhost:8000");
                     ("ws_connected", FStr "1"); ("last_seen", FNum 1011);
                     ("connected_at", FNum 1011)]
                    (cd_fields alice_connection);
     cd_ws_connected := true;
     cd_last_seen := 1011 |}.

(** Alice as the HTTP gate describes her. *)
Definition alice_principal : Principal :=
  {| pr_user_id := "alice"; pr_username := Some "alice"; pr_role := "user";
     pr_session_id := Some "uuid-1" |}.

End Demo.

(** * Theorems *)

(** * Properties *)

(** ** Running monadic code *)

Section Running.
Context {A B : Type}.

Lemma bind_ok (m : M A) (k : A → M B) w a w' :
  m w = (Ok a, w') → bind m k w = k a w'.
Proof. unfold bind. by intros ->. Qed.

Lemma bind_raise (m : M A) (k : A → M B) w e w' :
  m w = (Raise e, w') → bind m k w = (Raise e, w').
Proof. unfold bind. by intros ->. Qed.

Lemma try_except_ok (m : M A) (h : Exn → M A) w a w' :
  m w = (Ok a, w') → try_except m h w = (Ok a, w').
Proof. unfold try_except. by intros ->. Qed.

Lemma try_except_raise (m : M A) (h : Exn → M A) w e w' :
  m w = (Raise e, w') → try_except m h w = h e w'.
Proof. unfold try_except. by intros ->. Qed.
End Running.

(** One step of a run: the head of a [bind] is evaluated by [tac]. *)
Tactic Notation "run_with" tactic3(tac) := erewrite bind_ok by tac; cbn beta iota zeta.
Ltac run_prim := run_with reflexivity.

(** ** The KV store *)

Section Store.
Implicit Types (store : gmap string Entry) (key : string) (now : Z).

Lemma peek_insert_eq now store key e :
  Redis.peek now (<[key := e]> store) key = if Redis.live now e then Some e else None.
Proof. unfold Redis.peek. by rewrite lookup_insert_eq. Qed.

Lemma peek_insert_ne now store key key' e :
  key ≠ key' → Redis.peek now (<[key := e]> store) key' = Redis.peek now store key'.
Proof. intros. unfold Redis.peek. by rewrite lookup_insert_ne. Qed.

Lemma peek_delete_eq now store key : Redis.peek now (delete key store) key = None.
Proof. unfold Redis.peek. by rewrite lookup_delete_eq. Qed.

Lemma peek_delete_ne now store key key' :
  key ≠ key' → Redis.peek now (delete key store) key' = Redis.peek now store key'.
Proof. intros. unfold Redis.peek. by rewrite lookup_delete_ne. Qed.

Lemma peek_Some now store key e :
  Redis.peek now store key = Some e ↔ store !! key = Some e ∧ Redis.live now e = true.
Proof.
  unfold Redis.peek. destruct (store !! key) as [e'|].
  - destruct (Redis.live now e') eqn:L; split.
    + by intros [= <-].
    + by intros [[= <-] _].
    + discriminate.
    + intros [[= <-] L']. congruence.
  - split; [discriminate|]. by intros [? _].
Qed.

Lemma live_expiring now v t :
  Redis.live now {| e_value := v; e_expire_at := Some t |} = true ↔ now < t.
Proof. unfold Redis.live. simpl. apply Z.ltb_lt. Qed.

(** What [hgetall] reads is what [hset] merges into; the entry it
    leaves is live and keeps the expiry it had. *)
Lemma hset_pure_merges now store key mapping h :
  Redis.hgetall_pure now store key = Ok h →
  ∃ ex, Redis.hset_pure now store key mapping =
          Ok (<[key := {| e_value := RHash (Redis.hash_update mapping h);
                          e_expire_at := ex |}]> store) ∧
        Redis.live now {| e_value := RHash (Redis.hash_update mapping h);
                          e_expire_at := ex |} = true.
Proof.
  unfold Redis.hgetall_pure, Redis.hset_pure.
  destruct (Redis.peek now store key) as [e|] eqn:P.
  - destruct (e_value e) as [s|h'] eqn:V; [discriminate|].
    intros [= ->]. exists (e_expire_at e). split; [reflexivity|].
    apply peek_Some in P as [_ L]. exact L.
  - intros [= <-]. exists None. split; reflexivity.
Qed.

Lemma expire_pure_stored now store key e seconds :
  store !! key = Some e → Redis.live now e = true →
  Redis.expire_pure now store key seconds =
  Some (<[key := {| e_value := e_value e; e_expire_at := Some (now + seconds) |}]> store).
Proof.
  intros Hs Hl. unfold Redis.expire_pure.
  by rewrite (proj2 (peek_Some now store key e) (conj Hs Hl)).
Qed.

Lemma hgetall_pure_stored now store key h ex :
  store !! key = Some {| e_value := RHash h; e_expire_at := ex |} →
  Redis.live now {| e_value := RHash h; e_expire_at := ex |} = true →
  Redis.hgetall_pure now store key = Ok h.
Proof.
  intros Hs Hl. unfold Redis.hgetall_pure.
  by rewrite (proj2 (peek_Some now store key _) (conj Hs Hl)).
Qed.

Lemma get_pure_stored now store key s ex :
  store !! key = Some {| e_value := RString s; e_expire_at := ex |} →
  Redis.live now {| e_value := RString s; e_expire_at := ex |} = true →
  Redis.get_pure now store key = Ok (Some s).
Proof.
  intros Hs Hl. unfold Redis.get_pure.
  by rewrite (proj2 (peek_Some now store key _) (conj Hs Hl)).
Qed.

Lemma set_pure_ok now store key v ex :
  0 < ex →
  Redis.set_pure now store key v ex =
  Ok (<[key := {| e_value := RString v; e_expire_at := Some (now + ex) |}]> store).
Proof. intros. unfold Redis.set_pure. destruct (Z.leb_spec ex 0); [lia|done]. Qed.
End Store.

(** The commands, run on a world. *)

Lemma get_run key w :
  Redis.get key w =
  (match Redis.get_pure (clock w) (redis w) key with Ok r => Ok r | Raise e => Raise e end, w).
Proof.
  unfold Redis.get, bind, gets, time_time, ret, raise. simpl.
  by destruct (Redis.get_pure _ _ _).
Qed.

Lemma hgetall_run key w :
  Redis.hgetall key w =
  (match Redis.hgetall_pure (clock w) (redis w) key with Ok r => Ok r | Raise e => Raise e end, w).
Proof.
  unfold Redis.hgetall, bind, gets, time_time, ret, raise. simpl.
  by destruct (Redis.hgetall_pure _ _ _).
Qed.

Lemma hset_ok key mapping w store' :
  Redis.hset_pure (clock w) (redis w) key mapping = Ok store' →
  Redis.hset key mapping w = (Ok tt, emit (EvHSet key mapping) (set_redis (λ _, store') w)).
Proof.
  intros H. unfold Redis.hset, bind, gets, time_time, ret, raise, modify. simpl. by rewrite H.
Qed.

Lemma hset_raise key mapping w e :
  Redis.hset_pure (clock w) (redis w) key mapping = Raise e →
  Redis.hset key mapping w = (Raise e, w).
Proof.
  intros H. unfold Redis.hset, bind, gets, time_time, ret, raise, modify. simpl. by rewrite H.
Qed.

Lemma expire_some key seconds w store' :
  Redis.expire_pure (clock w) (redis w) key seconds = Some store' →
  Redis.expire key seconds w = (Ok tt, emit (EvExpire key seconds) (set_redis (λ _, store') w)).
Proof.
  intros H. unfold Redis.expire, bind, gets, time_time, ret, raise, modify. simpl. by rewrite H.
Qed.

Lemma expire_none key seconds w :
  Redis.expire_pure (clock w) (redis w) key seconds = None →
  Redis.expire key seconds w = (Ok tt, w).
Proof.
  intros H. unfold Redis.expire, bind, gets, time_time, ret, raise, modify. simpl. by rewrite H.
Qed.

Lemma set_ok key v ex w :
  0 < ex →
  Redis.set key v ex w =
  (Ok tt, emit (EvSet key v ex)
            (set_redis (λ _, <[key := {| e_value := RString v;
                                         e_expire_at := Some (clock w + ex) |}]> (redis w)) w)).
Proof.
  intros H. unfold Redis.set, bind, gets, time_time, ret, raise, modify. simpl.
  by rewrite set_pure_ok.
Qed.

(** Keys of different families never collide. *)
Lemma connection_key_ne_session_key u s :
  Connections.connection_key u ≠ Handler.session_key s.
Proof. discriminate. Qed.

Lemma session_key_ne_connection_key s u :
  Handler.session_key s ≠ Connections.connection_key u.
Proof. discriminate. Qed.

Lemma user_key_ne_session_key u s : Users.user_key u ≠ Handler.session_key s.
Proof. discriminate. Qed.

Lemma user_key_ne_connection_key u v : Users.user_key u ≠ Connections.connection_key v.
Proof. discriminate. Qed.

Lemma session_key_inj s s' : Handler.session_key s = Handler.session_key s' → s = s'.
Proof. unfold Handler.session_key. intros H. simpl in H. by injection H. Qed.

(** ** Computations that only read *)

Lemma verify_token_reads token w w' :
  ext w = ext w' → clock w = clock w' →
  Security.verify_token token w' = (fst (Security.verify_token token w), w').
Proof.
  intros He Hc. unfold Security.verify_token.
  destruct (negb (truthy token) || bool_decide (token = Some "undefined")
            || bool_decide (token = Some "null")); [reflexivity|].
  unfold bind, gets, time_time, ret, raise. simpl. rewrite He, Hc.
  destruct (jwt_decode (ext w') _ _) as [p|[]]; reflexivity.
Qed.

(** [get_connection_info] is a function of what [hgetall] reads. *)
Lemma get_connection_info_run u w :
  Connections.get_connection_info u w =
  (match Redis.hgetall_pure (clock w) (redis w) (Connections.connection_key u) with
   | Ok h => Connections.conn_dict h
   | Raise e => Raise e
   end, w).
Proof.
  unfold Connections.get_connection_info. unfold bind at 1. rewrite hgetall_run.
  destruct (Redis.hgetall_pure _ _ _) as [h|e]; [|reflexivity].
  unfold Connections.conn_dict. destruct (decide (h = ∅)); [reflexivity|].
  unfold field_float, bind, ret, raise.
  by destruct (default (FNum 0) (h !! "last_seen")).
Qed.

Lemma get_connection_info_reads u w w' :
  redis w = redis w' → clock w = clock w' →
  Connections.get_connection_info u w' = (fst (Connections.get_connection_info u w), w').
Proof. intros Hr Hc. rewrite !get_connection_info_run. simpl. by rewrite Hr, Hc. Qed.

Lemma get_connection_info_none u w :
  Connections.get_connection_info u w = (Ok None, w) →
  Redis.hgetall_pure (clock w) (redis w) (Connections.connection_key u) = Ok ∅.
Proof.
  rewrite get_connection_info_run.
  destruct (Redis.hgetall_pure _ _ _) as [h|e]; [|discriminate].
  unfold Connections.conn_dict. destruct (decide (h = ∅)) as [->|]; [done|].
  by destruct (default (FNum 0) (h !! "last_seen")).
Qed.

Lemma get_connection_info_some u w c :
  Connections.get_connection_info u w = (Ok (Some c), w) →
  Redis.hgetall_pure (clock w) (redis w) (Connections.connection_key u) = Ok (cd_fields c).
Proof.
  rewrite get_connection_info_run.
  destruct (Redis.hgetall_pure _ _ _) as [h|e]; [|discriminate].
  unfold Connections.conn_dict. destruct (decide (h = ∅)) as [->|]; [done|].
  destruct (default (FNum 0) (h !! "last_seen")); [done|]. by intros [= <-].
Qed.

(** ** Facts about Python values *)

Lemma named_claims_nonempty (payload : Claims) a b u :
  py_or (payload !! a) (payload !! b) = Some u → dom payload ≠ ∅.
Proof.
  unfold py_or. intros H Hd.
  apply dom_empty_inv_L in Hd. subst payload.
  rewrite !lookup_empty in H. simpl in H. discriminate.
Qed.

Lemma truthy_named (o : option string) u : o = Some u → u ≠ "" → truthy o = true.
Proof.
  intros -> Hu. simpl. destruct (String.eqb_spec u ""); [contradiction|reflexivity].
Qed.

Lemma truthy_Some (o : option string) : truthy o = true → ∃ s, o = Some s ∧ s ≠ "".
Proof.
  destruct o as [s|]; [|discriminate]. simpl.
  destruct (String.eqb_spec s ""); [discriminate|]. eauto.
Qed.

(** ** C8: blank tokens *)

(** C8.  A token that is missing, empty, or the literal text
    ["undefined"] or ["null"] makes [verify_token] raise the 401
    "Authentication required" exception: no claims are returned, no other
    exception is raised, and the world is left as it was. *)
Theorem verify_token_blank_is_401 (token : option string) (w : World) :
  token = None ∨ token = Some "" ∨ token = Some "undefined" ∨ token = Some "null" →
  Security.verify_token token w =
  (Raise (HTTPException 401 (DError "Authentication required" "Token is missing or invalid")), w).
Proof. intros [-> | [-> | [-> | ->]]]; reflexivity. Qed.

Lemma verify_token_blank_is_401_witness :
  (Some "null" = None ∨ Some "null" = Some "" ∨ Some "null" = Some "undefined"
   ∨ Some "null" = Some "null") ∧
  Security.verify_token (Some "null") Demo.init =
  (Raise (HTTPException 401 (DError "Authentication required" "Token is missing or invalid")),
   Demo.init).
Proof.
  split.
  - right; right; right; reflexivity.
  - apply (verify_token_blank_is_401 (Some "null") Demo.init).
    right; right; right; reflexivity.
Defined.

(** ** C4: which failures are retried *)

Section Retry.
Import Httpx.

Lemma make_request_once_raised o e :
  make_request_once o = Raised e →
  o = Failed e ∧
  (e = TimeoutException ∨ e = NetworkError ∨ e = OtherRequestError ∨ e = OtherException ∨
   ∃ c, e = HTTPStatusError c ∧ 500 ≤ c).
Proof.
  destruct o as [b|f]; simpl; [discriminate|].
  destruct f; simpl; try (intros [= <-]; split; [reflexivity|]; tauto).
  - destruct (Z.ltb_spec status_code 500); [discriminate|].
    intros [= <-]. split; [reflexivity|]. do 4 right. eauto.
  - discriminate.
Qed.

Lemma make_request_once_retried o e :
  make_request_once o = Raised e → retry_if_exception_type e = true →
  o = Failed e ∧ retryable e.
Proof.
  intros H R. apply make_request_once_raised in H as [-> H]. split; [reflexivity|].
  unfold retryable.
  destruct H as [-> | [-> | [-> | [-> | (c & -> & Hc)]]]]; simpl in R; try discriminate; eauto.
  right; right. exists c. split; [done|lia].
Qed.

Lemma retrying_retries_retryable remaining k upstream n :
  (k ≤ n)%nat → (n < attempts (retrying remaining k upstream))%nat →
  ∃ e, upstream n = Failed e ∧ retryable e.
Proof.
  revert k. induction remaining as [|r IH]; intros k Hk Hn; simpl in Hn.
  - destruct (make_request_once (upstream k)) eqn:E; simpl in Hn; [lia|].
    destruct (retry_if_exception_type e); simpl in Hn; lia.
  - destruct (make_request_once (upstream k)) eqn:E; simpl in Hn; [lia|].
    destruct (retry_if_exception_type e) eqn:R; simpl in Hn; [|lia].
    destruct (decide (n = k)) as [->|Hne].
    + exists e. eapply make_request_once_retried; eauto.
    + apply (IH (S k)); [lia|done].
Qed.

Lemma retrying_returns_client_error remaining k upstream n c :
  (k ≤ n ≤ attempts (retrying remaining k upstream))%nat →
  upstream n = Failed (HTTPStatusError c) → c < 500 →
  attempts (retrying remaining k upstream) = n ∧
  result (retrying remaining k upstream) =
    Return (error_dict ("HTTP_" +:+ pretty c) (status_message c)).
Proof.
  revert k. induction remaining as [|r IH]; intros k [Hk Hn] Hu Hc.
  - simpl in *. destruct (decide (n = k)) as [->|Hne].
    + rewrite Hu in *. simpl in *. destruct (Z.ltb_spec c 500); [|lia]. done.
    + destruct (make_request_once (upstream k)); simpl in *; [lia|].
      destruct (retry_if_exception_type e); simpl in *; lia.
  - simpl in *. destruct (decide (n = k)) as [->|Hne].
    + rewrite Hu in *. simpl in *. destruct (Z.ltb_spec c 500); [|lia]. done.
    + destruct (make_request_once (upstream k)); simpl in *; [lia|].
      destruct (retry_if_exception_type e); simpl in *; [|lia].
      apply (IH (S k)); [lia|done|done].
Qed.

(** C4.  Through [make_request], an attempt is followed by another one
    only when it failed with a timeout, a network error, a 5xx status
    or a 429 status; and an attempt that meets a 4xx status other than
    429 is the last one, its result being [{error: "HTTP_<code>"}]. *)
Theorem retry_only_for_retryable_failures (upstream : nat → Outcome) :
  (∀ n, retried_after upstream n → ∃ e, upstream n = Failed e ∧ retryable e) ∧
  (∀ n c,
     (1 ≤ n ≤ attempts (make_request upstream))%nat →
     upstream n = Failed (HTTPStatusError c) →
     400 ≤ c < 500 → c ≠ 429 →
     attempts (make_request upstream) = n ∧
     result (make_request upstream) =
       Return (error_dict ("HTTP_" +:+ pretty c) (status_message c))).
Proof.
  split.
  - intros n [Hn Hlt]. eapply retrying_retries_retryable; eassumption.
  - intros n c Hn Hu Hc _. eapply retrying_returns_client_error; [eassumption..|lia].
Qed.

Lemma retry_only_for_retryable_failures_witness :
  retried_after timeout_then_404 1 ∧
  (∃ e, timeout_then_404 1 = Failed e ∧ retryable e) ∧
  (1 ≤ 2 ≤ attempts (make_request timeout_then_404))%nat ∧
  attempts (make_request timeout_then_404) = 2%nat ∧
  result (make_request timeout_then_404) =
    Return (error_dict ("HTTP_" +:+ pretty 404) (status_message 404)).
Proof.
  destruct (retry_only_for_retryable_failures timeout_then_404) as [H1 H2].
  assert (R : retried_after timeout_then_404 1) by (split; simpl; lia).
  assert (B : (1 ≤ 2 ≤ attempts (make_request timeout_then_404))%nat) by (simpl; lia).
  split; [exact R|]. split; [exact (H1 1%nat R)|]. split; [exact B|].
  apply (H2 2%nat 404 B); [reflexivity | lia | lia].
Defined.

(** The filter the module defines would retry a 429; the decorated
    [make_request] returns it after the first attempt. *)
Lemma too_many_requests_not_retried upstream :
  upstream 1%nat = Failed (HTTPStatusError 429) →
  _should_retry (HTTPStatusError 429) = true ∧
  attempts (make_request upstream) = 1%nat ∧
  result (make_request upstream) = Return (error_dict "HTTP_429" (status_message 429)).
Proof.
  intros H. split; [reflexivity|].
  unfold make_request. simpl. rewrite H. simpl. done.
Qed.
End Retry.

(** ** C6 and C9: the WebSocket handshake *)

(** The world once the socket is accepted. *)
Lemma accept_run ws w :
  Socket.accept ws w =
  (Ok tt,
   emit (EvWs ws WsAccept)
     (set_sockets
        <[ws := {| client_state := CONNECTED; application_state := CONNECTED;
                   sent := sent (default Socket.fresh (sockets w !! ws));
                   close_frame := close_frame (default Socket.fresh (sockets w !! ws)) |}]> w)).
Proof. reflexivity. Qed.

Lemma close_run ws code reason w s :
  sockets w !! ws = Some s → application_state s = CONNECTED →
  Socket.close ws code reason w =
  (Ok tt,
   emit (EvWs ws (WsClose code reason))
     (set_sockets
        <[ws := {| client_state := client_state s; application_state := DISCONNECTED;
                   sent := sent s; close_frame := Some (code, reason) |}]> w)).
Proof.
  intros Hs Ha. unfold Socket.close, Socket.lookup, bind, gets, modify, ret, raise. simpl.
  rewrite Hs. simpl. rewrite Ha. reflexivity.
Qed.

Lemma send_run ws frame w s :
  sockets w !! ws = Some s → application_state s = CONNECTED →
  Socket.send ws frame w =
  (Ok tt,
   emit (EvWs ws (WsSend frame))
     (set_sockets
        <[ws := {| client_state := client_state s; application_state := application_state s;
                   sent := sent s ++ [frame]; close_frame := close_frame s |}]> w)).
Proof.
  intros Hs Ha. unfold Socket.send, Socket.lookup, bind, gets, modify, ret, raise. simpl.
  rewrite Hs. simpl. rewrite Ha. reflexivity.
Qed.

(** The token and the claims of an authenticated handshake. *)
Lemma authenticate_verified ws session_id token w payload u :
  Security.verify_token token w = (Ok payload, w) →
  py_or (payload !! "user_id") (payload !! "sub") = Some u →
  u ≠ "" →
  WssManager.authenticate ws session_id token w =
  try_except
    (do conn_info <- Connections.get_connection_info u;
     match conn_info with
     | Some c =>
         if negb (bool_decide (cd_get c "session_id" = session_id)) then
           run Socket.close ws 1008 "Session mismatch";
           ret None
         else ret (Some (u, default "user" (payload !! "role")))
     | None => ret (Some (u, default "user" (payload !! "role")))
     end)
    (λ _, run Socket.close ws 1008 "Invalid token"; ret None) w.
Proof.
  intros Hv Hu Hne. unfold WssManager.authenticate, try_except.
  run_with exact Hv.
  rewrite bool_decide_eq_false_2 by (eapply named_claims_nonempty; eassumption).
  rewrite Hu. rewrite (truthy_named _ u) by done. reflexivity.
Qed.

(** C6.  When the token verifies and names a user whose stored connection
    record carries a session id other than the one of the handshake, the
    socket is accepted, closed with code 1008 and reason "Session
    mismatch", and nothing else happens: no connection is tracked, no
    frame is sent, the receive loop is not entered. *)
Theorem ws_connect_session_mismatch ws session_id token incoming w payload u c :
  Security.verify_token token w = (Ok payload, w) →
  py_or (payload !! "user_id") (payload !! "sub") = Some u →
  u ≠ "" →
  Connections.get_connection_info u w = (Ok (Some c), w) →
  cd_get c "session_id" ≠ session_id →
  ∃ w' s,
    WssManager.ws_connect ws session_id token incoming w = (Ok tt, w') ∧
    trace w' = (trace w ++ [EvWs ws WsAccept; EvWs ws (WsClose 1008 "Session mismatch")])%list ∧
    redis w' = redis w ∧
    ws_registry w' = ws_registry w ∧
    ws_manager w' = ws_manager w ∧
    sockets w' !! ws = Some s ∧
    close_frame s = Some (1008, "Session mismatch") ∧
    sent s = sent (default Socket.fresh (sockets w !! ws)).
Proof.
  intros Hv Hu Hne Hc Hs.
  unfold WssManager.ws_connect.
  run_with apply accept_run.
  set (w1 := emit _ _).
  eassert (Hauth : WssManager.authenticate ws session_id token w1 = (Ok None, _)).
  { rewrite (authenticate_verified _ _ _ _ payload u); [| |done|done].
    2:{ rewrite (verify_token_reads token w w1) by reflexivity. by rewrite Hv. }
    apply try_except_ok.
    run_with (rewrite (get_connection_info_reads u w w1) by reflexivity; rewrite Hc; reflexivity).
    rewrite bool_decide_eq_false_2 by done. cbn [negb].
    run_with (eapply close_run; [apply lookup_insert_eq|reflexivity]).
    reflexivity. }
  run_with exact Hauth.
  eexists _, _. split; [reflexivity|].
  cbn. rewrite <- app_assoc.
  do 4 (split; [reflexivity|]).
  split; [apply lookup_insert_eq|]. split; reflexivity.
Qed.

Lemma gateway_id_run w : WssManager.gateway_id w = (Ok (replica w), w).
Proof. reflexivity. Qed.

Lemma track_ws_connection_run u sid gw chat ws w h :
  Redis.hgetall_pure (clock w) (redis w) (Connections.connection_key u) = Ok h →
  let data := [("session_id", FStr sid); ("gateway_id", FStr gw); ("ws_connected", FStr "1");
               ("last_seen", FNum (clock w)); ("connected_at", FNum (clock w))] in
  let seconds := reg_timeout_seconds (ws_registry w) in
  WssRegistry.track_ws_connection u (Some sid) gw chat ws w =
  (Ok sid,
   emit (EvExpire (Connections.connection_key u) seconds)
     (emit (EvHSet (Connections.connection_key u) data)
        (set_redis
           (λ _, <[Connections.connection_key u :=
                     {| e_value := RHash (Redis.hash_update data h);
                        e_expire_at := Some (clock w + seconds) |}]> (redis w))
           (set_ws_registry
              (WssRegistry.set_active
                 <[u := {| ci_websocket := ws; ci_gateway_id := gw; ci_last_seen := clock w;
                           ci_user_id := u; ci_session_id := sid; ci_connected_at := clock w;
                           ci_role := "user" |}]> 1) w)))).
Proof.
  intros Hg data seconds.
  destruct (hset_pure_merges _ _ _ data _ Hg) as (ex & Hset & Hlive).
  unfold WssRegistry.track_ws_connection.
  run_prim. run_prim.
  run_with (apply hset_ok; exact Hset).
  run_prim.
  run_with (apply expire_some; eapply expire_pure_stored; [apply lookup_insert_eq|exact Hlive]).
  unfold ret, emit, set_redis, set_ws_registry. cbn. by rewrite insert_insert_eq.
Qed.

Lemma start_health_monitoring_run u sid ws w st :
  connection_states (ws_manager w) !! u = Some st →
  ping_task st = None → inactivity_task st = None →
  WssManager._start_health_monitoring u sid ws w =
  (Ok tt,
   set_ws_manager
     (WssManager.set_states
        <[u := {| last_activity := last_activity st; last_pong := last_pong st;
                  ping_task := Some (TPingLoop u sid ws);
                  inactivity_task := Some (TInactivityMonitor u sid ws) |}]>)
     (emit (EvCreateTask (TInactivityMonitor u sid ws))
        (emit (EvCreateTask (TPingLoop u sid ws)) w))).
Proof.
  intros Hst Hp Hi.
  unfold WssManager._start_health_monitoring, WssManager._stop_health_monitoring, create_task.
  unfold bind, gets, modify, ret. simpl. rewrite Hst. simpl. rewrite Hp, Hi. simpl.
  unfold set_ws_manager, WssManager.set_states. simpl. rewrite Hst. reflexivity.
Qed.

Lemma client_connected_run ws w s :
  sockets w !! ws = Some s →
  Socket.client_connected ws w = (Ok (Socket.connected (client_state s)), w).
Proof.
  intros Hs. unfold Socket.client_connected, Socket.lookup, bind, gets, ret. simpl.
  by rewrite Hs.
Qed.

Lemma send_welcome_run ws u sid w s :
  sockets w !! ws = Some s → client_state s = CONNECTED → application_state s = CONNECTED →
  WssManager._send_welcome ws u sid w =
  (Ok tt,
   emit (EvWs ws (WsSend (WssManager.welcome_frame u sid (replica w) (ws_manager w))))
     (set_sockets
        <[ws := {| client_state := client_state s; application_state := application_state s;
                   sent := sent s ++ [WssManager.welcome_frame u sid (replica w) (ws_manager w)];
                   close_frame := close_frame s |}]> w)).
Proof.
  intros Hs Hc Ha. unfold WssManager._send_welcome.
  run_with (apply client_connected_run; exact Hs).
  replace (Socket.connected (client_state s)) with true by (by rewrite Hc).
  apply try_except_ok.
  run_with apply gateway_id_run. run_prim.
  by apply send_run.
Qed.

(** C9.  When the token verifies and names a user for whom no connection
    record is stored, the session check is skipped: whatever session id
    the client supplied, the socket is accepted and tracked under that
    id (in the registry and as a ws-attached connection record), the
    monitors are started, the welcome frame is sent and the receive loop
    is entered, where the coroutine waits for the first message. *)
Theorem ws_connect_without_connection_record ws sid token w payload u :
  Security.verify_token token w = (Ok payload, w) →
  py_or (payload !! "user_id") (payload !! "sub") = Some u →
  u ≠ "" →
  Connections.get_connection_info u w = (Ok None, w) →
  0 < reg_timeout_seconds (ws_registry w) →
  ∃ w' c s,
    WssManager.ws_connect ws (Some sid) token [] w = (Ok tt, w') ∧
    active_connections (ws_registry w') !! u =
      Some {| ci_websocket := ws; ci_gateway_id := replica w; ci_last_seen := clock w;
              ci_user_id := u; ci_session_id := sid; ci_connected_at := clock w;
              ci_role := "user" |} ∧
    Connections.get_connection_info u w' = (Ok (Some c), w') ∧
    cd_get c "session_id" = Some sid ∧
    cd_ws_connected c = true ∧
    trace w' =
      (trace w ++
       [EvWs ws WsAccept;
        EvHSet (Connections.connection_key u)
          [("session_id", FStr sid); ("gateway_id", FStr (replica w));
           ("ws_connected", FStr "1"); ("last_seen", FNum (clock w));
           ("connected_at", FNum (clock w))];
        EvExpire (Connections.connection_key u) (reg_timeout_seconds (ws_registry w));
        EvCreateTask (TPingLoop u sid ws);
        EvCreateTask (TInactivityMonitor u sid ws);
        EvWs ws (WsSend (WssManager.welcome_frame u sid (replica w) (ws_manager w)));
        EvMessageLoop u sid])%list ∧
    sockets w' !! ws = Some s ∧
    close_frame s = close_frame (default Socket.fresh (sockets w !! ws)) ∧
    application_state s = CONNECTED ∧
    sent s = (sent (default Socket.fresh (sockets w !! ws))
              ++ [WssManager.welcome_frame u sid (replica w) (ws_manager w)])%list.
Proof.
  intros Hv Hu Hne Hc Ht.
  pose proof (get_connection_info_none _ _ Hc) as Hg.
  unfold WssManager.ws_connect.
  run_with apply accept_run.
  set (w1 := emit _ _).
  assert (Hauth : WssManager.authenticate ws (Some sid) token w1
                  = (Ok (Some (u, default "user" (payload !! "role"))), w1)).
  { rewrite (authenticate_verified _ _ _ _ payload u); [| |done|done].
    2:{ rewrite (verify_token_reads token w w1) by reflexivity. by rewrite Hv. }
    apply try_except_ok.
    run_with (rewrite (get_connection_info_reads u w w1) by reflexivity; rewrite Hc; reflexivity).
    reflexivity. }
  run_with exact Hauth.
  run_with apply gateway_id_run.
  eassert (Hbody : _ w1 = (Ok LoopWaiting, _)); [|
    run_with (apply try_except_ok; exact Hbody)].
  { run_with (apply track_ws_connection_run; exact Hg).
    run_prim. run_prim.
    run_with (eapply start_health_monitoring_run; [apply lookup_insert_eq|reflexivity..]).
    run_with (eapply send_welcome_run; [apply lookup_insert_eq|reflexivity..]).
    reflexivity. }
  cbn beta iota.
  eexists _, _, _. split; [reflexivity|].
  split. { cbn. apply lookup_insert_eq. }
  split.
  { rewrite get_connection_info_run.
    erewrite hgetall_pure_stored;
      [|cbn; apply lookup_insert_eq|cbn; apply Z.ltb_lt; lia].
    reflexivity. }
  split. { reflexivity. }
  split. { reflexivity. }
  split. { cbn. rewrite <- !app_assoc. reflexivity. }
  split. { cbn. apply lookup_insert_eq. }
  repeat split.
Qed.

(** ** C2: the auth gates and a user with no connection record *)

Lemma create_session_run u chat w :
  0 < sh_timeout_seconds (session_handler w) →
  let sid := uuid4 (ext w) (uuid_counter w) in
  let session := Handler.new_session u chat (clock w) in
  Handler.create_session u chat w =
  (Ok (session, sid),
   emit (EvPublish ("events:session:new:" +:+ u)
           (JObj [("session_id", JStr sid); ("user_id", JStr u); ("chat_id", JStr chat)]))
     (set_session_handler (Handler.cache_session sid session (clock w))
        (emit (EvSet (Handler.session_key sid) session (sh_timeout_seconds (session_handler w)))
           (set_redis
              (λ _, <[Handler.session_key sid :=
                        {| e_value := RString session;
                           e_expire_at := Some (clock w + sh_timeout_seconds (session_handler w)) |}]>
                      (redis w))
              (bump_uuid w))))).
Proof.
  intros Ht sid session. unfold Handler.create_session.
  run_prim. run_prim. run_prim.
  run_with (apply set_ok; exact Ht).
  run_prim. run_prim. reflexivity.
Qed.

Lemma track_connection_run u sid gw flag w h :
  Redis.hgetall_pure (clock w) (redis w) (Connections.connection_key u) = Ok h →
  let data := Connections.tracked_fields sid gw flag (clock w) in
  let seconds := cm_timeout_seconds (connection_manager w) in
  Connections.track_connection u sid (Some gw) flag w =
  (Ok tt,
   emit (EvPublish ("events:connection:" +:+ (if flag then "ws" else "http") +:+ ":" +:+ u)
           (dict_json data))
     (emit (EvExpire (Connections.connection_key u) seconds)
        (emit (EvHSet (Connections.connection_key u) data)
           (set_redis
              (λ _, <[Connections.connection_key u :=
                        {| e_value := RHash (Redis.hash_update data h);
                           e_expire_at := Some (clock w + seconds) |}]> (redis w)) w)))).
Proof.
  intros Hg data seconds.
  destruct (hset_pure_merges _ _ _ data _ Hg) as (ex & Hset & Hlive).
  unfold Connections.track_connection.
  run_prim. run_prim.
  run_with (apply hset_ok; exact Hset).
  run_prim.
  run_with (apply expire_some; eapply expire_pure_stored; [apply lookup_insert_eq|exact Hlive]).
  unfold Events.publish, Redis.publish, modify, emit, set_redis. cbn.
  by rewrite insert_insert_eq.
Qed.

Lemma update_connection_timestamp_run u o w h :
  Redis.hgetall_pure (clock w) (redis w) (Connections.connection_key u) = Ok h →
  Connections.update_connection_timestamp u o w =
  (Ok tt,
   if cm_timestamp_update_interval (connection_manager w)
      <=? clock w - default 0 (_last_connection_updates (connection_manager w) !! u)
   then Connections.refreshed_connection u h w else w).
Proof.
  intros Hg.
  destruct (hset_pure_merges _ _ _
              [("last_seen", FNum (clock w)); ("gateway_id", FStr (replica w))] _ Hg)
    as (ex & Hset & Hlive).
  unfold Connections.update_connection_timestamp.
  run_prim. run_prim.
  destruct (_ <=? _); [|reflexivity].
  run_prim. run_prim.
  run_with (apply hset_ok; exact Hset).
  run_with (apply expire_some; eapply expire_pure_stored; [apply lookup_insert_eq|exact Hlive]).
  unfold Connections.refreshed_connection, modify, emit, set_redis, set_connection_manager. cbn.
  by rewrite insert_insert_eq.
Qed.

Lemma update_timestamp_only_run sid w s :
  Redis.get_pure (clock w) (redis w) (Handler.session_key sid) = Ok (Some s) →
  0 < sh_timeout_seconds (session_handler w) →
  Handler.update_timestamp_only sid w =
  (Ok tt,
   if sh_timestamp_update_interval (session_handler w)
      <=? clock w - default 0 (_last_timestamp_updates (session_handler w) !! sid)
   then Handler.touched_session sid s w else w).
Proof.
  intros Hg Ht. unfold Handler.update_timestamp_only.
  run_prim. run_prim.
  destruct (_ <=? _); [|reflexivity].
  run_with (rewrite get_run, Hg; reflexivity).
  run_with (apply set_ok; exact Ht).
  reflexivity.
Qed.

(** Case analysis on a throttle. *)
Ltac case_refresh :=
  match goal with
  | |- context [if ?b then Connections.refreshed_connection _ _ _ else _] => destruct b
  | |- context [if ?b then Handler.touched_session _ _ _ else _] => destruct b
  end.

Lemma internal_auth_error_keeps_http status detail w :
  Manager.internal_auth_error (HTTPException status detail) w =
  (Raise (HTTPException status detail), w).
Proof. reflexivity. Qed.

(** The WebSocket gate refuses a user with no connection record. *)
Lemma verify_and_update_activity_no_session token expected w payload u :
  Security.verify_token token w = (Ok payload, w) →
  py_or (payload !! "sub") (payload !! "user_id") = Some u →
  u ≠ "" →
  Connections.get_connection_info u w = (Ok None, w) →
  Manager.verify_and_update_activity token expected w =
  (Raise (HTTPException 400 (DText "No active session")), w).
Proof.
  intros Hv Hu Hne Hc. unfold Manager.verify_and_update_activity.
  eassert (Hbody : _ w = (Raise (HTTPException 400 (DText "No active session")), w));
    [|rewrite (try_except_raise _ _ _ _ _ Hbody); reflexivity].
  run_with exact Hv.
  rewrite Hu. rewrite (truthy_named _ u) by done. cbn [negb from_option id].
  run_with exact Hc.
  reflexivity.
Qed.

(** The HTTP gate creates the default session and the connection. *)
Lemma get_current_user_with_activity_creates token w payload u :
  Security.verify_token token w = (Ok payload, w) →
  py_or (payload !! "sub") (payload !! "user_id") = Some u →
  u ≠ "" →
  Connections.get_connection_info u w = (Ok None, w) →
  0 < sh_timeout_seconds (session_handler w) →
  0 < cm_timeout_seconds (connection_manager w) →
  uuid4 (ext w) (uuid_counter w) ≠ "" →
  ∃ w' c s,
    Manager.get_current_user_with_activity token w =
      (Ok {| pr_user_id := u; pr_username := payload !! "sub";
             pr_role := default "user" (payload !! "role");
             pr_session_id := Some (uuid4 (ext w) (uuid_counter w)) |}, w') ∧
    Redis.get_pure (clock w') (redis w') (Handler.session_key (uuid4 (ext w) (uuid_counter w)))
      = Ok (Some s) ∧
    s_user_id s = u ∧
    s_chat_id s = "default" ∧
    Connections.get_connection_info u w' = (Ok (Some c), w') ∧
    cd_get c "session_id" = Some (uuid4 (ext w) (uuid_counter w)) ∧
    cd_ws_connected c = false.
Proof.
  intros Hv Hu Hne Hc Hts Htc Hid.
  pose proof (get_connection_info_none _ _ Hc) as Hg.
  set (sid := uuid4 (ext w) (uuid_counter w)) in *.
  unfold Manager.get_current_user_with_activity.
  (* the session and the connection are created *)
  pose proof (create_session_run u "default" w Hts) as Hcreate. cbn zeta in Hcreate.
  fold sid in Hcreate.
  set (w1 := emit _ _) in Hcreate.
  assert (Hg1 : Redis.hgetall_pure (clock w1) (redis w1) (Connections.connection_key u) = Ok ∅).
  { cbn. unfold Redis.hgetall_pure.
    rewrite peek_insert_ne by apply session_key_ne_connection_key. exact Hg. }
  pose proof (track_connection_run u sid (default "localhost" (environ w !! "POD_NAME") +:+ ":8000")
                false w1 ∅ Hg1) as Htrack.
  cbn zeta in Htrack.
  set (w2 := emit _ _) in Htrack.
  set (h2 := Redis.hash_update _ ∅) in *.
  assert (Hs2 : redis w2 !! Connections.connection_key u =
                Some {| e_value := RHash h2;
                        e_expire_at := Some (clock w + cm_timeout_seconds (connection_manager w)) |}).
  { cbn. apply lookup_insert_eq. }
  assert (Hl2 : ∀ v, Redis.live (clock w)
                  {| e_value := v;
                     e_expire_at := Some (clock w + cm_timeout_seconds (connection_manager w)) |}
                = true).
  { intros v. apply live_expiring. lia. }
  assert (Hg2 : Redis.hgetall_pure (clock w2) (redis w2) (Connections.connection_key u) = Ok h2).
  { eapply hgetall_pure_stored; [exact Hs2|apply Hl2]. }
  assert (Hc2 : Connections.get_connection_info u w2 =
                (Ok (Some {| cd_fields := h2; cd_ws_connected := false; cd_last_seen := clock w |}), w2)).
  { rewrite get_connection_info_run, Hg2. reflexivity. }
  pose proof (update_connection_timestamp_run u (Some sid) w2 h2 Hg2) as Hupd.
  set (w3 := if _ <=? _ then _ else _) in Hupd.
  set (session := Handler.new_session u "default" (clock w)) in *.
  assert (Hl3 : ∀ v, Redis.live (clock w)
                  {| e_value := v;
                     e_expire_at := Some (clock w + sh_timeout_seconds (session_handler w)) |}
                = true).
  { intros v. apply live_expiring. lia. }
  assert (Hclock3 : clock w3 = clock w) by (unfold w3; case_refresh; reflexivity).
  assert (Hsh3 : session_handler w3 = session_handler w2) by (unfold w3; case_refresh; reflexivity).
  assert (Hs3 : redis w3 !! Handler.session_key sid =
                Some {| e_value := RString session;
                        e_expire_at := Some (clock w + sh_timeout_seconds (session_handler w)) |}).
  { unfold w3. case_refresh; cbn.
    - rewrite lookup_insert_ne by apply connection_key_ne_session_key.
      rewrite lookup_insert_ne by apply connection_key_ne_session_key.
      apply lookup_insert_eq.
    - rewrite lookup_insert_ne by apply connection_key_ne_session_key.
      apply lookup_insert_eq. }
  assert (Hget3 : Redis.get_pure (clock w3) (redis w3) (Handler.session_key sid) = Ok (Some session)).
  { rewrite Hclock3. eapply get_pure_stored; [exact Hs3|apply Hl3]. }
  assert (Hts3 : 0 < sh_timeout_seconds (session_handler w3)) by (rewrite Hsh3; exact Hts).
  pose proof (update_timestamp_only_run sid w3 session Hget3 Hts3) as Htouch.
  set (w4 := if _ <=? _ then _ else _) in Htouch.
  (* the run *)
  eassert (Hbody : _ w = (Ok _, w4)); [|rewrite (try_except_ok _ _ _ _ _ Hbody)].
  { run_with exact Hv.
    rewrite Hu. rewrite (truthy_named _ u) by done. cbn [negb from_option id].
    run_with exact Hc.
    run_with (run_with exact Hcreate; run_prim; run_with exact Htrack; exact Hc2).
    cbn [mbind option_bind]. change (cd_get _ "session_id") with (Some sid).
    rewrite (truthy_named _ sid) by done. cbn [negb].
    run_with exact Hupd.
    run_with exact Htouch.
    reflexivity. }
  (* what it leaves *)
  assert (Hclock4 : clock w4 = clock w).
  { unfold w4. case_refresh; [cbn|]; exact Hclock3. }
  assert (Hconn4 : redis w4 !! Connections.connection_key u = redis w3 !! Connections.connection_key u).
  { unfold w4. case_refresh; [cbn|reflexivity].
    by rewrite lookup_insert_ne by apply session_key_ne_connection_key. }
  assert (Hsess4 : ∃ s, redis w4 !! Handler.session_key sid =
                     Some {| e_value := RString s;
                             e_expire_at := Some (clock w + sh_timeout_seconds (session_handler w)) |}
                   ∧ s_user_id s = u ∧ s_chat_id s = "default").
  { unfold w4. case_refresh; [cbn|].
    - eexists. split; [rewrite Hclock3, Hsh3; apply lookup_insert_eq|]. split; reflexivity.
    - eexists. split; [exact Hs3|]. split; reflexivity. }
  destruct Hsess4 as (s4 & Hs4 & Hu4 & Hch4).
  assert (Hconn3 : ∃ h3, redis w3 !! Connections.connection_key u =
                     Some {| e_value := RHash h3;
                             e_expire_at := Some (clock w + cm_timeout_seconds (connection_manager w)) |}
                   ∧ h3 !! "session_id" = Some (FStr sid)
                   ∧ h3 !! "ws_connected" = Some (FStr "0")
                   ∧ ∃ z, h3 !! "last_seen" = Some (FNum z)).
  { unfold w3. case_refresh; [cbn|].
    - eexists. split; [apply lookup_insert_eq|]. repeat split; eauto.
    - eexists. split; [exact Hs2|]. repeat split; eauto. }
  destruct Hconn3 as (h3 & Hs3' & Hsid3 & Hws3 & z & Hls3).
  eexists w4, {| cd_fields := h3; cd_ws_connected := false; cd_last_seen := z |}, s4.
  split; [reflexivity|].
  split. { rewrite Hclock4. eapply get_pure_stored; [exact Hs4|apply Hl3]. }
  split; [exact Hu4|]. split; [exact Hch4|].
  split.
  { rewrite get_connection_info_run.
    erewrite hgetall_pure_stored; [|rewrite Hconn4; exact Hs3'|rewrite Hclock4; apply Hl2].
    unfold Connections.conn_dict.
    destruct (decide (h3 = ∅)) as [->|]; [by rewrite lookup_empty in Hsid3|].
    rewrite Hls3, Hws3. reflexivity. }
  split; [|reflexivity].
  unfold cd_get. cbn. by rewrite Hsid3.
Qed.

(** C2, as amended.  For a token that verifies and names a user with no
    connection record, the HTTP gate [get_current_user_with_activity]
    creates the default session and a non-WS connection that names it,
    and returns the principal; the gate called from WebSocket code,
    [verify_and_update_activity], creates nothing and fails with 400
    "No active session". *)
Theorem auth_gates_without_connection_record token expected w payload u :
  Security.verify_token token w = (Ok payload, w) →
  py_or (payload !! "sub") (payload !! "user_id") = Some u →
  u ≠ "" →
  Connections.get_connection_info u w = (Ok None, w) →
  0 < sh_timeout_seconds (session_handler w) →
  0 < cm_timeout_seconds (connection_manager w) →
  uuid4 (ext w) (uuid_counter w) ≠ "" →
  (∃ w' c s,
     Manager.get_current_user_with_activity token w =
       (Ok {| pr_user_id := u; pr_username := payload !! "sub";
              pr_role := default "user" (payload !! "role");
              pr_session_id := Some (uuid4 (ext w) (uuid_counter w)) |}, w') ∧
     Redis.get_pure (clock w') (redis w') (Handler.session_key (uuid4 (ext w) (uuid_counter w)))
       = Ok (Some s) ∧
     s_user_id s = u ∧
     s_chat_id s = "default" ∧
     Connections.get_connection_info u w' = (Ok (Some c), w') ∧
     cd_get c "session_id" = Some (uuid4 (ext w) (uuid_counter w)) ∧
     cd_ws_connected c = false) ∧
  Manager.verify_and_update_activity token expected w =
    (Raise (HTTPException 400 (DText "No active session")), w).
Proof.
  intros Hv Hu Hne Hc Hts Htc Hid. split.
  - by eapply get_current_user_with_activity_creates.
  - by eapply verify_and_update_activity_no_session.
Qed.

Lemma auth_gates_without_connection_record_witness :
  Security.verify_token (Some "alice") Demo.init = (Ok Demo.alice_claims, Demo.init) ∧
  py_or (Demo.alice_claims !! "sub") (Demo.alice_claims !! "user_id") = Some "alice" ∧
  Connections.get_connection_info "alice" Demo.init = (Ok None, Demo.init) ∧
  (∃ w' c s,
     Manager.get_current_user_with_activity (Some "alice") Demo.init =
       (Ok {| pr_user_id := "alice"; pr_username := Demo.alice_claims !! "sub";
              pr_role := default "user" (Demo.alice_claims !! "role");
              pr_session_id := Some (uuid4 (ext Demo.init) (uuid_counter Demo.init)) |}, w') ∧
     Redis.get_pure (clock w') (redis w')
       (Handler.session_key (uuid4 (ext Demo.init) (uuid_counter Demo.init))) = Ok (Some s) ∧
     s_user_id s = "alice" ∧
     s_chat_id s = "default" ∧
     Connections.get_connection_info "alice" w' = (Ok (Some c), w') ∧
     cd_get c "session_id" = Some (uuid4 (ext Demo.init) (uuid_counter Demo.init)) ∧
     cd_ws_connected c = false) ∧
  Manager.verify_and_update_activity (Some "alice") None Demo.init =
    (Raise (HTTPException 400 (DText "No active session")), Demo.init).
Proof.
  assert (Hv : Security.verify_token (Some "alice") Demo.init = (Ok Demo.alice_claims, Demo.init))
    by (vm_compute; reflexivity).
  assert (Hu : py_or (Demo.alice_claims !! "sub") (Demo.alice_claims !! "user_id") = Some "alice")
    by (vm_compute; reflexivity).
  assert (Hc : Connections.get_connection_info "alice" Demo.init = (Ok None, Demo.init))
    by (vm_compute; reflexivity).
  split; [exact Hv|]. split; [exact Hu|]. split; [exact Hc|].
  apply (auth_gates_without_connection_record (Some "alice") None Demo.init
           Demo.alice_claims "alice" Hv Hu); [discriminate | exact Hc | | | discriminate];
    vm_compute; reflexivity.
Defined.

(** The claim of C2 fails on the WebSocket gate: the token of alice
    verifies, no connection record is stored for her, and
    [verify_and_update_activity] raises instead of creating a session. *)
Lemma ws_gate_creates_no_session :
  Security.verify_token (Some "alice") Demo.init = (Ok Demo.alice_claims, Demo.init) ∧
  Connections.get_connection_info "alice" Demo.init = (Ok None, Demo.init) ∧
  Manager.verify_and_update_activity (Some "alice") None Demo.init =
    (Raise (HTTPException 400 (DText "No active session")), Demo.init).
Proof. vm_compute. repeat split. Qed.

Lemma ws_connect_session_mismatch_witness :
  Security.verify_token (Some "alice") Demo.logged_in = (Ok Demo.alice_claims, Demo.logged_in) ∧
  py_or (Demo.alice_claims !! "user_id") (Demo.alice_claims !! "sub") = Some "alice" ∧
  Connections.get_connection_info "alice" Demo.logged_in
    = (Ok (Some Demo.alice_connection), Demo.logged_in) ∧
  cd_get Demo.alice_connection "session_id" ≠ Some "stolen" ∧
  ∃ w' s,
    WssManager.ws_connect 7 (Some "stolen") (Some "alice") [] Demo.logged_in = (Ok tt, w') ∧
    trace w' = (trace Demo.logged_in
                ++ [EvWs 7 WsAccept; EvWs 7 (WsClose 1008 "Session mismatch")])%list ∧
    redis w' = redis Demo.logged_in ∧
    ws_registry w' = ws_registry Demo.logged_in ∧
    ws_manager w' = ws_manager Demo.logged_in ∧
    sockets w' !! 7%nat = Some s ∧
    close_frame s = Some (1008, "Session mismatch") ∧
    sent s = sent (default Socket.fresh (sockets Demo.logged_in !! 7%nat)).
Proof.
  assert (Hv : Security.verify_token (Some "alice") Demo.logged_in
               = (Ok Demo.alice_claims, Demo.logged_in)) by (vm_compute; reflexivity).
  assert (Hu : py_or (Demo.alice_claims !! "user_id") (Demo.alice_claims !! "sub") = Some "alice")
    by (vm_compute; reflexivity).
  assert (Hc : Connections.get_connection_info "alice" Demo.logged_in
               = (Ok (Some Demo.alice_connection), Demo.logged_in)) by (vm_compute; reflexivity).
  assert (Hs : cd_get Demo.alice_connection "session_id" ≠ Some "stolen")
    by (vm_compute; discriminate).
  split; [exact Hv|]. split; [exact Hu|]. split; [exact Hc|]. split; [exact Hs|].
  apply (ws_connect_session_mismatch 7 (Some "stolen") (Some "alice") [] Demo.logged_in
           Demo.alice_claims "alice" Demo.alice_connection Hv Hu); [discriminate|exact Hc|exact Hs].
Defined.

Lemma ws_connect_without_connection_record_witness :
  Security.verify_token (Some "alice") Demo.init = (Ok Demo.alice_claims, Demo.init) ∧
  py_or (Demo.alice_claims !! "user_id") (Demo.alice_claims !! "sub") = Some "alice" ∧
  Connections.get_connection_info "alice" Demo.init = (Ok None, Demo.init) ∧
  0 < reg_timeout_seconds (ws_registry Demo.init) ∧
  ∃ w' c s,
    WssManager.ws_connect 7 (Some "anything") (Some "alice") [] Demo.init = (Ok tt, w') ∧
    active_connections (ws_registry w') !! "alice" =
      Some {| ci_websocket := 7; ci_gateway_id := replica Demo.init;
              ci_last_seen := clock Demo.init; ci_user_id := "alice";
              ci_session_id := "anything"; ci_connected_at := clock Demo.init;
              ci_role := "user" |} ∧
    Connections.get_connection_info "alice" w' = (Ok (Some c), w') ∧
    cd_get c "session_id" = Some "anything" ∧
    cd_ws_connected c = true ∧
    trace w' =
      (trace Demo.init ++
       [EvWs 7 WsAccept;
        EvHSet (Connections.connection_key "alice")
          [("session_id", FStr "anything"); ("gateway_id", FStr (replica Demo.init));
           ("ws_connected", FStr "1"); ("last_seen", FNum (clock Demo.init));
           ("connected_at", FNum (clock Demo.init))];
        EvExpire (Connections.connection_key "alice") (reg_timeout_seconds (ws_registry Demo.init));
        EvCreateTask (TPingLoop "alice" "anything" 7);
        EvCreateTask (TInactivityMonitor "alice" "anything" 7);
        EvWs 7 (WsSend (WssManager.welcome_frame "alice" "anything" (replica Demo.init)
                          (ws_manager Demo.init)));
        EvMessageLoop "alice" "anything"])%list ∧
    sockets w' !! 7%nat = Some s ∧
    close_frame s = close_frame (default Socket.fresh (sockets Demo.init !! 7%nat)) ∧
    application_state s = CONNECTED ∧
    sent s = (sent (default Socket.fresh (sockets Demo.init !! 7%nat))
              ++ [WssManager.welcome_frame "alice" "anything" (replica Demo.init)
                    (ws_manager Demo.init)])%list.
Proof.
  assert (Hv : Security.verify_token (Some "alice") Demo.init = (Ok Demo.alice_claims, Demo.init))
    by (vm_compute; reflexivity).
  assert (Hu : py_or (Demo.alice_claims !! "user_id") (Demo.alice_claims !! "sub") = Some "alice")
    by (vm_compute; reflexivity).
  assert (Hc : Connections.get_connection_info "alice" Demo.init = (Ok None, Demo.init))
    by (vm_compute; reflexivity).
  assert (Ht : 0 < reg_timeout_seconds (ws_registry Demo.init)) by (vm_compute; reflexivity).
  split; [exact Hv|]. split; [exact Hu|]. split; [exact Hc|]. split; [exact Ht|].
  apply (ws_connect_without_connection_record 7 "anything" (Some "alice") Demo.init
           Demo.alice_claims "alice" Hv Hu); [discriminate|exact Hc|exact Ht].
Defined.

(** ** C10 and C5: a round of the batched writer *)

Section Pipelines.
Implicit Types (store : gmap string Entry) (now : Z).

Lemma pipe_run_gets now store keys :
  Redis.pipe_run now store (map PGet keys) = (store, map (Redis.get_pure now store) keys).
Proof.
  induction keys as [|key keys IH]; [reflexivity|].
  simpl. by rewrite IH.
Qed.

(** A write pipeline touches only the keys it names. *)
Lemma pipe_run_other_keys now store cmds key :
  (∀ k v ex, PSet k v ex ∈ cmds → k ≠ key) →
  (Redis.pipe_run now store cmds).1 !! key = store !! key.
Proof.
  revert store. induction cmds as [|c cmds IH]; intros store Hk; [reflexivity|].
  assert (Hrest : ∀ k v ex, PSet k v ex ∈ cmds → k ≠ key).
  { intros k v ex Hin. eapply Hk. by right. }
  destruct c as [k|k v ex]; simpl.
  - destruct (Redis.pipe_run now store cmds) as [st rs] eqn:E. simpl.
    specialize (IH store Hrest). by rewrite E in IH.
  - unfold Redis.set_pure. destruct (ex <=? 0).
    + destruct (Redis.pipe_run now store cmds) as [st rs] eqn:E. simpl.
      specialize (IH store Hrest). by rewrite E in IH.
    + destruct (Redis.pipe_run now _ cmds) as [st rs] eqn:E. simpl.
      match type of E with
      | Redis.pipe_run _ ?s _ = _ => specialize (IH s Hrest)
      end.
      rewrite E in IH. simpl in IH. rewrite IH.
      apply lookup_insert_ne. eapply Hk. by left.
Qed.

(** Every [SET] of a round is for a key the read found. *)
Lemma writes_only_present now store timeout to_process k v ex :
  PSet k v ex ∈ BatchWriter.writes timeout (BatchWriter.flushed now store to_process) →
  is_Some (Redis.peek now store k).
Proof.
  unfold BatchWriter.writes, BatchWriter.flushed.
  intros Hin. apply list_elem_of_fmap in Hin as (x & Hx & Hin).
  apply list_elem_of_omap in Hin as (it & _ & Hit).
  destruct (Redis.get_pure now store (Handler.session_key it.1)) as [[s|]|] eqn:G; try discriminate.
  injection Hit as <-. simpl in Hx. injection Hx as -> _ _.
  unfold Redis.get_pure in G.
  destruct (Redis.peek now store (Handler.session_key it.1)); [eauto|discriminate].
Qed.
End Pipelines.

Lemma set_redis_same w : set_redis (λ _, redis w) w = w.
Proof. by destruct w. Qed.

Lemma set_redis_same_on f w : set_redis (λ _, redis w) (set_session_handler f w) = set_session_handler f w.
Proof. by destruct w. Qed.

Lemma trace_emit_all es w : trace (emit_all es w) = (trace w ++ es)%list.
Proof.
  revert w. induction es as [|e es IH]; intros w; simpl.
  - by rewrite app_nil_r.
  - unfold emit_all in *. simpl. rewrite IH. simpl. by rewrite <- app_assoc.
Qed.

Lemma emit_all_frame es w :
  redis (emit_all es w) = redis w ∧ clock (emit_all es w) = clock w ∧
  session_handler (emit_all es w) = session_handler w.
Proof.
  revert w. induction es as [|e es IH]; intros w; [done|].
  unfold emit_all in *. simpl. destruct (IH (emit e w)) as (-> & -> & ->). done.
Qed.

(** The second loop of a round, fed what the read pipeline returned. *)
Lemma fill_write_pipeline_run now store timeout to_process w :
  BatchWriter.fill_write_pipeline timeout to_process
    (Redis.responses (map (λ it, Redis.get_pure now store (Handler.session_key it.1)) to_process)) w =
  (Ok (BatchWriter.writes timeout (BatchWriter.flushed now store to_process)),
   emit_all (BatchWriter.publications (BatchWriter.flushed now store to_process)) w).
Proof.
  revert w. induction to_process as [|[sid data] rest IH]; intros w; [reflexivity|].
  simpl. unfold BatchWriter.flushed. simpl.
  destruct (Redis.get_pure now store (Handler.session_key sid)) as [[s|]|e] eqn:G; simpl.
  - unfold create_task. run_prim. run_with (apply IH). reflexivity.
  - apply IH.
  - apply IH.
Qed.

Lemma execute_run cmds w :
  cmds ≠ [] →
  Redis.execute cmds w =
  (match Redis.first_error (Redis.pipe_run (clock w) (redis w) cmds).2 with
   | Some e => Raise e
   | None => Ok (Redis.responses (Redis.pipe_run (clock w) (redis w) cmds).2)
   end,
   emit (EvPipeline cmds) (set_redis (λ _, (Redis.pipe_run (clock w) (redis w) cmds).1) w)).
Proof.
  intros Hne. unfold Redis.execute. destruct cmds as [|c cmds]; [done|].
  run_prim. run_prim.
  destruct (Redis.pipe_run (clock w) (redis w) (c :: cmds)) as [st rs]. simpl.
  unfold bind, modify, ret, raise. by destruct (Redis.first_error rs).
Qed.

Lemma execute_gets {A} (key : A → string) (items : list A) w :
  items ≠ [] →
  Redis.execute (map (λ it, PGet (key it)) items) w =
  (match Redis.first_error (map (λ it, Redis.get_pure (clock w) (redis w) (key it)) items) with
   | Some e => Raise e
   | None => Ok (Redis.responses (map (λ it, Redis.get_pure (clock w) (redis w) (key it)) items))
   end,
   emit (EvPipeline (map (λ it, PGet (key it)) items)) (set_redis (λ _, redis w) w)).
Proof.
  intros Hne. rewrite execute_run by (by destruct items).
  rewrite <- (map_map key PGet). rewrite pipe_run_gets. cbn [fst snd].
  by rewrite (map_map key).
Qed.

Lemma first_error_none {A} (f : A → Res (option Session)) (l : list A) :
  Forall (λ x, ∃ r, f x = Ok r) l → Redis.first_error (map f l) = None.
Proof.
  induction 1 as [|x l [r Hx] _ IH]; [reflexivity|]. simpl. by rewrite Hx.
Qed.

(** What a round leaves, whatever happens in it. *)
Lemma flush_round_run w :
  let now := clock w in
  let store := redis w in
  let to_process := _pending_updates (session_handler w) in
  let fl := BatchWriter.flushed now store to_process in
  let cmds := BatchWriter.writes (sh_timeout_seconds (session_handler w)) fl in
  ∃ w',
    BatchWriter.flush_round w = (Ok tt, w') ∧
    _pending_updates (session_handler w') = [] ∧
    clock w' = now ∧
    (redis w' = store ∨ redis w' = (Redis.pipe_run now store cmds).1) ∧
    (to_process ≠ [] → BatchWriter.reads_succeed now store to_process →
     trace w' =
       (trace w ++ [EvPipeline (map (λ it, PGet (Handler.session_key it.1)) to_process)]
        ++ BatchWriter.publications fl
        ++ match cmds with [] => [] | _ => [EvPipeline cmds] end)%list).
Proof.
  cbv zeta.
  unfold BatchWriter.flush_round.
  destruct (_pending_updates (session_handler w)) as [|it rest] eqn:Hp.
  { exists w. split.
    - apply try_except_ok. run_prim. rewrite Hp. reflexivity.
    - repeat split; [exact Hp|by left|done]. }
  set (now := clock w). set (store := redis w).
  set (fl := BatchWriter.flushed now store (it :: rest)).
  set (cmds := BatchWriter.writes (sh_timeout_seconds (session_handler w)) fl).
  set (reads := map (λ it, PGet (Handler.session_key it.1)) (it :: rest)).
  set (w1 := set_session_handler (Handler.set_pending []) w).
  set (rs := map (λ it, Redis.get_pure now store (Handler.session_key it.1)) (it :: rest)).
  set (w2 := emit (EvPipeline reads) (set_redis (λ _, store) w1)).
  assert (Hreads : Redis.execute reads w1 =
            (match Redis.first_error rs with
             | Some e => Raise e
             | None => Ok (Redis.responses rs)
             end, w2)).
  { unfold reads. rewrite execute_gets by done. reflexivity. }
  set (w3 := emit_all (BatchWriter.publications fl) w2).
  assert (Hfill : BatchWriter.fill_write_pipeline (sh_timeout_seconds (session_handler w))
                    (it :: rest) (Redis.responses rs) w2 = (Ok cmds, w3)).
  { apply fill_write_pipeline_run. }
  destruct (emit_all_frame (BatchWriter.publications fl) w2) as (Hr3 & Hc3 & Hs3).
  pose proof (trace_emit_all (BatchWriter.publications fl) w2) as Ht3.
  fold w3 in Hr3, Hc3, Hs3, Ht3.
  change (redis w2) with store in Hr3.
  change (clock w2) with now in Hc3.
  change (session_handler w2) with (Handler.set_pending [] (session_handler w)) in Hs3.
  change (trace w2) with (trace w ++ [EvPipeline reads])%list in Ht3.
  clearbody w3.
  assert (Hwrite : ∃ r w4, Redis.execute cmds w3 = (r, w4) ∧
            _pending_updates (session_handler w4) = [] ∧ clock w4 = now ∧
            (redis w4 = store ∨ redis w4 = (Redis.pipe_run now store cmds).1) ∧
            trace w4 = (trace w3 ++ match cmds with [] => [] | _ => [EvPipeline cmds] end)%list).
  { destruct cmds as [|c cmds'] eqn:Hcmds.
    - exists (Ok []), w3. split; [reflexivity|]. rewrite Hs3, Hc3, Hr3, app_nil_r.
      repeat split. by left.
    - eexists _, _. split; [apply execute_run; done|].
      cbn [session_handler clock redis trace emit set_redis].
      rewrite Hs3, Hc3, Hr3. repeat split. by right. }
  destruct Hwrite as (r & w4 & Hwrite & Hp4 & Hc4 & Hr4 & Ht4).
  destruct (Redis.first_error rs) as [e|] eqn:Herr.
  - (* the read pipeline raises: the round is abandoned *)
    exists w2. split.
    { eapply eq_trans; [eapply try_except_raise|reflexivity].
      run_prim. rewrite Hp.
      run_prim. erewrite bind_raise by exact Hreads. reflexivity. }
    repeat split; [by left|].
    intros _ Hok. apply first_error_none in Hok. fold rs in Hok. congruence.
  - exists w4. split.
    { destruct r as [resp|e].
      - apply try_except_ok.
        run_prim. rewrite Hp.
        run_prim. run_with exact Hreads. run_with exact Hfill.
        run_with exact Hwrite. reflexivity.
      - eapply eq_trans; [eapply try_except_raise|reflexivity].
        run_prim. rewrite Hp.
        run_prim. run_with exact Hreads. run_with exact Hfill.
        erewrite bind_raise by exact Hwrite. reflexivity. }
    split; [exact Hp4|]. split; [exact Hc4|]. split; [exact Hr4|].
    intros _ _. rewrite Ht4, Ht3. by rewrite <- !app_assoc.
Qed.

Lemma keys_pure_elem now store prefix key :
  key ∈ Redis.keys_pure now store prefix ↔
  String.prefix prefix key = true ∧ is_Some (Redis.peek now store key).
Proof.
  unfold Redis.keys_pure, Redis.peek. rewrite list_elem_of_omap. split.
  - intros ([k e] & Hin & Hk). apply elem_of_map_to_list in Hin. simpl in Hk.
    destruct (String.prefix prefix k) eqn:P; [|discriminate].
    destruct (Redis.live now e) eqn:L; [|discriminate].
    simpl in Hk. injection Hk as <-. rewrite Hin, L. eauto.
  - intros [P [e He]]. destruct (store !! key) as [e'|] eqn:Hs; [|discriminate].
    destruct (Redis.live now e') eqn:L; [|discriminate].
    exists (key, e'). split; [by apply elem_of_map_to_list|]. simpl. by rewrite P, L.
Qed.

(** C10.  A round of the batched writer always completes, leaves nothing
    queued, and creates no key: an entry absent from the KV when the
    round reads is left exactly as it was (no value, no expiry is
    written), so the keys visible after the round, of any prefix, were
    visible before it. *)
Theorem flush_round_creates_no_key w :
  ∃ w',
    BatchWriter.flush_round w = (Ok tt, w') ∧
    _pending_updates (session_handler w') = [] ∧
    (∀ key, Redis.peek (clock w) (redis w) key = None → redis w' !! key = redis w !! key) ∧
    (∀ prefix key,
       key ∈ Redis.keys_pure (clock w') (redis w') prefix →
       key ∈ Redis.keys_pure (clock w) (redis w) prefix).
Proof.
  destruct (flush_round_run w) as (w' & Hrun & Hp & Hc & Hr & _).
  assert (Habsent : ∀ key, Redis.peek (clock w) (redis w) key = None →
                           redis w' !! key = redis w !! key).
  { intros key Hk. destruct Hr as [-> | ->]; [reflexivity|].
    apply pipe_run_other_keys. intros k v ex Hin ->.
    apply writes_only_present in Hin as [e He]. congruence. }
  exists w'. split; [exact Hrun|]. split; [exact Hp|]. split; [exact Habsent|].
  intros prefix key. rewrite !keys_pure_elem, Hc. intros [P [e He]]. split; [exact P|].
  destruct (Redis.peek (clock w) (redis w) key) as [e0|] eqn:P0; [eauto|].
  apply Habsent in P0 as Heq. unfold Redis.peek in He, P0. rewrite Heq in He.
  rewrite P0 in He. discriminate.
Qed.

(** C5, as amended.  In a round that has something queued and whose read
    pipeline succeeds, the events are, in this order: the execution of
    the read pipeline; for each session the read returned, the creation
    of the detached task that publishes [events:session:update:<u>];
    last, when at least one session was returned, the execution of the
    write pipeline.  The publications are handed to the event loop
    before the write is executed, and the round awaits none of them. *)
Theorem flush_round_creates_publications_before_write w :
  _pending_updates (session_handler w) ≠ [] →
  BatchWriter.reads_succeed (clock w) (redis w) (_pending_updates (session_handler w)) →
  ∃ w',
    BatchWriter.flush_round w = (Ok tt, w') ∧
    trace w' =
      (trace w
       ++ [EvPipeline (map (λ it, PGet (Handler.session_key it.1))
                         (_pending_updates (session_handler w)))]
       ++ BatchWriter.publications
            (BatchWriter.flushed (clock w) (redis w) (_pending_updates (session_handler w)))
       ++ match BatchWriter.writes (sh_timeout_seconds (session_handler w))
                  (BatchWriter.flushed (clock w) (redis w)
                     (_pending_updates (session_handler w))) with
          | [] => []
          | cmds => [EvPipeline cmds]
          end)%list.
Proof.
  intros Hne Hok.
  destruct (flush_round_run w) as (w' & Hrun & _ & _ & _ & Ht).
  exists w'. split; [exact Hrun|]. rewrite (Ht Hne Hok).
  by destruct (BatchWriter.writes _ _).
Qed.

Lemma flush_round_creates_publications_before_write_witness :
  _pending_updates (session_handler Demo.update_queued) ≠ [] ∧
  BatchWriter.reads_succeed (clock Demo.update_queued) (redis Demo.update_queued)
    (_pending_updates (session_handler Demo.update_queued)) ∧
  ∃ w',
    BatchWriter.flush_round Demo.update_queued = (Ok tt, w') ∧
    trace w' =
      (trace Demo.update_queued
       ++ [EvPipeline (map (λ it, PGet (Handler.session_key it.1))
                         (_pending_updates (session_handler Demo.update_queued)))]
       ++ BatchWriter.publications
            (BatchWriter.flushed (clock Demo.update_queued) (redis Demo.update_queued)
               (_pending_updates (session_handler Demo.update_queued)))
       ++ match BatchWriter.writes (sh_timeout_seconds (session_handler Demo.update_queued))
                  (BatchWriter.flushed (clock Demo.update_queued) (redis Demo.update_queued)
                     (_pending_updates (session_handler Demo.update_queued))) with
          | [] => []
          | cmds => [EvPipeline cmds]
          end)%list.
Proof.
  assert (Hne : _pending_updates (session_handler Demo.update_queued) ≠ [])
    by (vm_compute; discriminate).
  assert (Hok : BatchWriter.reads_succeed (clock Demo.update_queued) (redis Demo.update_queued)
                  (_pending_updates (session_handler Demo.update_queued))).
  { vm_compute. repeat constructor. eexists. reflexivity. }
  split; [exact Hne|]. split; [exact Hok|].
  exact (flush_round_creates_publications_before_write Demo.update_queued Hne Hok).
Defined.

(** The claim of C5 fails: in the round that flushes the update queued
    for alice, the publication is initiated between the read pipeline
    and the write pipeline, with no write executed before it. *)
Lemma publication_precedes_write :
  (∃ get set_ publish,
     Demo.round_events = [EvPipeline [get]; EvCreateTask publish; EvPipeline [set_]] ∧
     get = PGet "sessions:uuid-0" ∧
     (∃ v ex, set_ = PSet "sessions:uuid-0" v ex) ∧
     (∃ payload, publish = TPublish "events:session:update:alice" payload)) ∧
  ¬ BatchWriter.publishes_after_write Demo.round_events.
Proof.
  assert (Hev : ∃ v ex payload,
            Demo.round_events =
            [EvPipeline [PGet "sessions:uuid-0"];
             EvCreateTask (TPublish "events:session:update:alice" payload);
             EvPipeline [PSet "sessions:uuid-0" v ex]]).
  { eexists _, _, _. vm_compute. reflexivity. }
  destruct Hev as (v & ex & payload & Hev). split.
  - eexists _, _, _. split; [exact Hev|]. split; [reflexivity|]. split; eauto.
  - intros H. rewrite Hev in H.
    destruct (H [EvPipeline [PGet "sessions:uuid-0"]] _ _ _ eq_refl)
      as (e & Hin & cmds & key & v' & ex' & -> & Hset).
    apply list_elem_of_singleton in Hin. injection Hin as ->.
    apply list_elem_of_singleton in Hset. discriminate.
Qed.

(** ** C3: the same API key sent repeatedly *)

Lemma send_ack_run ws key sid w s :
  sockets w !! ws = Some s → client_state s = CONNECTED → application_state s = CONNECTED →
  WssManager._send_ack ws key sid w =
  (Ok tt,
   emit (EvWs ws (WsSend (WssManager.ack_frame key sid (replica w))))
     (set_sockets
        <[ws := {| client_state := client_state s; application_state := application_state s;
                   sent := sent s ++ [WssManager.ack_frame key sid (replica w)];
                   close_frame := close_frame s |}]> w)).
Proof.
  intros Hs Hc Ha. unfold WssManager._send_ack.
  run_with (apply client_connected_run; exact Hs).
  replace (Socket.connected (client_state s)) with true by (by rewrite Hc).
  apply try_except_ok.
  run_with apply gateway_id_run.
  by apply send_run.
Qed.

Lemma is_duplicate_message_run u sid ty data w :
  WssManager._is_duplicate_message u sid ty data w =
  (Ok match WssManager.cached (message_cache (ws_manager w)) u sid ty with
      | Some c =>
          String.eqb (cmsg_message_data c) data
          && (clock w - cmsg_timestamp c <? cache_ttl (ws_manager w))
      | None => false
      end, w).
Proof.
  unfold WssManager._is_duplicate_message, WssManager.cached.
  run_prim.
  destruct (message_cache (ws_manager w) !! u) as [sessions|]; [|reflexivity]. cbn.
  destruct (sessions !! sid) as [messages|]; [|reflexivity]. cbn.
  destruct (messages !! ty) as [c|]; reflexivity.
Qed.

Lemma cache_message_run u sid ty data w :
  WssManager._cache_message u sid ty data w =
  (Ok tt,
   set_ws_manager
     (WssManager.set_message_cache
        (WssManager.cache_insert u sid ty
           {| cmsg_message_type := ty; cmsg_message_data := data;
              cmsg_timestamp := clock w; cmsg_user_id := u; cmsg_session_id := sid |})) w).
Proof. reflexivity. Qed.

Lemma cached_cache_insert u sid ty c cache :
  WssManager.cached (WssManager.cache_insert u sid ty c cache) u sid ty = Some c.
Proof.
  unfold WssManager.cached, WssManager.cache_insert.
  rewrite lookup_insert_eq. cbn. rewrite lookup_insert_eq. cbn. apply lookup_insert_eq.
Qed.

Section ApiKey.
Variables (ws : nat) (u sid role key : string).

Local Abbreviation frame := (WssManager.api_key_frame key).

(** The dispatcher reaches the built-in handler. *)
Lemma handle_ws_message_api_key w :
  WssManager._is_message_allowed "update_api_key" role (ws_manager w) = true →
  WssManager.handle_ws_message u sid frame ws role w =
  try_except
    (WssManager._handle_api_key_update u sid
       (<["type" := JStr "update_api_key"]> (<["key" := JStr key]> ∅)) ws)
    (λ _, WssManager._send_error ws "Internal error") w.
Proof.
  intros Hallowed. unfold WssManager.api_key_frame, WssManager.handle_ws_message.
  unfold try_except. rewrite lookup_insert_eq. cbn [classify].
  change (String.eqb "update_api_key" "pong") with false.
  change (String.eqb "update_api_key" "ping") with false.
  change (String.eqb "update_api_key" "update_api_key") with true.
  cbn iota. run_prim. rewrite Hallowed. reflexivity.
Qed.

Lemma key_of_frame w :
  WssManager.key_of (<["type" := JStr "update_api_key"]> (<["key" := JStr key]> ∅)) w
  = (Ok key, w).
Proof.
  unfold WssManager.key_of.
  rewrite lookup_insert_ne by done. by rewrite lookup_insert_eq.
Qed.

(** The first message: cached, acknowledged, handed to a background
    task. *)
Lemma first_api_key_update w s :
  sockets w !! ws = Some s → client_state s = CONNECTED → application_state s = CONNECTED →
  WssManager._is_message_allowed "update_api_key" role (ws_manager w) = true →
  WssManager._is_duplicate_message u sid "update_api_key" key w = (Ok false, w) →
  WssManager.handle_ws_message u sid frame ws role w =
  (Ok tt,
   emit (EvCreateTask (TProcessApiKeyUpdate u sid key))
     (emit (EvWs ws (WsSend (WssManager.ack_frame key sid (replica w))))
        (set_sockets
           <[ws := {| client_state := client_state s; application_state := application_state s;
                      sent := sent s ++ [WssManager.ack_frame key sid (replica w)];
                      close_frame := close_frame s |}]>
           (set_ws_manager
              (WssManager.set_message_cache
                 (WssManager.cache_insert u sid "update_api_key"
                    {| cmsg_message_type := "update_api_key"; cmsg_message_data := key;
                       cmsg_timestamp := clock w; cmsg_user_id := u;
                       cmsg_session_id := sid |})) w)))).
Proof.
  intros Hs Hc Ha Hallowed Hdup.
  rewrite handle_ws_message_api_key by done.
  apply try_except_ok. unfold WssManager._handle_api_key_update.
  run_with apply key_of_frame.
  run_with exact Hdup.
  run_with apply cache_message_run.
  run_with (eapply send_ack_run; [exact Hs|exact Hc|exact Ha]).
  reflexivity.
Qed.

(** A repetition within the TTL: acknowledged, nothing else. *)
Lemma duplicate_api_key_update w s c :
  sockets w !! ws = Some s → client_state s = CONNECTED → application_state s = CONNECTED →
  WssManager._is_message_allowed "update_api_key" role (ws_manager w) = true →
  WssManager.cached (message_cache (ws_manager w)) u sid "update_api_key" = Some c →
  cmsg_message_data c = key →
  clock w - cmsg_timestamp c < cache_ttl (ws_manager w) →
  WssManager.handle_ws_message u sid frame ws role w =
  (Ok tt,
   emit (EvWs ws (WsSend (WssManager.ack_frame key sid (replica w))))
     (set_sockets
        <[ws := {| client_state := client_state s; application_state := application_state s;
                   sent := sent s ++ [WssManager.ack_frame key sid (replica w)];
                   close_frame := close_frame s |}]> w)).
Proof.
  intros Hs Hc Ha Hallowed Hcached Hdata Hrecent.
  rewrite handle_ws_message_api_key by done.
  apply try_except_ok. unfold WssManager._handle_api_key_update.
  run_with apply key_of_frame.
  run_with apply is_duplicate_message_run.
  rewrite Hcached, Hdata, String.eqb_refl.
  replace (_ <? _) with true by (symmetry; apply Z.ltb_lt; exact Hrecent).
  cbn [andb]. by apply send_ack_run.
Qed.

(** Any number of repetitions within the TTL of the cached message. *)
Lemma repeated_duplicates instants : ∀ w s c,
  sockets w !! ws = Some s → client_state s = CONNECTED → application_state s = CONNECTED →
  WssManager._is_message_allowed "update_api_key" role (ws_manager w) = true →
  WssManager.cached (message_cache (ws_manager w)) u sid "update_api_key" = Some c →
  cmsg_message_data c = key →
  Forall (λ t, t - cmsg_timestamp c < cache_ttl (ws_manager w)) instants →
  ∃ w' s',
    WssManager.handle_repeated u sid frame ws role instants w = (Ok tt, w') ∧
    trace w' =
      (trace w ++ repeat (EvWs ws (WsSend (WssManager.ack_frame key sid (replica w))))
                    (length instants))%list ∧
    sockets w' !! ws = Some s' ∧
    sent s' = (sent s ++ repeat (WssManager.ack_frame key sid (replica w))
                           (length instants))%list ∧
    close_frame s' = close_frame s.
Proof.
  induction instants as [|t rest IH]; intros w s c Hs Hc Ha Hallowed Hcached Hdata Hall.
  - exists w, s. simpl. rewrite !app_nil_r. done.
  - apply Forall_cons in Hall as [Ht Hrest].
    simpl. run_prim.
    run_with (eapply duplicate_api_key_update;
              [exact Hs|exact Hc|exact Ha|exact Hallowed|exact Hcached|exact Hdata|exact Ht]).
    edestruct (IH (emit (EvWs ws (WsSend (WssManager.ack_frame key sid (replica w))))
                     (set_sockets
                        <[ws := {| client_state := client_state s;
                                   application_state := application_state s;
                                   sent := sent s ++ [WssManager.ack_frame key sid (replica w)];
                                   close_frame := close_frame s |}]> (set_clock t w))))
      as (w' & s' & Hrun & Htr & Hs' & Hsent & Hclose);
      [apply lookup_insert_eq|exact Hc|exact Ha|exact Hallowed|exact Hcached|exact Hdata
      |exact Hrest|].
    exists w', s'. split; [exact Hrun|].
    split. { rewrite Htr. cbn. by rewrite <- app_assoc. }
    split; [exact Hs'|].
    split. { rewrite Hsent. cbn. by rewrite <- app_assoc. }
    exact Hclose.
Qed.

End ApiKey.

(** What the background task does once it runs: the update is queued
    for the batched writer, merged into the entry of the session. *)
Lemma process_api_key_update_run u sid key w :
  WssManager._process_api_key_update u sid key w =
  (Ok tt,
   set_session_handler
     (λ h, Handler.set_pending
             (Handler.enqueue sid u "default" (<["api_key" := JStr key]> ∅) (clock w)
                (_pending_updates h)) h) w).
Proof. reflexivity. Qed.


(** ** C7: the inactive-users sweep *)

(** C7 fails for a user whose name holds a colon.  [a:b] last logged
    in at 1010 and owns a live session and a connection record; the sweep
    of 1100 with [MAX_INACTIVE_DAYS=0] finds the record [users:a:b]
    stale, takes [key.split(":")[1]], that is [a], for the user name, and
    purges the (absent) sessions and connection of [a]: the session and
    the connection record of [a:b] survive, and the event published is
    [events:user:inactive_cleanup:a].  The user record is left as it
    was. *)
Theorem inactive_sweep_misses_colon_user :
  Demo.at_time 1100 (Cleaner.cleanup_inactive_users 0) Demo.colon_user = (Ok tt, Demo.swept) ∧
  (∃ h, Redis.hgetall_pure 1100 (redis Demo.colon_user) (Users.user_key "a:b") = Ok h ∧
        h !! "last_login" = Some (FNum 1010) ∧ 1010 < 1100 - 0 * 86400) ∧
  Handler.owned_sessions 1100 (redis Demo.colon_user) "a:b" = [Handler.session_key "uuid-0"] ∧
  Handler.owned_sessions 1100 (redis Demo.swept) "a:b" = [Handler.session_key "uuid-0"] ∧
  (∃ c, Connections.get_connection_info "a:b" Demo.swept = (Ok (Some c), Demo.swept) ∧
        cd_get c "session_id" = Some "uuid-0") ∧
  drop (length (trace Demo.colon_user)) (trace Demo.swept) =
    [EvDelete (Connections.connection_key "a");
     EvPublish "events:connection:removed:a" (JObj [("user_id", JStr "a")]);
     EvPublish "events:user:inactive_cleanup:a"
       (JObj [("username", JStr "a"); ("reason", JStr "long_inactivity");
              ("action", JStr "cleanup_sessions_and_ws")])] ∧
  redis Demo.swept !! Users.user_key "a:b" = redis Demo.colon_user !! Users.user_key "a:b".
Proof.
  split; [vm_compute; reflexivity|].
  split; [eexists; split; [vm_compute; reflexivity|split; [vm_compute; reflexivity|lia]]|].
  split; [vm_compute; reflexivity|].
  split; [vm_compute; reflexivity|].
  split; [eexists; split; vm_compute; reflexivity|].
  split; vm_compute; reflexivity.
Qed.

(** ** C1: what a login does to the sessions of the user *)

(** One step of a run that is known to return. *)
Tactic Notation "run_in" hyp(H) "with" tactic3(tac) :=
  erewrite bind_ok in H by tac; cbn beta iota zeta in H.

(** Case analysis on the head of a run that is known to return. *)
Ltac head_returns H E :=
  first [ rewrite (bind_ok _ _ _ _ _ E) in H; cbn beta iota zeta in H
        | rewrite (bind_raise _ _ _ _ _ E) in H; discriminate H ].

Lemma set_user_manager_id w : set_user_manager id w = w.
Proof. by destruct w. Qed.

Lemma set_user_manager_twice f g w :
  set_user_manager f (set_user_manager g w) = set_user_manager (f ∘ g) w.
Proof. reflexivity. Qed.

(** Reading a user record touches the cache of the user manager only. *)
Lemma get_user_from_redis_world u w r w1 :
  Users.get_user_from_redis u w = (Ok r, w1) → ∃ f, w1 = set_user_manager f w.
Proof.
  intros H. unfold Users.get_user_from_redis in H.
  run_in H with reflexivity.
  destruct (users_cache (user_manager w) !! u) as [hit|].
  { injection H as _ <-. exists id. by rewrite set_user_manager_id. }
  pose proof (hgetall_run (Users.user_key u) w) as Hh.
  destruct (Redis.hgetall_pure _ _ _) as [h|e]; head_returns H Hh.
  destruct (decide (h = ∅)).
  { injection H as _ <-. exists id. by rewrite set_user_manager_id. }
  destruct (default (FNum 0) (h !! "last_login")) as [s|z]; [discriminate H|].
  injection H as _ <-. eexists. reflexivity.
Qed.

Lemma check_credentials_world req w r w1 :
  Users.check_credentials req w = (Ok r, w1) → ∃ f, w1 = set_user_manager f w.
Proof.
  intros H. unfold Users.check_credentials in H.
  destruct (Users.get_user_from_redis (lr_username req) w) as [[found|e] w0] eqn:Hg;
    head_returns H Hg.
  apply get_user_from_redis_world in Hg as [f ->].
  destruct (negb (Users.user_found found)); [discriminate H|].
  unfold Users.item, Users._hash_password, Security.create_access_token in H.
  destruct (default ∅ found !! "password") as [p|]; [|discriminate H].
  run_in H with reflexivity. run_in H with reflexivity.
  destruct (negb _); [discriminate H|].
  destruct (default ∅ found !! "role") as [ro|]; [|discriminate H].
  run_in H with reflexivity. run_in H with reflexivity.
  injection H as _ <-. by exists f.
Qed.

Lemma hset_pure_inv now store key mapping store' :
  Redis.hset_pure now store key mapping = Ok store' →
  ∃ e, store' = <[key := e]> store ∧ Redis.live now e = true.
Proof.
  unfold Redis.hset_pure. destruct (Redis.peek now store key) as [e0|] eqn:Hp.
  - apply peek_Some in Hp as [_ Hl].
    destruct (e_value e0); [discriminate|]. intros [= <-]. eexists. split; [reflexivity|exact Hl].
  - intros [= <-]. eexists. split; reflexivity.
Qed.

(** Saving a user record writes the key of the user and nothing else. *)
Lemma save_user_to_redis_world u ud w w2 :
  Users.save_user_to_redis u ud w = (Ok tt, w2) →
  ∃ e,
    w2 = emit (EvPublish ("events:user:register:" +:+ u)
                 (JObj [("username", JStr u); ("user_data", Users.user_json ud)]))
           (set_user_manager (Users.cache_user u ud)
              (emit (EvExpire (Users.user_key u) (um_timeout_seconds (user_manager w) * 12))
                 (emit (EvHSet (Users.user_key u) (map_to_list ud))
                    (set_redis (λ _, <[Users.user_key u := e]> (redis w)) w)))).
Proof.
  intros H. unfold Users.save_user_to_redis in H. cbn zeta in H.
  destruct (Redis.hset_pure (clock w) (redis w) (Users.user_key u) (map_to_list ud))
    as [store'|e] eqn:Hset.
  - pose proof (hset_ok _ _ _ _ Hset) as Hrun. head_returns H Hrun.
    apply hset_pure_inv in Hset as (e1 & -> & Hlive).
    run_in H with reflexivity.
    run_in H with (apply expire_some; eapply expire_pure_stored;
                   [apply lookup_insert_eq|exact Hlive]).
    run_in H with reflexivity.
    injection H as <-. eexists.
    unfold Events.publish, Redis.publish, modify, emit, set_redis, set_user_manager. cbn.
    by rewrite insert_insert_eq.
  - pose proof (hset_raise _ _ _ _ Hset) as Hrun. head_returns H Hrun.
Qed.

(** The single-session block of [login]: the session the connection
    record names is deleted with the record, when it names one. *)
Lemma delete_old_session_world u w w3 :
  Users.delete_old_session u w = (Ok tt, w3) →
  ∃ c, Connections.get_connection_info u w = (Ok c, w) ∧
       w3 = match c with
            | Some conn =>
                if truthy (cd_get conn "session_id") then
                  let old := default "" (cd_get conn "session_id") in
                  emit (EvPublish ("events:session:logout:" +:+ u)
                          (JObj [("user_id", JStr u); ("session_id", JStr old);
                                 ("reason", JStr "new_login")]))
                    (emit (EvPublish ("events:connection:removed:" +:+ u)
                             (JObj [("user_id", JStr u)]))
                       (emit (EvDelete (Connections.connection_key u))
                          (set_redis (delete (Connections.connection_key u))
                             (emit (EvDelete (Handler.session_key old))
                                (set_redis (delete (Handler.session_key old)) w)))))
                else w
            | None => w
            end.
Proof.
  intros H. unfold Users.delete_old_session in H.
  destruct (Connections.get_connection_info u w) as [[c|e] w0] eqn:Hc; head_returns H Hc.
  assert (w0 = w) as -> by (rewrite get_connection_info_run in Hc; by injection Hc).
  exists c. split; [reflexivity|].
  destruct c as [conn|]; [|by injection H].
  destruct (truthy (cd_get conn "session_id")); by injection H.
Qed.

Lemma get_connection_info_stored u w c :
  Connections.get_connection_info u w = (Ok c, w) →
  ∃ h, Redis.hgetall_pure (clock w) (redis w) (Connections.connection_key u) = Ok h.
Proof.
  rewrite get_connection_info_run.
  destruct (Redis.hgetall_pure _ _ _) as [h|e]; [eauto|discriminate].
Qed.

(** The record depends on the key of the connection and the clock. *)
Lemma get_connection_info_local u w w' :
  redis w' !! Connections.connection_key u = redis w !! Connections.connection_key u →
  clock w' = clock w →
  fst (Connections.get_connection_info u w') = fst (Connections.get_connection_info u w).
Proof.
  intros Hr Hc. rewrite !get_connection_info_run. cbn [fst].
  unfold Redis.hgetall_pure, Redis.peek. by rewrite Hr, Hc.
Qed.

Lemma tracked_fields_stored sid gw flag now h :
  let h' := Redis.hash_update (Connections.tracked_fields sid gw flag now) h in
  h' !! "session_id" = Some (FStr sid) ∧
  h' !! "ws_connected" = Some (FStr (if flag then "1" else "0")) ∧
  h' !! "last_seen" = Some (FNum now).
Proof.
  unfold Redis.hash_update, Connections.tracked_fields. cbn [foldl fst snd]. repeat split.
  - rewrite !lookup_insert_ne by done. apply lookup_insert_eq.
  - rewrite lookup_insert_ne by done. apply lookup_insert_eq.
  - apply lookup_insert_eq.
Qed.

(** The tail of [login] and of the HTTP gate: a session is created and
    the connection record is made to name it. *)
Lemma fresh_session_tracked u w h :
  Redis.hgetall_pure (clock w) (redis w) (Connections.connection_key u) = Ok h →
  0 < sh_timeout_seconds (session_handler w) →
  0 < cm_timeout_seconds (connection_manager w) →
  let new := uuid4 (ext w) (uuid_counter w) in
  let session := Handler.new_session u "default" (clock w) in
  ∃ w1 w2 w3,
    Handler.create_session u "default" w = (Ok (session, new), w1) ∧
    Connections.track_connection u new (Some (replica w1)) false w1 = (Ok tt, w2) ∧
    Handler.update_timestamp_only new w2 = (Ok tt, w3) ∧
    clock w3 = clock w ∧
    (∃ post, trace w3 =
               (trace w ++ EvSet (Handler.session_key new) session
                             (sh_timeout_seconds (session_handler w)) :: post)%list) ∧
    (∃ s, Redis.get_pure (clock w3) (redis w3) (Handler.session_key new) = Ok (Some s) ∧
          s_user_id s = u) ∧
    (∃ c, Connections.get_connection_info u w3 = (Ok (Some c), w3) ∧
          cd_get c "session_id" = Some new) ∧
    (∀ sid, sid ≠ new →
       redis w3 !! Handler.session_key sid = redis w !! Handler.session_key sid).
Proof.
  intros Hg Hts Htc new session.
  pose proof (create_session_run u "default" w Hts) as Hcreate. cbn zeta in Hcreate.
  fold new session in Hcreate.
  set (w1 := emit _ _) in Hcreate.
  assert (Hg1 : Redis.hgetall_pure (clock w1) (redis w1) (Connections.connection_key u) = Ok h).
  { cbn. unfold Redis.hgetall_pure.
    rewrite peek_insert_ne by apply session_key_ne_connection_key. exact Hg. }
  pose proof (track_connection_run u new (replica w1) false w1 h Hg1) as Htrack.
  cbn zeta in Htrack.
  set (w2 := emit _ _) in Htrack.
  set (h2 := Redis.hash_update _ h) in *.
  destruct (tracked_fields_stored new (replica w1) false (clock w1) h) as (Hsid2 & Hws2 & Hseen2).
  fold h2 in Hsid2, Hws2, Hseen2.
  assert (Hl : ∀ v t, 0 < t →
            Redis.live (clock w) {| e_value := v; e_expire_at := Some (clock w + t) |} = true).
  { intros v t Ht. apply live_expiring. lia. }
  assert (Hs2 : redis w2 !! Handler.session_key new =
                Some {| e_value := RString session;
                        e_expire_at := Some (clock w + sh_timeout_seconds (session_handler w)) |}).
  { cbn. rewrite lookup_insert_ne by apply connection_key_ne_session_key.
    apply lookup_insert_eq. }
  assert (Hget2 : Redis.get_pure (clock w2) (redis w2) (Handler.session_key new)
                  = Ok (Some session)).
  { eapply get_pure_stored; [exact Hs2|by apply Hl]. }
  pose proof (update_timestamp_only_run new w2 session Hget2 Hts) as Htouch.
  set (w3 := if _ <=? _ then _ else _) in Htouch.
  exists w1, w2, w3.
  split; [exact Hcreate|]. split; [exact Htrack|]. split; [exact Htouch|].
  assert (Hclock3 : clock w3 = clock w) by (unfold w3; case_refresh; reflexivity).
  split; [exact Hclock3|].
  split.
  { unfold w3. case_refresh; cbn; eexists; rewrite <- !app_assoc; reflexivity. }
  split.
  { unfold w3. case_refresh.
    - exists (Handler.touch session (clock w2)). split; [|reflexivity]. cbn.
      eapply get_pure_stored; [apply lookup_insert_eq|by apply Hl].
    - exists session. split; [exact Hget2|reflexivity]. }
  split.
  { exists {| cd_fields := h2; cd_ws_connected := false; cd_last_seen := clock w |}.
    split; [|unfold cd_get; cbn [cd_fields]; by rewrite Hsid2].
    rewrite get_connection_info_run.
    erewrite hgetall_pure_stored; [|..].
    - unfold Connections.conn_dict.
      rewrite Hseen2, Hws2.
      case_decide as E; [by rewrite E, lookup_empty in Hsid2|reflexivity].
    - unfold w3. case_refresh; cbn.
      + rewrite lookup_insert_ne by apply session_key_ne_connection_key. apply lookup_insert_eq.
      + apply lookup_insert_eq.
    - rewrite Hclock3. by apply Hl. }
  intros sid Hsid.
  assert (Handler.session_key new ≠ Handler.session_key sid)
    by (intros E; apply session_key_inj in E; congruence).
  unfold w3. case_refresh; cbn.
  - rewrite lookup_insert_ne by done.
    rewrite lookup_insert_ne by apply connection_key_ne_session_key.
    by rewrite lookup_insert_ne.
  - rewrite lookup_insert_ne by apply connection_key_ne_session_key.
    by rewrite lookup_insert_ne.
Qed.

Lemma get_connection_info_transport u w w' c :
  redis w' !! Connections.connection_key u = redis w !! Connections.connection_key u →
  clock w' = clock w →
  Connections.get_connection_info u w' = (Ok c, w') →
  Connections.get_connection_info u w = (Ok c, w).
Proof.
  intros Hr Hc. rewrite !get_connection_info_run.
  unfold Redis.hgetall_pure, Redis.peek. rewrite Hr, Hc. intros [= E]. by rewrite E.
Qed.




(** * Further properties of the code *)

(** ** utils/httpx_manager.py: the retry loop *)

Section RetryLoop.
Import Httpx.

Lemma wait_exponential_1 : wait_exponential 1 = 1.
Proof. reflexivity. Qed.

Lemma wait_exponential_2 : wait_exponential 2 = 2.
Proof. reflexivity. Qed.

(** X1.  [make_request] makes one, two or three attempts, and sleeps between
    two attempts only: 1 s after the first, 2 s after the second. *)
Theorem make_request_attempts_bounded (upstream : nat → Outcome) :
  (1 ≤ attempts (make_request upstream) ≤ 3)%nat ∧
  sleeps (make_request upstream) = take (attempts (make_request upstream) - 1) [1; 2].
Proof.
  unfold make_request, stop_after_attempt. cbn [Nat.sub retrying].
  destruct (make_request_once (upstream 1%nat)) as [b1|e1]; cbn; [split; [lia|done]|].
  destruct (retry_if_exception_type e1); cbn; [|split; [lia|done]].
  destruct (make_request_once (upstream 2%nat)) as [b2|e2]; cbn; [split; [lia|done]|].
  destruct (retry_if_exception_type e2); cbn; [|split; [lia|done]].
  destruct (make_request_once (upstream 3%nat)) as [b3|e3]; cbn; [split; [lia|done]|].
  destruct (retry_if_exception_type e3); cbn; split; (lia || done).
Qed.

(** X2.  When the three attempts meet a timeout, a network error or a 5xx,
    the failure of the third one is raised to the caller
    ([reraise=True]), after sleeps of 1 s and 2 s. *)
Theorem make_request_reraises_last_failure (upstream : nat → Outcome) :
  (∀ n, (1 ≤ n ≤ 3)%nat →
        ∃ e, upstream n = Failed e ∧
             (e = TimeoutException ∨ e = NetworkError ∨
              ∃ c, e = HTTPStatusError c ∧ 500 ≤ c)) →
  ∃ e, upstream 3%nat = Failed e ∧
       result (make_request upstream) = Raised e ∧
       attempts (make_request upstream) = 3%nat ∧
       sleeps (make_request upstream) = [1; 2].
Proof.
  intros H.
  assert (Hstep : ∀ n, (1 ≤ n ≤ 3)%nat →
            ∃ e, upstream n = Failed e ∧ make_request_once (upstream n) = Raised e ∧
                 retry_if_exception_type e = true).
  { intros n Hn. destruct (H n Hn) as (e & Hu & He). exists e. rewrite Hu.
    destruct He as [->|[->|(c & -> & Hc)]]; repeat split; cbn.
    by destruct (Z.ltb_spec c 500); [lia|]. }
  destruct (Hstep 1%nat) as (e1 & _ & H1 & R1); [lia|].
  destruct (Hstep 2%nat) as (e2 & _ & H2 & R2); [lia|].
  destruct (Hstep 3%nat) as (e3 & U3 & H3 & R3); [lia|].
  exists e3. split; [exact U3|].
  unfold make_request, stop_after_attempt. cbn [Nat.sub retrying].
  rewrite H1, R1. cbn [retrying]. rewrite H2, R2. cbn [retrying]. rewrite H3, R3.
  repeat split.
Qed.

Lemma make_request_reraises_last_failure_witness :
  ∃ e, Failed TimeoutException = Failed e ∧
       result (make_request (λ _, Failed TimeoutException)) = Raised e ∧
       attempts (make_request (λ _, Failed TimeoutException)) = 3%nat ∧
       sleeps (make_request (λ _, Failed TimeoutException)) = [1; 2].
Proof.
  apply (make_request_reraises_last_failure (λ _, Failed TimeoutException)).
  intros n _. exists TimeoutException. split; [reflexivity|by left].
Defined.

(** X3.  An open circuit breaker ends the run at the attempt that meets it:
    [make_request] catches [CircuitBreakerError] itself and returns the
    [CIRCUIT_BREAKER_OPEN] dict, so the error never reaches the retry
    filter that lists it. *)
Theorem open_breaker_is_returned_not_retried (upstream : nat → Outcome) (n : nat) :
  (1 ≤ n ≤ attempts (make_request upstream))%nat →
  upstream n = Failed CircuitBreakerError →
  attempts (make_request upstream) = n ∧
  result (make_request upstream)
    = Return (error_dict "CIRCUIT_BREAKER_OPEN" "Service temporarily unavailable").
Proof.
  unfold make_request, stop_after_attempt. cbn [Nat.sub retrying].
  intros Hn Hu.
  destruct (decide (n = 1%nat)) as [->|N1].
  { rewrite Hu in *. cbn. done. }
  destruct (make_request_once (upstream 1%nat)) as [b1|e1]; cbn in *; [lia|].
  destruct (retry_if_exception_type e1); cbn in *; [|lia].
  destruct (decide (n = 2%nat)) as [->|N2].
  { rewrite Hu in *. cbn. done. }
  destruct (make_request_once (upstream 2%nat)) as [b2|e2]; cbn in *; [lia|].
  destruct (retry_if_exception_type e2); cbn in *; [|lia].
  destruct (decide (n = 3%nat)) as [->|N3].
  { rewrite Hu in *. cbn. done. }
  destruct (make_request_once (upstream 3%nat)) as [b3|e3]; cbn in *; [lia|].
  destruct (retry_if_exception_type e3); cbn in *; lia.
Qed.

Lemma open_breaker_is_returned_not_retried_witness :
  attempts (make_request (λ n, match n with
                               | 1%nat => Failed TimeoutException
                               | _ => Failed CircuitBreakerError
                               end)) = 2%nat ∧
  result (make_request (λ n, match n with
                             | 1%nat => Failed TimeoutException
                             | _ => Failed CircuitBreakerError
                             end))
    = Return (error_dict "CIRCUIT_BREAKER_OPEN" "Service temporarily unavailable").
Proof.
  apply (open_breaker_is_returned_not_retried
           (λ n, match n with 1%nat => Failed TimeoutException | _ => Failed CircuitBreakerError end)
           2%nat); [vm_compute; lia|reflexivity].
Defined.
End RetryLoop.

(** ** fast_api/security_manager.py and the gates of session/manager.py *)

(** X4.  [verify_token] reads the clock and the codec and nothing else: the
    world is left as it was.  What it returns is what the codec decoded;
    what it raises is a 401, or the codec's own exception when that is
    none of the three JOSE errors the function catches. *)
Theorem verify_token_outcomes token w :
  snd (Security.verify_token token w) = w ∧
  match fst (Security.verify_token token w) with
  | Ok payload =>
      truthy token = true ∧ token ≠ Some "undefined" ∧ token ≠ Some "null" ∧
      jwt_decode (ext w) (default "" token) (clock w) = Decoded payload
  | Raise e =>
      (∃ error detail, e = HTTPException 401 (DError error detail)) ∨
      (jwt_decode (ext w) (default "" token) (clock w) = DecodeFails e ∧
       e ≠ ExpiredSignatureError ∧ e ≠ JWTClaimsError ∧ e ≠ JWTError)
  end.
Proof.
  unfold Security.verify_token, Security.unauthorized.
  destruct (truthy token) eqn:Ht; cbn [negb orb]; [|split; [reflexivity|left; eauto]].
  case_bool_decide as Hu; cbn [orb]; [split; [reflexivity|left; eauto]|].
  case_bool_decide as Hn; cbn [orb]; [split; [reflexivity|left; eauto]|].
  unfold bind, gets, time_time, ret, raise. cbn.
  destruct (jwt_decode (ext w) (default "" token) (clock w)) as [payload|e] eqn:Hd.
  - cbn. repeat split; done.
  - destruct e; cbn; (split; [reflexivity|]); try (left; eauto; fail);
      right; repeat split; discriminate.
Qed.

(** X5.  [get_current_user] raises nothing but [HTTPException]: any other
    exception of the verification becomes a 500.  The user it returns
    carries the [sub] claim, not empty, as user name and as user id. *)
Theorem get_current_user_outcomes token w :
  snd (Security.get_current_user token w) = w ∧
  match fst (Security.get_current_user token w) with
  | Ok user =>
      ∃ payload, fst (Security.verify_token token w) = Ok payload ∧
                 payload !! "sub" = Some (Security.au_username user) ∧
                 Security.au_username user ≠ "" ∧
                 Security.au_user_id user = Security.au_username user ∧
                 Security.au_role user = default "user" (payload !! "role")
  | Raise e => ∃ status detail, e = HTTPException status detail
  end.
Proof.
  assert (Hw : snd (Security.verify_token token w) = w)
    by (rewrite (verify_token_reads token w w) by reflexivity; reflexivity).
  unfold Security.get_current_user, try_except, bind.
  destruct (Security.verify_token token w) as [[payload|e] w0]. all: cbn in Hw; subst w0.
  - destruct (payload !! "sub") as [name|] eqn:Hsub; cbn.
    + destruct (String.eqb_spec name ""); cbn.
      * split; [reflexivity|]. unfold Security.unauthorized. eauto.
      * split; [reflexivity|]. exists payload. by rewrite Hsub.
    + split; [reflexivity|]. unfold Security.unauthorized. eauto.
  - destruct e; cbn; (split; [reflexivity|eauto]).
Qed.

(** X6.  Both gates raise nothing but [HTTPException]: whatever else fails
    inside (a Redis error, a record that cannot be converted) surfaces
    as a 500 "Internal auth error". *)
Theorem gates_raise_http_exceptions_only token expected w :
  (∀ e w', Manager.get_current_user_with_activity token w = (Raise e, w') →
           ∃ status detail, e = HTTPException status detail) ∧
  (∀ e w', Manager.verify_and_update_activity token expected w = (Raise e, w') →
           ∃ status detail, e = HTTPException status detail).
Proof.
  assert (Hh : ∀ e0 e w0 w', Manager.internal_auth_error e0 w0 = (Raise e, w') →
                 ∃ status detail, e = HTTPException status detail).
  { intros e0 e w0 w'. destruct e0; cbn; intros [= <- _]; eauto. }
  split; intros e w'.
  - unfold Manager.get_current_user_with_activity, try_except.
    match goal with
    | |- (match ?b with _ => _ end) = _ → _ => destruct b as [[p|e0] w0]
    end; [discriminate|]. apply Hh.
  - unfold Manager.verify_and_update_activity, try_except.
    match goal with
    | |- (match ?b with _ => _ end) = _ → _ => destruct b as [[p|e0] w0]
    end; [discriminate|]. apply Hh.
Qed.

(** ** wss/manager.py: the dispatcher *)

Lemma send_error_total ws message w : ∃ w', WssManager._send_error ws message w = (Ok tt, w').
Proof.
  unfold WssManager._send_error, bind, try_except.
  destruct (Socket.client_connected ws w) as [[[]|e] w0] eqn:E.
  - destruct (Socket.send ws _ w0) as [[[]|e] w1]; eauto.
  - eauto.
  - unfold Socket.client_connected, Socket.lookup, bind, gets, ret in E. discriminate.
Qed.

Lemma send_error_run ws message w s :
  sockets w !! ws = Some s → client_state s = CONNECTED → application_state s = CONNECTED →
  WssManager._send_error ws message w =
  (Ok tt,
   emit (EvWs ws (WsSend (WssManager.error_frame message)))
     (set_sockets
        <[ws := {| client_state := client_state s; application_state := application_state s;
                   sent := sent s ++ [WssManager.error_frame message];
                   close_frame := close_frame s |}]> w)).
Proof.
  intros Hs Hc Ha. unfold WssManager._send_error.
  run_with (apply client_connected_run; exact Hs).
  replace (Socket.connected (client_state s)) with true by (by rewrite Hc).
  apply try_except_ok. by apply send_run.
Qed.

(** X7.  No inbound frame makes [handle_ws_message] raise: whatever fails
    inside is caught, and the error frame it then tries to send is
    itself guarded. *)
Theorem handle_ws_message_never_raises u sid frame ws role w :
  ∃ w', WssManager.handle_ws_message u sid frame ws role w = (Ok tt, w').
Proof.
  destruct frame as [|d|v]; cbn [WssManager.handle_ws_message];
    try apply send_error_total.
  unfold try_except.
  match goal with |- ∃ w', (match ?b with _ => _ end) = _ => destruct b as [[[]|e] w0] end.
  - eauto.
  - apply send_error_total.
Qed.

(** X8.  On a connected socket, a frame that is not JSON is answered with
    "Invalid JSON", JSON that is not an object with "Internal error", and
    an object whose [type] is missing or falsy with "Missing message
    type"; nothing else happens. *)
Theorem malformed_frames_are_answered u sid frame message ws role w s :
  sockets w !! ws = Some s → client_state s = CONNECTED → application_state s = CONNECTED →
  (frame = InvalidJson ∧ message = "Invalid JSON") ∨
  (∃ v, frame = JsonOther v ∧ message = "Internal error") ∨
  (∃ d, frame = JsonObject d ∧ classify (d !! "type") = TypeFalsy ∧
        message = "Missing message type") →
  WssManager.handle_ws_message u sid frame ws role w =
  (Ok tt,
   emit (EvWs ws (WsSend (WssManager.error_frame message)))
     (set_sockets
        <[ws := {| client_state := client_state s; application_state := application_state s;
                   sent := sent s ++ [WssManager.error_frame message];
                   close_frame := close_frame s |}]> w)).
Proof.
  intros Hs Hc Ha [[-> ->]|[(v & -> & ->)|(d & -> & Hty & ->)]].
  - by apply send_error_run.
  - by apply send_error_run.
  - cbn [WssManager.handle_ws_message]. rewrite Hty.
    apply try_except_ok. by apply send_error_run.
Qed.

Lemma malformed_frames_are_answered_witness :
  WssManager.handle_ws_message "alice" "uuid-0" (JsonObject (<["key" := JStr "K"]> ∅)) 7 "user"
    Demo.connected =
  (Ok tt,
   emit (EvWs 7 (WsSend (WssManager.error_frame "Missing message type")))
     (set_sockets
        <[7%nat := {| client_state :=
                        client_state (default Socket.fresh (sockets Demo.connected !! 7%nat));
                      application_state :=
                        application_state (default Socket.fresh (sockets Demo.connected !! 7%nat));
                      sent := sent (default Socket.fresh (sockets Demo.connected !! 7%nat))
                              ++ [WssManager.error_frame "Missing message type"];
                      close_frame :=
                        close_frame (default Socket.fresh (sockets Demo.connected !! 7%nat)) |}]>
        Demo.connected)).
Proof.
  apply (malformed_frames_are_answered "alice" "uuid-0" (JsonObject (<["key" := JStr "K"]> ∅))
           "Missing message type" 7 "user" Demo.connected
           (default Socket.fresh (sockets Demo.connected !! 7%nat)));
    [vm_compute; reflexivity..|].
  right. right. eexists. split; [reflexivity|]. split; [vm_compute; reflexivity|reflexivity].
Defined.

(** X9.  A textual message type the role may not send is answered with the
    "Unauthorized" error frame and has no other effect: no handler runs,
    nothing is cached, no task is created.  [ping] and [pong] are
    dispatched before this check. *)
Theorem unauthorized_type_is_refused u sid d t ws role w s :
  sockets w !! ws = Some s → client_state s = CONNECTED → application_state s = CONNECTED →
  d !! "type" = Some (JStr t) → t ≠ "" → t ≠ "pong" → t ≠ "ping" →
  WssManager._is_message_allowed t role (ws_manager w) = false →
  WssManager.handle_ws_message u sid (JsonObject d) ws role w =
  (Ok tt,
   emit (EvWs ws (WsSend (WssManager.error_frame
                            ("Unauthorized: role '" +:+ role +:+ "' cannot send '" +:+ t +:+ "'"))))
     (set_sockets
        <[ws := {| client_state := client_state s; application_state := application_state s;
                   sent := sent s ++ [WssManager.error_frame
                                        ("Unauthorized: role '" +:+ role +:+ "' cannot send '"
                                         +:+ t +:+ "'")];
                   close_frame := close_frame s |}]> w)).
Proof.
  intros Hs Hc Ha Hty Ht Hpong Hping Hno.
  cbn [WssManager.handle_ws_message]. rewrite Hty.
  assert (Hcl : classify (Some (JStr t)) = TypeText t).
  { destruct t as [|a t']; [done|reflexivity]. }
  rewrite Hcl. apply try_except_ok.
  rewrite (proj2 (String.eqb_neq t "pong") Hpong), (proj2 (String.eqb_neq t "ping") Hping).
  run_prim. rewrite Hno. cbn [negb]. by apply send_error_run.
Qed.

Lemma unauthorized_type_is_refused_witness :
  WssManager._is_message_allowed "shutdown" "user" (ws_manager Demo.connected) = false ∧
  WssManager.handle_ws_message "alice" "uuid-0"
    (JsonObject (<["type" := JStr "shutdown"]> ∅)) 7 "user" Demo.connected =
  (Ok tt,
   emit (EvWs 7 (WsSend (WssManager.error_frame
                           ("Unauthorized: role '" +:+ "user" +:+ "' cannot send '"
                            +:+ "shutdown" +:+ "'"))))
     (set_sockets
        <[7%nat := {| client_state :=
                        client_state (default Socket.fresh (sockets Demo.connected !! 7%nat));
                      application_state :=
                        application_state (default Socket.fresh (sockets Demo.connected !! 7%nat));
                      sent := sent (default Socket.fresh (sockets Demo.connected !! 7%nat))
                              ++ [WssManager.error_frame
                                    ("Unauthorized: role '" +:+ "user" +:+ "' cannot send '"
                                     +:+ "shutdown" +:+ "'")];
                      close_frame :=
                        close_frame (default Socket.fresh (sockets Demo.connected !! 7%nat)) |}]>
        Demo.connected)).
Proof.
  assert (Hno : WssManager._is_message_allowed "shutdown" "user" (ws_manager Demo.connected)
                = false) by (vm_compute; reflexivity).
  split; [exact Hno|].
  apply (unauthorized_type_is_refused "alice" "uuid-0" (<["type" := JStr "shutdown"]> ∅)
           "shutdown" 7 "user" Demo.connected
           (default Socket.fresh (sockets Demo.connected !! 7%nat)));
    [vm_compute; reflexivity|vm_compute; reflexivity|vm_compute; reflexivity
    |vm_compute; reflexivity|discriminate|discriminate|discriminate|exact Hno].
Defined.

(** X10.  [ping] and [pong] are served to every role, permitted or not: a
    [ping] is answered with a [pong] frame stamped with the clock, a
    [pong] only refreshes [last_pong] and sends nothing. *)
Theorem ping_and_pong_bypass_permissions u sid d ws role w s :
  sockets w !! ws = Some s → client_state s = CONNECTED → application_state s = CONNECTED →
  (d !! "type" = Some (JStr "ping") →
   WssManager.handle_ws_message u sid (JsonObject d) ws role w =
   (Ok tt,
    emit (EvWs ws (WsSend (JObj [("type", JStr "pong"); ("timestamp", JNum (clock w))])))
      (set_sockets
         <[ws := {| client_state := client_state s; application_state := application_state s;
                    sent := sent s ++ [JObj [("type", JStr "pong"); ("timestamp", JNum (clock w))]];
                    close_frame := close_frame s |}]> w))) ∧
  (d !! "type" = Some (JStr "pong") →
   ∃ w', WssManager.handle_ws_message u sid (JsonObject d) ws role w = (Ok tt, w') ∧
         trace w' = trace w ∧ sockets w' = sockets w ∧ redis w' = redis w ∧
         ∀ st, connection_states (ws_manager w) !! u = Some st →
               ∃ st', connection_states (ws_manager w') !! u = Some st' ∧
                      last_pong st' = clock w ∧ last_activity st' = last_activity st).
Proof.
  intros Hs Hc Ha. split; intros Hty; cbn [WssManager.handle_ws_message]; rewrite Hty;
    cbn [classify]; apply try_except_ok || idtac.
  - change (String.eqb "ping" "pong") with false. change (String.eqb "ping" "ping") with true.
    cbn iota. unfold WssManager._send_pong.
    run_with (apply client_connected_run; exact Hs).
    replace (Socket.connected (client_state s)) with true by (by rewrite Hc).
    apply try_except_ok. run_prim. by apply send_run.
  - eexists. split.
    { apply try_except_ok. change (String.eqb "pong" "pong") with true. cbn iota. reflexivity. }
    cbn. repeat split. intros st Hst. rewrite Hst. eexists.
    split; [apply lookup_insert_eq|]. split; reflexivity.
Qed.

Lemma ping_and_pong_bypass_permissions_witness :
  WssManager._is_message_allowed "ping" "guest" (ws_manager Demo.connected) = false ∧
  WssManager.handle_ws_message "alice" "uuid-0" (JsonObject (<["type" := JStr "ping"]> ∅)) 7
    "guest" Demo.connected =
  (Ok tt,
   emit (EvWs 7 (WsSend (JObj [("type", JStr "pong"); ("timestamp", JNum (clock Demo.connected))])))
     (set_sockets
        <[7%nat := {| client_state :=
                        client_state (default Socket.fresh (sockets Demo.connected !! 7%nat));
                      application_state :=
                        application_state (default Socket.fresh (sockets Demo.connected !! 7%nat));
                      sent := sent (default Socket.fresh (sockets Demo.connected !! 7%nat))
                              ++ [JObj [("type", JStr "pong");
                                        ("timestamp", JNum (clock Demo.connected))]];
                      close_frame :=
                        close_frame (default Socket.fresh (sockets Demo.connected !! 7%nat)) |}]>
        Demo.connected)).
Proof.
  split; [vm_compute; reflexivity|].
  apply (ping_and_pong_bypass_permissions "alice" "uuid-0" (<["type" := JStr "ping"]> ∅) 7
           "guest" Demo.connected (default Socket.fresh (sockets Demo.connected !! 7%nat)));
    vm_compute; reflexivity.
Defined.

(** ** wss/manager.py: the deduplication cache and the permissions *)

Section CacheCleanup.
Variables (now ttl : Z).
Implicit Types (cache : gmap string (gmap string (gmap string CachedMessage))).

Local Abbreviation fresh_messages :=
  (λ messages : gmap string CachedMessage,
     let messages' := filter (λ kv, now - cmsg_timestamp (snd kv) ≤ ttl) messages in
     if bool_decide (dom messages' = ∅) then None else Some messages').

Local Abbreviation fresh_sessions :=
  (λ sessions : gmap string (gmap string CachedMessage),
     let sessions' := omap fresh_messages sessions in
     if bool_decide (dom sessions' = ∅) then None else Some sessions').

Lemma fresh_messages_lookup (messages : gmap string CachedMessage) ty c :
  (fresh_messages messages ≫= λ m, m !! ty) = Some c ↔
  messages !! ty = Some c ∧ now - cmsg_timestamp c ≤ ttl.
Proof.
  cbv beta zeta.
  set (messages' := filter _ messages).
  assert (Hin : messages' !! ty = Some c ↔
                messages !! ty = Some c ∧ now - cmsg_timestamp c ≤ ttl)
    by apply map_lookup_filter_Some.
  case_bool_decide as He; cbn; [|exact Hin].
  split; [done|]. intros H. apply Hin in H. apply dom_empty_inv_L in He.
  by rewrite He, lookup_empty in H.
Qed.

Lemma fresh_sessions_lookup (sessions : gmap string (gmap string CachedMessage)) sid ty c :
  (fresh_sessions sessions ≫= λ s, s !! sid ≫= λ m, m !! ty) = Some c ↔
  (sessions !! sid ≫= λ m, m !! ty) = Some c ∧ now - cmsg_timestamp c ≤ ttl.
Proof.
  cbv beta zeta.
  set (sessions' := omap _ sessions).
  assert (Hin : (sessions' !! sid ≫= λ m, m !! ty) = Some c ↔
                (sessions !! sid ≫= λ m, m !! ty) = Some c ∧ now - cmsg_timestamp c ≤ ttl).
  { unfold sessions'. rewrite lookup_omap.
    destruct (sessions !! sid) as [messages|]; cbn; [|by split; [|intros []]].
    apply fresh_messages_lookup. }
  case_bool_decide as He; cbn; [|exact Hin].
  split; [done|]. intros H. apply Hin in H. apply dom_empty_inv_L in He.
  by rewrite He, lookup_empty in H.
Qed.

Lemma cleaned_cache_lookup cache u sid ty c :
  WssManager.cached (omap fresh_sessions cache) u sid ty = Some c ↔
  WssManager.cached cache u sid ty = Some c ∧ now - cmsg_timestamp c ≤ ttl.
Proof.
  unfold WssManager.cached. rewrite lookup_omap.
  destruct (cache !! u) as [sessions|]; cbn; [|by split; [|intros []]].
  apply fresh_sessions_lookup.
Qed.
End CacheCleanup.

(** X11.  A cache cleanup removes the entries older than [CACHE_TTL] and no
    other, and the deduplication check cannot tell: at the instant of
    the cleanup, [_is_duplicate_message] answers the same before and
    after, for every message. *)
Theorem cache_cleanup_is_invisible_to_dedup u sid ty data w :
  ∃ w',
    WssManager._cleanup_old_cache_entries w = (Ok tt, w') ∧
    (∀ c, WssManager.cached (message_cache (ws_manager w')) u sid ty = Some c ↔
          WssManager.cached (message_cache (ws_manager w)) u sid ty = Some c ∧
          clock w - cmsg_timestamp c ≤ cache_ttl (ws_manager w)) ∧
    fst (WssManager._is_duplicate_message u sid ty data w')
      = fst (WssManager._is_duplicate_message u sid ty data w) ∧
    redis w' = redis w ∧ trace w' = trace w.
Proof.
  set (w' := snd (WssManager._cleanup_old_cache_entries w)).
  assert (Hl : ∀ c,
    WssManager.cached (message_cache (ws_manager w')) u sid ty = Some c ↔
    WssManager.cached (message_cache (ws_manager w)) u sid ty = Some c ∧
    clock w - cmsg_timestamp c ≤ cache_ttl (ws_manager w)).
  { intros c. unfold w'. cbn. apply cleaned_cache_lookup. }
  assert (Hclock : clock w' = clock w) by reflexivity.
  assert (Httl : cache_ttl (ws_manager w') = cache_ttl (ws_manager w)) by reflexivity.
  exists w'. split; [reflexivity|]. split; [exact Hl|]. split; [|split; reflexivity].
  clearbody w'.
  rewrite !is_duplicate_message_run. cbn [fst]. rewrite Hclock, Httl.
  destruct (WssManager.cached (message_cache (ws_manager w')) u sid ty) as [c'|].
  - destruct (proj1 (Hl c') eq_refl) as [-> _]. reflexivity.
  - destruct (WssManager.cached (message_cache (ws_manager w)) u sid ty) as [c|];
      [|reflexivity].
    destruct (decide (clock w - cmsg_timestamp c ≤ cache_ttl (ws_manager w))) as [Hle|Hgt].
    + assert (@None CachedMessage = Some c) by (by apply Hl). discriminate.
    + symmetry. f_equal. apply andb_false_intro2. apply Z.ltb_ge. lia.
Qed.

Lemma remove_first_app_fresh t l : t ∉ l → WssManager.remove_first t (l ++ [t]) = l.
Proof.
  induction l as [|y l IH]; intros Hn; cbn.
  - by rewrite String.eqb_refl.
  - apply not_elem_of_cons in Hn as [Hy Hl].
    rewrite (proj2 (String.eqb_neq y t)) by done. by rewrite IH.
Qed.

(** X12.  Granting a role a message type it does not have appends it to the
    list of the role, after which the role may send it; revoking it
    again gives the list back as it was.  No other role is touched. *)
Theorem permission_granted_then_revoked role t w :
  t ∉ default [] (message_permissions (ws_manager w) !! role) →
  ∃ w1 w2,
    WssManager.add_message_permission role t w = (Ok tt, w1) ∧
    WssManager.remove_message_permission role t w1 = (Ok tt, w2) ∧
    message_permissions (ws_manager w1) !! role
      = Some (default [] (message_permissions (ws_manager w) !! role) ++ [t])%list ∧
    WssManager._is_message_allowed t role (ws_manager w1) = true ∧
    message_permissions (ws_manager w2) !! role
      = Some (default [] (message_permissions (ws_manager w) !! role)) ∧
    ∀ r, r ≠ role →
         message_permissions (ws_manager w1) !! r = message_permissions (ws_manager w) !! r ∧
         message_permissions (ws_manager w2) !! r = message_permissions (ws_manager w) !! r.
Proof.
  intros Hn.
  set (allowed := default [] (message_permissions (ws_manager w) !! role)) in *.
  set (w1 := snd (WssManager.add_message_permission role t w)).
  set (w2 := snd (WssManager.remove_message_permission role t w1)).
  assert (Hin : t ∈ (allowed ++ [t])%list).
  { apply elem_of_app. right. by apply list_elem_of_singleton. }
  assert (P1 : message_permissions (ws_manager w1) = <[role := (allowed ++ [t])%list]>
                 (message_permissions (ws_manager w))).
  { unfold w1. cbn. fold allowed. by rewrite bool_decide_eq_false_2. }
  assert (E1 : WssManager.add_message_permission role t w = (Ok tt, w1)) by reflexivity.
  clearbody w1.
  assert (P2 : message_permissions (ws_manager w2) = <[role := allowed]>
                 (message_permissions (ws_manager w1))).
  { unfold w2. cbn. rewrite P1, lookup_insert_eq. rewrite bool_decide_eq_true_2 by done.
    by rewrite remove_first_app_fresh. }
  exists w1, w2. split; [exact E1|]. split; [reflexivity|]. clearbody w2.
  split; [rewrite P1; apply lookup_insert_eq|]. split.
  { unfold WssManager._is_message_allowed. rewrite P1, lookup_insert_eq. cbn [from_option id].
    case_bool_decide; [done|]. by rewrite bool_decide_eq_true_2. }
  split; [rewrite P2; apply lookup_insert_eq|].
  intros r Hr. rewrite P2, P1. by rewrite !lookup_insert_ne.
Qed.

Lemma permission_granted_then_revoked_witness :
  ∃ w1 w2,
    WssManager.add_message_permission "user" "export" Demo.init = (Ok tt, w1) ∧
    WssManager.remove_message_permission "user" "export" w1 = (Ok tt, w2) ∧
    message_permissions (ws_manager w1) !! "user"
      = Some (default [] (message_permissions (ws_manager Demo.init) !! "user") ++ ["export"])%list ∧
    WssManager._is_message_allowed "export" "user" (ws_manager w1) = true ∧
    message_permissions (ws_manager w2) !! "user"
      = Some (default [] (message_permissions (ws_manager Demo.init) !! "user")) ∧
    ∀ r, r ≠ "user" →
         message_permissions (ws_manager w1) !! r = message_permissions (ws_manager Demo.init) !! r ∧
         message_permissions (ws_manager w2) !! r = message_permissions (ws_manager Demo.init) !! r.
Proof.
  apply (permission_granted_then_revoked "user" "export" Demo.init).
  vm_compute. intros H. repeat (apply elem_of_cons in H as [H|H]; [discriminate|]).
  by apply elem_of_nil in H.
Defined.

(** ** wss/registry.py *)

Lemma hdel_some key field w store' :
  Redis.hdel_pure (clock w) (redis w) key field = Ok (Some store') →
  Redis.hdel key field w = (Ok tt, emit (EvHDel key field) (set_redis (λ _, store') w)).
Proof.
  intros H. unfold Redis.hdel, bind, gets, time_time, ret, raise, modify. simpl. by rewrite H.
Qed.

Lemma hgetall_pure_nonempty now store key h :
  Redis.hgetall_pure now store key = Ok h → h ≠ ∅ →
  ∃ ex, store !! key = Some {| e_value := RHash h; e_expire_at := ex |} ∧
        Redis.live now {| e_value := RHash h; e_expire_at := ex |} = true.
Proof.
  unfold Redis.hgetall_pure. destruct (Redis.peek now store key) as [[v ex]|] eqn:Hp.
  - apply peek_Some in Hp as [Hs Hl]. destruct v as [s|h']; [discriminate|].
    intros [= ->] _. eauto.
  - by intros [= <-].
Qed.

Lemma close_frame_effect ws code reason w r w1 :
  Socket.close ws code reason w = (r, w1) →
  redis w1 = redis w ∧ clock w1 = clock w ∧ ws_registry w1 = ws_registry w ∧
  ∀ ws', ws' ≠ ws → sockets w1 !! ws' = sockets w !! ws'.
Proof.
  unfold Socket.close, Socket.lookup, bind, gets, modify, raise. cbn.
  destruct (Socket.connected _); intros [= <- <-]; cbn; repeat split; try done.
  intros ws' Hne. by rewrite lookup_insert_ne.
Qed.

(** The in-memory half of [remove_ws_connection]: the entry of the user
    is popped and its socket closed, an error of the close being
    swallowed. *)
Lemma pop_active_connection u w :
  ∃ w1,
    match active_connections (ws_registry w) !! u with
    | Some conn_info =>
        run modify (set_ws_registry (WssRegistry.set_active (base.delete u) (-1)));
        try_except (Socket.close (ci_websocket conn_info) 1000 "Session ended") (λ _, ret tt)
    | None => ret tt
    end w = (Ok tt, w1) ∧
    redis w1 = redis w ∧ clock w1 = clock w ∧
    active_connections (ws_registry w1) !! u = None.
Proof.
  destruct (active_connections (ws_registry w) !! u) as [ci|] eqn:Hu.
  - unfold bind, modify, try_except.
    destruct (Socket.close _ _ _ _) as [[[]|e] w1] eqn:Hc;
      apply close_frame_effect in Hc as (Hr & Hk & Hreg & _);
      exists w1; (split; [reflexivity|]); rewrite Hr, Hk, Hreg; cbn; repeat split;
      apply lookup_delete_eq.
  - exists w. by repeat split.
Qed.

(** X13.  Removing a WebSocket connection clears only the [ws_connected]
    field of the connection record: the record goes on naming the
    session, and reads as not connected. *)
Theorem remove_ws_connection_keeps_session u session_id w c0 sid0 :
  Connections.get_connection_info u w = (Ok (Some c0), w) →
  cd_get c0 "session_id" = Some sid0 →
  ∃ w' c,
    WssRegistry.remove_ws_connection u session_id w = (Ok tt, w') ∧
    active_connections (ws_registry w') !! u = None ∧
    Connections.get_connection_info u w' = (Ok (Some c), w') ∧
    cd_fields c = delete "ws_connected" (cd_fields c0) ∧
    cd_get c "session_id" = Some sid0 ∧
    cd_ws_connected c = false.
Proof.
  intros Hc Hsid.
  pose proof (get_connection_info_some _ _ _ Hc) as Hg.
  assert (Hne : cd_fields c0 ≠ ∅).
  { intros E. unfold cd_get in Hsid. by rewrite E, lookup_empty in Hsid. }
  assert (Hseen : ∃ z, default (FNum 0) (cd_fields c0 !! "last_seen") = FNum z).
  { rewrite get_connection_info_run, Hg in Hc. unfold Connections.conn_dict in Hc.
    destruct (decide (cd_fields c0 = ∅)); [done|].
    destruct (default (FNum 0) (cd_fields c0 !! "last_seen")); [discriminate|eauto]. }
  destruct Hseen as [z Hz].
  destruct (pop_active_connection u w) as (w1 & Hpop & Hr1 & Hc1 & Ha1).
  rewrite <- Hr1, <- Hc1 in Hg.
  destruct (hgetall_pure_nonempty _ _ _ _ Hg Hne) as (ex & Hstored & Hlive).
  set (h' := delete "ws_connected" (cd_fields c0)).
  assert (Hsid' : h' !! "session_id" = cd_fields c0 !! "session_id")
    by (by apply lookup_delete_ne).
  assert (Hne' : h' ≠ ∅).
  { intros E. unfold cd_get in Hsid. rewrite <- Hsid', E, lookup_empty in Hsid. done. }
  assert (Hdel : Redis.hdel_pure (clock w1) (redis w1) (Connections.connection_key u) "ws_connected"
                 = Ok (Some (<[Connections.connection_key u :=
                                 {| e_value := RHash h'; e_expire_at := ex |}]> (redis w1)))).
  { unfold Redis.hdel_pure.
    rewrite (proj2 (peek_Some _ _ _ _) (conj Hstored Hlive)). cbn. fold h'.
    by destruct (decide (h' = ∅)). }
  eexists _, {| cd_fields := h'; cd_ws_connected := false; cd_last_seen := z |}.
  split.
  { unfold WssRegistry.remove_ws_connection.
    run_prim. run_with exact Hpop.
    run_with (apply hdel_some; exact Hdel). reflexivity. }
  split; [exact Ha1|]. split.
  { rewrite get_connection_info_run. cbn.
    erewrite hgetall_pure_stored; [|apply lookup_insert_eq|exact Hlive].
    unfold Connections.conn_dict. destruct (decide (h' = ∅)); [done|].
    unfold h' at 1 2. rewrite lookup_delete_ne by done. rewrite Hz.
    unfold h'. rewrite lookup_delete_eq. reflexivity. }
  split; [reflexivity|]. split; [|reflexivity].
  unfold cd_get in *. cbn [cd_fields]. by rewrite Hsid'.
Qed.

Lemma remove_ws_connection_keeps_session_witness :
  ∃ w' c,
    WssRegistry.remove_ws_connection "alice" (Some "uuid-0") Demo.connected = (Ok tt, w') ∧
    active_connections (ws_registry w') !! "alice" = None ∧
    Connections.get_connection_info "alice" w' = (Ok (Some c), w') ∧
    cd_fields c = delete "ws_connected" (cd_fields Demo.alice_ws_connection) ∧
    cd_get c "session_id" = Some "uuid-0" ∧
    cd_ws_connected c = false.
Proof.
  apply (remove_ws_connection_keeps_session "alice" (Some "uuid-0") Demo.connected
           Demo.alice_ws_connection "uuid-0"); vm_compute; reflexivity.
Defined.

Lemma hdel_of_hash key field w h :
  Redis.hgetall_pure (clock w) (redis w) key = Ok h →
  ∃ w', Redis.hdel key field w = (Ok tt, w') ∧
        sockets w' = sockets w ∧ ws_registry w' = ws_registry w.
Proof.
  unfold Redis.hgetall_pure, Redis.hdel, Redis.hdel_pure, bind, gets, time_time, ret, raise, modify.
  cbn. destruct (Redis.peek _ _ _) as [[v ex]|]; [|eauto].
  destruct v as [s|h0]; [discriminate|]. cbn. eauto.
Qed.

(** X14.  A second handshake of a user replaces the registry entry of the
    first and is counted again; the socket of the first is left open.
    When the first connection then ends, its cleanup pops the entry of
    the second and closes the second socket with 1000 "Session ended",
    and [_connections_count] stays one above the number of entries. *)
Theorem first_cleanup_closes_second_socket u sid1 sid2 gw ws1 ws2 w h s2 :
  Redis.hgetall_pure (clock w) (redis w) (Connections.connection_key u) = Ok h →
  0 < reg_timeout_seconds (ws_registry w) →
  sockets w !! ws2 = Some s2 → application_state s2 = CONNECTED → ws1 ≠ ws2 →
  ∃ w1 w2 w3 s,
    WssRegistry.track_ws_connection u (Some sid1) gw "default" ws1 w = (Ok sid1, w1) ∧
    WssRegistry.track_ws_connection u (Some sid2) gw "default" ws2 w1 = (Ok sid2, w2) ∧
    WssRegistry.remove_ws_connection u (Some sid1) w2 = (Ok tt, w3) ∧
    ci_websocket <$> (active_connections (ws_registry w2) !! u) = Some ws2 ∧
    _connections_count (ws_registry w2) = _connections_count (ws_registry w) + 2 ∧
    sockets w2 = sockets w ∧
    active_connections (ws_registry w3) !! u = None ∧
    _connections_count (ws_registry w3) = _connections_count (ws_registry w) + 1 ∧
    sockets w3 !! ws2 = Some s ∧
    application_state s = DISCONNECTED ∧
    close_frame s = Some (1000, "Session ended") ∧
    sockets w3 !! ws1 = sockets w !! ws1.
Proof.
  intros Hg Ht Hs2 Ha2 Hne.
  pose proof (track_ws_connection_run u sid1 gw "default" ws1 w h Hg) as H1. cbn zeta in H1.
  set (w1 := emit _ _) in H1.
  assert (Hg1 : ∃ h1, Redis.hgetall_pure (clock w1) (redis w1) (Connections.connection_key u)
                      = Ok h1).
  { eexists. unfold w1. cbn. eapply hgetall_pure_stored; [apply lookup_insert_eq|].
    apply live_expiring. lia. }
  destruct Hg1 as [h1 Hg1].
  pose proof (track_ws_connection_run u sid2 gw "default" ws2 w1 h1 Hg1) as H2. cbn zeta in H2.
  set (w2 := emit _ _) in H2.
  assert (Hg2 : ∃ h2, Redis.hgetall_pure (clock w2) (redis w2) (Connections.connection_key u)
                      = Ok h2).
  { eexists. unfold w2. cbn. eapply hgetall_pure_stored; [apply lookup_insert_eq|].
    apply live_expiring. unfold w1. cbn. lia. }
  destruct Hg2 as [h2 Hg2].
  assert (Hsock2 : sockets w2 = sockets w) by reflexivity.
  assert (Hact2 : active_connections (ws_registry w2) !! u =
                  Some {| ci_websocket := ws2; ci_gateway_id := gw; ci_last_seen := clock w;
                          ci_user_id := u; ci_session_id := sid2; ci_connected_at := clock w;
                          ci_role := "user" |}).
  { unfold w2. cbn. apply lookup_insert_eq. }
  assert (Hcnt2 : _connections_count (ws_registry w2) = _connections_count (ws_registry w) + 2).
  { unfold w2, w1. cbn. lia. }
  clearbody w2. clearbody w1.
  (* the cleanup of the first connection *)
  set (w2a := set_ws_registry (WssRegistry.set_active (base.delete u) (-1)) w2).
  assert (Hclose : Socket.close ws2 1000 "Session ended" w2a =
                   (Ok tt,
                    emit (EvWs ws2 (WsClose 1000 "Session ended"))
                      (set_sockets
                         <[ws2 := {| client_state := client_state s2;
                                     application_state := DISCONNECTED;
                                     sent := sent s2;
                                     close_frame := Some (1000, "Session ended") |}]> w2a))).
  { apply close_run; [|exact Ha2]. unfold w2a. cbn. by rewrite Hsock2. }
  set (w2b := emit _ _) in Hclose.
  destruct (hdel_of_hash (Connections.connection_key u) "ws_connected" w2b h2)
    as (w2c & Hdel & Hsock & Hreg).
  { unfold w2b, w2a. cbn. exact Hg2. }
  eexists w1, w2, _, _.
  split; [exact H1|]. split; [exact H2|]. split.
  { unfold WssRegistry.remove_ws_connection. run_prim. rewrite Hact2.
    run_with (run_prim; apply try_except_ok; exact Hclose).
    run_with exact Hdel. reflexivity. }
  split; [by rewrite Hact2|]. split; [exact Hcnt2|]. split; [exact Hsock2|].
  cbn. rewrite Hsock, Hreg. unfold w2b, w2a. cbn.
  split; [apply lookup_delete_eq|]. split; [lia|].
  split; [apply lookup_insert_eq|]. split; [reflexivity|]. split; [reflexivity|].
  rewrite lookup_insert_ne by done. by rewrite Hsock2.
Qed.

Lemma first_cleanup_closes_second_socket_witness :
  ∃ w1 w2 w3 s,
    WssRegistry.track_ws_connection "alice" (Some "uuid-0") "localhost:8000" "default" 8%nat
        Demo.connected = (Ok "uuid-0", w1) ∧
    WssRegistry.track_ws_connection "alice" (Some "uuid-0") "localhost:8000" "default" 7%nat w1
      = (Ok "uuid-0", w2) ∧
    WssRegistry.remove_ws_connection "alice" (Some "uuid-0") w2 = (Ok tt, w3) ∧
    ci_websocket <$> (active_connections (ws_registry w2) !! "alice") = Some 7%nat ∧
    _connections_count (ws_registry w2) = _connections_count (ws_registry Demo.connected) + 2 ∧
    sockets w2 = sockets Demo.connected ∧
    active_connections (ws_registry w3) !! "alice" = None ∧
    _connections_count (ws_registry w3) = _connections_count (ws_registry Demo.connected) + 1 ∧
    sockets w3 !! 7%nat = Some s ∧
    application_state s = DISCONNECTED ∧
    close_frame s = Some (1000, "Session ended") ∧
    sockets w3 !! 8%nat = sockets Demo.connected !! 8%nat.
Proof.
  apply (first_cleanup_closes_second_socket "alice" "uuid-0" "uuid-0" "localhost:8000"
           8%nat 7%nat Demo.connected (cd_fields Demo.alice_ws_connection)
           (default Socket.fresh (sockets Demo.connected !! 7%nat)));
    [vm_compute; reflexivity|vm_compute; reflexivity|vm_compute; reflexivity
    |vm_compute; reflexivity|discriminate].
Defined.

(** ** session/handler.py: sessions and their cache *)

Lemma create_session_cached u chat w :
  0 < sh_timeout_seconds (session_handler w) →
  ∃ w1,
    Handler.create_session u chat w
      = (Ok (Handler.new_session u chat (clock w), uuid4 (ext w) (uuid_counter w)), w1) ∧
    clock w1 = clock w ∧
    _cache_ttl (session_handler w1) = _cache_ttl (session_handler w) ∧
    _session_cache (session_handler w1) !! uuid4 (ext w) (uuid_counter w)
      = Some (Handler.new_session u chat (clock w), clock w) ∧
    redis w1 !! Handler.session_key (uuid4 (ext w) (uuid_counter w))
      = Some {| e_value := RString (Handler.new_session u chat (clock w));
                e_expire_at := Some (clock w + sh_timeout_seconds (session_handler w)) |}.
Proof.
  intros Ht. eexists. split; [by apply create_session_run|].
  cbn. repeat split; apply lookup_insert_eq.
Qed.

(** X15.  A session that was just created is returned, with its id, to
    whoever presents the id: [get_or_create_session] compares neither
    the user nor the chat with the stored ones, runs no Redis write and
    creates nothing. *)
Theorem created_session_is_returned_by_id u chat u' chat' w :
  0 < sh_timeout_seconds (session_handler w) →
  uuid4 (ext w) (uuid_counter w) ≠ "" →
  ∃ w1 w2,
    Handler.create_session u chat w
      = (Ok (Handler.new_session u chat (clock w), uuid4 (ext w) (uuid_counter w)), w1) ∧
    Handler.get_or_create_session u' chat' (Some (uuid4 (ext w) (uuid_counter w))) w1
      = (Ok (Handler.new_session u chat (clock w), uuid4 (ext w) (uuid_counter w)), w2) ∧
    redis w2 = redis w1 ∧ trace w2 = trace w1 ∧ uuid_counter w2 = uuid_counter w1.
Proof.
  intros Ht Hid.
  destruct (create_session_cached u chat w Ht) as (w1 & Hrun & Hclock & Httl & Hcache & Hstored).
  set (sid := uuid4 (ext w) (uuid_counter w)) in *.
  set (s := Handler.new_session u chat (clock w)) in *.
  exists w1.
  unfold Handler.get_or_create_session.
  rewrite (truthy_named (Some sid) sid) by done. cbn [from_option id].
  destruct (clock w1 - clock w <? _cache_ttl (session_handler w1)) eqn:Hhit.
  - exists w1. split; [exact Hrun|]. split; [|done].
    run_prim. run_prim. rewrite Hcache. cbn iota. by rewrite Hhit.
  - eexists. split; [exact Hrun|]. split.
    + run_prim. run_prim. rewrite Hcache. cbn iota. rewrite Hhit.
      assert (Hget : Redis.get_pure (clock w1) (redis w1) (Handler.session_key sid) = Ok (Some s)).
      { eapply get_pure_stored; [exact Hstored|]. rewrite Hclock. apply live_expiring. lia. }
      assert (Hfetch : Handler.fetch_session sid w1 =
                       (Ok (Some (s, sid)),
                        set_session_handler (Handler.cache_session sid s (clock w1)) w1)).
      { unfold Handler.fetch_session. apply try_except_ok.
        run_with (rewrite get_run, Hget; reflexivity). run_prim. run_prim. reflexivity. }
      run_with exact Hfetch. reflexivity.
    + done.
Qed.

Lemma created_session_is_returned_by_id_witness :
  ∃ w1 w2,
    Handler.create_session "alice" "default" Demo.registered
      = (Ok (Handler.new_session "alice" "default" (clock Demo.registered),
             uuid4 (ext Demo.registered) (uuid_counter Demo.registered)), w1) ∧
    Handler.get_or_create_session "mallory" "other"
        (Some (uuid4 (ext Demo.registered) (uuid_counter Demo.registered))) w1
      = (Ok (Handler.new_session "alice" "default" (clock Demo.registered),
             uuid4 (ext Demo.registered) (uuid_counter Demo.registered)), w2) ∧
    redis w2 = redis w1 ∧ trace w2 = trace w1 ∧ uuid_counter w2 = uuid_counter w1.
Proof.
  apply (created_session_is_returned_by_id "alice" "default" "mallory" "other" Demo.registered);
    [vm_compute; reflexivity|vm_compute; discriminate].
Defined.

(** X16.  The session cache is not invalidated by [delete_session]: for
    [_cache_ttl] seconds after a session was cached, asking for it by id
    returns the cached copy although the key is gone from Redis, and
    nothing is recreated. *)
Theorem deleted_session_is_served_from_cache u chat w t :
  0 < sh_timeout_seconds (session_handler w) →
  uuid4 (ext w) (uuid_counter w) ≠ "" →
  t - clock w < _cache_ttl (session_handler w) →
  ∃ w1 w2,
    Handler.create_session u chat w
      = (Ok (Handler.new_session u chat (clock w), uuid4 (ext w) (uuid_counter w)), w1) ∧
    Handler.delete_session (uuid4 (ext w) (uuid_counter w)) w1 = (Ok tt, w2) ∧
    redis w2 !! Handler.session_key (uuid4 (ext w) (uuid_counter w)) = None ∧
    Handler.get_or_create_session u chat (Some (uuid4 (ext w) (uuid_counter w))) (set_clock t w2)
      = (Ok (Handler.new_session u chat (clock w), uuid4 (ext w) (uuid_counter w)),
         set_clock t w2).
Proof.
  intros Ht Hid Hfresh.
  destruct (create_session_cached u chat w Ht) as (w1 & Hrun & Hclock & Httl & Hcache & Hstored).
  set (sid := uuid4 (ext w) (uuid_counter w)) in *.
  exists w1, (emit (EvDelete (Handler.session_key sid))
                (set_redis (delete (Handler.session_key sid)) w1)).
  split; [exact Hrun|]. split; [reflexivity|]. split; [cbn; apply lookup_delete_eq|].
  unfold Handler.get_or_create_session.
  rewrite (truthy_named (Some sid) sid) by done. cbn [from_option id].
  run_prim. run_prim. cbn [session_handler set_clock emit set_redis clock].
  rewrite Hcache. cbn iota. rewrite Httl.
  by rewrite (proj2 (Z.ltb_lt _ _) Hfresh).
Qed.

Lemma deleted_session_is_served_from_cache_witness :
  ∃ w1 w2,
    Handler.create_session "alice" "default" Demo.registered
      = (Ok (Handler.new_session "alice" "default" (clock Demo.registered),
             uuid4 (ext Demo.registered) (uuid_counter Demo.registered)), w1) ∧
    Handler.delete_session (uuid4 (ext Demo.registered) (uuid_counter Demo.registered)) w1
      = (Ok tt, w2) ∧
    redis w2 !! Handler.session_key (uuid4 (ext Demo.registered) (uuid_counter Demo.registered))
      = None ∧
    Handler.get_or_create_session "alice" "default"
        (Some (uuid4 (ext Demo.registered) (uuid_counter Demo.registered))) (set_clock 1020 w2)
      = (Ok (Handler.new_session "alice" "default" (clock Demo.registered),
             uuid4 (ext Demo.registered) (uuid_counter Demo.registered)),
         set_clock 1020 w2).
Proof.
  apply (deleted_session_is_served_from_cache "alice" "default" Demo.registered 1020);
    [vm_compute; reflexivity|vm_compute; discriminate|vm_compute; reflexivity].
Defined.

(** X17.  Asking for a session id that is neither cached nor readable in
    Redis (missing, expired, or a key of the wrong type) is the same as
    asking for no session: a new one is created under a fresh id, and
    the requested id is not used. *)
Theorem unknown_session_id_creates_fresh_session u chat sid w :
  _session_cache (session_handler w) !! sid = None →
  (∀ s, Redis.get_pure (clock w) (redis w) (Handler.session_key sid) ≠ Ok (Some s)) →
  Handler.get_or_create_session u chat (Some sid) w = Handler.create_session u chat w.
Proof.
  intros Hcache Hmiss. unfold Handler.get_or_create_session.
  destruct (truthy (Some sid)); [|reflexivity]. cbn [from_option id].
  run_prim. run_prim. rewrite Hcache.
  assert (Hfetch : Handler.fetch_session sid w = (Ok None, w)).
  { unfold Handler.fetch_session, try_except, bind. rewrite get_run.
    destruct (Redis.get_pure _ _ _) as [[s|]|e] eqn:Hg; [by destruct (Hmiss s)|done|done]. }
  run_with exact Hfetch. reflexivity.
Qed.

Lemma unknown_session_id_creates_fresh_session_witness :
  Handler.get_or_create_session "alice" "default" (Some "no-such-session") Demo.registered
  = Handler.create_session "alice" "default" Demo.registered.
Proof.
  apply (unknown_session_id_creates_fresh_session "alice" "default" "no-such-session"
           Demo.registered); [vm_compute; reflexivity|].
  intros s. vm_compute. discriminate.
Defined.

(** ** session/handler.py: queued updates *)

Lemma enqueue_absent sid u chat updates now pending :
  sid ∉ pending.*1 →
  Handler.enqueue sid u chat updates now pending =
  (pending ++ [(sid, {| p_user_id := u; p_chat_id := chat; p_updates := updates;
                        p_last_access := now |})])%list.
Proof.
  induction pending as [|[sid' p] rest IH]; intros Hn; cbn; [reflexivity|].
  cbn in Hn. apply not_elem_of_cons in Hn as [Hne Hrest].
  rewrite (proj2 (String.eqb_neq sid' sid)) by done. by rewrite IH.
Qed.

Lemma enqueue_present sid u chat updates now pending p :
  sid ∉ pending.*1 →
  Handler.enqueue sid u chat updates now (pending ++ [(sid, p)]) =
  (pending ++ [(sid, {| p_user_id := p_user_id p; p_chat_id := p_chat_id p;
                        p_updates := Handler.dict_update (p_updates p) updates;
                        p_last_access := now |})])%list.
Proof.
  induction pending as [|[sid' p'] rest IH]; intros Hn; cbn.
  - by rewrite String.eqb_refl.
  - cbn in Hn. apply not_elem_of_cons in Hn as [Hne Hrest].
    rewrite (proj2 (String.eqb_neq sid' sid)) by done. by rewrite IH.
Qed.

(** X18.  Two updates queued for the same session before a flush are merged
    into one pending entry: the keys of the second win, [last_access]
    is the instant of the second, and the user and chat are those of
    the first (the ones passed with the second are dropped). *)
Theorem queued_updates_are_merged u1 chat1 updates1 u2 chat2 updates2 sid t2 w :
  sid ∉ (_pending_updates (session_handler w)).*1 →
  ∃ w1 w2,
    Handler.update_session u1 chat1 updates1 sid w = (Ok tt, w1) ∧
    Handler.update_session u2 chat2 updates2 sid (set_clock t2 w1) = (Ok tt, w2) ∧
    _pending_updates (session_handler w2) =
      (_pending_updates (session_handler w)
       ++ [(sid, {| p_user_id := u1; p_chat_id := chat1;
                    p_updates := updates2 ∪ updates1;
                    p_last_access := t2 |})])%list ∧
    redis w2 = redis w ∧ trace w2 = trace w.
Proof.
  intros Hn. eexists _, _. split; [reflexivity|]. split; [reflexivity|].
  cbn [session_handler set_session_handler set_clock Handler.set_pending _pending_updates
       clock redis trace].
  rewrite (enqueue_absent _ _ _ _ _ _ Hn), (enqueue_present _ _ _ _ _ _ _ Hn).
  repeat split.
Qed.

Lemma queued_updates_are_merged_witness :
  ∃ w1 w2,
    Handler.update_session "alice" "default" (<["api_key" := JStr "K1"]> ∅) "uuid-0"
      Demo.logged_in = (Ok tt, w1) ∧
    Handler.update_session "bob" "other" (<["api_key" := JStr "K2"]> ∅) "uuid-0"
      (set_clock 1015 w1) = (Ok tt, w2) ∧
    _pending_updates (session_handler w2) =
      (_pending_updates (session_handler Demo.logged_in)
       ++ [("uuid-0", {| p_user_id := "alice"; p_chat_id := "default";
                         p_updates := <["api_key" := JStr "K2"]> ∅ ∪ <["api_key" := JStr "K1"]> ∅;
                         p_last_access := 1015 |})])%list ∧
    redis w2 = redis Demo.logged_in ∧ trace w2 = trace Demo.logged_in.
Proof.
  apply (queued_updates_are_merged "alice" "default" (<["api_key" := JStr "K1"]> ∅)
           "bob" "other" (<["api_key" := JStr "K2"]> ∅) "uuid-0" 1015 Demo.logged_in).
  vm_compute. apply not_elem_of_nil.
Defined.

(** X19.  An update queued for a live session reaches Redis with the next
    round of the batched writer: the stored session then carries the
    updates over its old data, [last_access] is the instant the update
    was queued, the TTL is renewed, and the queue is empty.  One read
    pipeline, one publication task and one write pipeline are issued, in
    this order. *)
Theorem queued_update_is_flushed u chat updates sid s t w :
  _pending_updates (session_handler w) = [] →
  0 < sh_timeout_seconds (session_handler w) →
  Redis.get_pure t (redis w) (Handler.session_key sid) = Ok (Some s) →
  ∃ w1 w2,
    Handler.update_session u chat updates sid w = (Ok tt, w1) ∧
    BatchWriter.flush_round (set_clock t w1) = (Ok tt, w2) ∧
    Redis.get_pure t (redis w2) (Handler.session_key sid)
      = Ok (Some {| s_user_id := s_user_id s; s_chat_id := s_chat_id s;
                    s_data := updates ∪ s_data s;
                    s_created_at := s_created_at s; s_last_access := clock w |}) ∧
    redis w2 !! Handler.session_key sid
      = Some {| e_value := RString {| s_user_id := s_user_id s; s_chat_id := s_chat_id s;
                                      s_data := updates ∪ s_data s;
                                      s_created_at := s_created_at s;
                                      s_last_access := clock w |};
                e_expire_at := Some (t + sh_timeout_seconds (session_handler w)) |} ∧
    (∀ key, key ≠ Handler.session_key sid → redis w2 !! key = redis w !! key) ∧
    _pending_updates (session_handler w2) = [] ∧
    trace w2 =
      (trace w ++
       [EvPipeline [PGet (Handler.session_key sid)];
        EvCreateTask (TPublish ("events:session:update:" +:+ u)
                        (JObj [("session_id", JStr sid);
                               ("updates", JObj (map_to_list updates));
                               ("chat_id", JStr chat)]));
        EvPipeline [PSet (Handler.session_key sid)
                      {| s_user_id := s_user_id s; s_chat_id := s_chat_id s;
                         s_data := updates ∪ s_data s;
                         s_created_at := s_created_at s; s_last_access := clock w |}
                      (sh_timeout_seconds (session_handler w))]])%list.
Proof.
  intros Hp Ht Hget.
  set (merged := {| s_user_id := s_user_id s; s_chat_id := s_chat_id s;
                    s_data := updates ∪ s_data s;
                    s_created_at := s_created_at s; s_last_access := clock w |}).
  set (p := {| p_user_id := u; p_chat_id := chat; p_updates := updates;
               p_last_access := clock w |}).
  set (w1 := set_session_handler (Handler.set_pending [(sid, p)]) w).
  assert (Hupd : Handler.update_session u chat updates sid w = (Ok tt, w1)).
  { unfold Handler.update_session. run_prim. unfold modify, w1. f_equal.
    unfold set_session_handler. cbn beta. rewrite Hp. reflexivity. }
  set (timeout := sh_timeout_seconds (session_handler w)) in *.
  set (w2 := emit (EvPipeline [PSet (Handler.session_key sid) merged timeout])
               (set_redis (λ _, <[Handler.session_key sid :=
                                    {| e_value := RString merged;
                                       e_expire_at := Some (t + timeout) |}]> (redis w))
                  (emit (EvCreateTask (BatchWriter.update_event sid p))
                     (emit (EvPipeline [PGet (Handler.session_key sid)])
                        (set_session_handler (Handler.set_pending []) (set_clock t w1)))))).
  exists w1, w2. split; [exact Hupd|]. split.
  { unfold BatchWriter.flush_round. apply try_except_ok.
    run_prim. cbn [set_clock w1 session_handler set_session_handler Handler.set_pending
                   _pending_updates].
    run_prim.
    cbn [map fst].
    match goal with
    | |- bind (Redis.execute _) _ ?W = _ =>
        assert (Hread : Redis.execute [PGet (Handler.session_key sid)] W =
                        (Ok [Some s], emit (EvPipeline [PGet (Handler.session_key sid)]) W))
    end.
    { rewrite (execute_gets (λ it : string * Pending, Handler.session_key it.1) [(sid, p)])
        by done.
      cbn [map fst]. cbn [clock set_session_handler set_clock redis w1].
      rewrite Hget. reflexivity. }
    run_with exact Hread.
    cbn [BatchWriter.fill_write_pipeline]. run_prim.
    cbn [sh_timeout_seconds Handler.set_pending set_session_handler session_handler set_clock w1].
    fold timeout.
    match goal with
    | |- bind (Redis.execute ?cmds) _ ?W = _ =>
        assert (Hwrite : Redis.execute cmds W =
                         (Ok [None],
                          emit (EvPipeline cmds)
                            (set_redis (λ _, <[Handler.session_key sid :=
                                                 {| e_value := RString merged;
                                                    e_expire_at := Some (t + timeout) |}]>
                                               (redis w)) W)))
    end.
    { rewrite execute_run by done.
      cbn [Redis.pipe_run]. rewrite set_pure_ok by exact Ht. reflexivity. }
    run_with exact Hwrite. reflexivity. }
  split. { eapply get_pure_stored; [apply lookup_insert_eq|]. apply live_expiring. lia. }
  split; [apply lookup_insert_eq|]. split.
  { intros key Hk. cbn. by rewrite lookup_insert_ne. }
  split; [reflexivity|].
  cbn. rewrite <- !app_assoc. reflexivity.
Qed.

Lemma queued_update_is_flushed_witness :
  ∃ s w1 w2,
    Redis.get_pure 1012 (redis Demo.logged_in) (Handler.session_key "uuid-0") = Ok (Some s) ∧
    Handler.update_session "alice" "default" (<["api_key" := JStr "K"]> ∅) "uuid-0"
      Demo.logged_in = (Ok tt, w1) ∧
    BatchWriter.flush_round (set_clock 1012 w1) = (Ok tt, w2) ∧
    Redis.get_pure 1012 (redis w2) (Handler.session_key "uuid-0")
      = Ok (Some {| s_user_id := s_user_id s; s_chat_id := s_chat_id s;
                    s_data := <["api_key" := JStr "K"]> ∅ ∪ s_data s;
                    s_created_at := s_created_at s;
                    s_last_access := clock Demo.logged_in |}) ∧
    _pending_updates (session_handler w2) = [].
Proof.
  assert (Hget : Redis.get_pure 1012 (redis Demo.logged_in) (Handler.session_key "uuid-0")
                 = Ok (Some (Handler.touch (Handler.new_session "alice" "default" 1010) 1010)))
    by (vm_compute; reflexivity).
  destruct (queued_update_is_flushed "alice" "default" (<["api_key" := JStr "K"]> ∅) "uuid-0"
              (Handler.touch (Handler.new_session "alice" "default" 1010) 1010) 1012
              Demo.logged_in) as (w1 & w2 & H1 & H2 & H3 & _ & _ & H4 & _);
    [vm_compute; reflexivity|vm_compute; reflexivity|exact Hget|].
  exists (Handler.touch (Handler.new_session "alice" "default" 1010) 1010), w1, w2.
  repeat split; assumption.
Defined.

(** ** session/handler.py and session/cleaner.py: purging sessions *)

Lemma delete_run key w :
  Redis.delete key w = (Ok tt, emit (EvDelete key) (set_redis (delete key) w)).
Proof. reflexivity. Qed.

Lemma keys_run prefix w :
  Redis.keys prefix w = (Ok (Redis.keys_pure (clock w) (redis w) prefix), w).
Proof. reflexivity. Qed.

Lemma keys_pure_NoDup now store prefix : NoDup (Redis.keys_pure now store prefix).
Proof.
  unfold Redis.keys_pure.
  assert (H : ∀ l : list (string * Entry), NoDup l.*1 →
            NoDup (omap (λ kv, if String.prefix prefix kv.1 && Redis.live now kv.2
                               then Some kv.1 else None) l)).
  { induction l as [|[k e] l IH]; cbn; [constructor|].
    intros Hnd. apply NoDup_cons in Hnd as [Hk Hl].
    destruct (String.prefix prefix k && Redis.live now e); [|by apply IH].
    apply NoDup_cons. split; [|by apply IH].
    intros Hin. apply Hk. apply list_elem_of_omap in Hin as ([k' e'] & Hin & Hf).
    cbn in Hf. destruct (String.prefix prefix k' && Redis.live now e'); [|discriminate].
    injection Hf as ->. apply list_elem_of_fmap. by exists (k, e'). }
  apply H, NoDup_fst_map_to_list.
Qed.

(** Whether [cleanup_user_sessions] deletes a key it meets. *)
Local Abbreviation owned_by now store u key :=
  (match Redis.get_pure now store key with
   | Ok (Some session) => String.eqb (s_user_id session) u
   | _ => false
   end).

Lemma cleanup_loop u (l : list string) : ∀ w,
  NoDup l →
  Forall (λ key, ∃ r, Redis.get_pure (clock w) (redis w) key = Ok r) l →
  ∃ w',
    for_each l
      (λ key,
         do serialized <- Redis.get key;
         match serialized with
         | Some session =>
             if String.eqb (s_user_id session) u then Redis.delete key else ret tt
         | None => ret tt
         end) w = (Ok tt, w') ∧
    clock w' = clock w ∧
    user_manager w' = user_manager w ∧
    ∀ k, redis w' !! k =
         if bool_decide (k ∈ l) && owned_by (clock w) (redis w) u k then None
         else redis w !! k.
Proof.
  induction l as [|key rest IH]; intros w Hnd Hread.
  - exists w. by repeat split.
  - apply NoDup_cons in Hnd as [Hkey Hnd]. apply Forall_cons in Hread as [[r Hr] Hread].
    cbn [for_each].
    set (w1 := if owned_by (clock w) (redis w) u key
               then emit (EvDelete key) (set_redis (delete key) w) else w).
    assert (Hstep : (do serialized <- Redis.get key;
                     match serialized with
                     | Some session =>
                         if String.eqb (s_user_id session) u then Redis.delete key else ret tt
                     | None => ret tt
                     end) w = (Ok tt, w1)).
    { run_with (rewrite get_run, Hr; reflexivity). unfold w1. rewrite Hr.
      destruct r as [s|]; [|reflexivity]. by destruct (String.eqb (s_user_id s) u). }
    assert (Hclock1 : clock w1 = clock w) by (unfold w1; by destruct (owned_by _ _ _ _)).
    assert (Hum1 : user_manager w1 = user_manager w)
      by (unfold w1; by destruct (owned_by _ _ _ _)).
    assert (Hother : ∀ k, k ≠ key → redis w1 !! k = redis w !! k).
    { intros k Hk. unfold w1. destruct (owned_by _ _ _ _); [cbn|reflexivity].
      by rewrite lookup_delete_ne. }
    assert (Hget1 : ∀ k, k ≠ key →
              Redis.get_pure (clock w1) (redis w1) k = Redis.get_pure (clock w) (redis w) k).
    { intros k Hk. unfold Redis.get_pure, Redis.peek. by rewrite Hclock1, Hother. }
    destruct (IH w1 Hnd) as (w' & Hrun & Hclock & Hum & Hstore).
    { apply Forall_forall. intros k Hk. rewrite Hget1 by (intros ->; done).
      by apply (proj1 (Forall_forall _ _) Hread). }
    exists w'. split; [by run_with exact Hstep|]. split; [congruence|]. split; [congruence|].
    intros k. rewrite Hstore. destruct (decide (k = key)) as [->|Hk].
    + rewrite (bool_decide_eq_false_2 (key ∈ rest)) by done.
      rewrite (bool_decide_eq_true_2 (key ∈ key :: rest)) by apply list_elem_of_here.
      cbn [andb]. unfold w1. destruct (owned_by _ _ _ _); [cbn; apply lookup_delete_eq|done].
    + rewrite Hget1, Hother by done.
      destruct (decide (k ∈ rest)) as [Hin|Hnin].
      * rewrite !bool_decide_eq_true_2; [done|by apply list_elem_of_further|done].
      * rewrite !bool_decide_eq_false_2; [done| |done].
        intros Hin. apply elem_of_cons in Hin as [?|?]; done.
Qed.

Lemma filter_nil_of_false {A} (f : A → bool) l :
  (∀ x, x ∈ l → f x = false) → List.filter f l = [].
Proof.
  induction l as [|x l IH]; intros H; cbn; [reflexivity|].
  rewrite (H x) by apply list_elem_of_here. apply IH. intros y Hy. apply H.
  by apply list_elem_of_further.
Qed.

Lemma elem_of_owned_sessions now store u key :
  key ∈ Handler.owned_sessions now store u ↔
  key ∈ Redis.keys_pure now store "sessions:" ∧ owned_by now store u key = true.
Proof.
  unfold Handler.owned_sessions.
  rewrite list_elem_of_In, filter_In, <- list_elem_of_In. reflexivity.
Qed.

(** X20.  When every live [sessions:*] key holds a session,
    [cleanup_user_sessions] deletes the live sessions owned by the user,
    all of them and nothing else: afterwards the user owns no session,
    and every other key is as it was. *)
Theorem cleanup_user_sessions_purges_exactly u w :
  Forall (λ key, ∃ r, Redis.get_pure (clock w) (redis w) key = Ok r)
         (Redis.keys_pure (clock w) (redis w) "sessions:") →
  ∃ w',
    Handler.cleanup_user_sessions u w = (Ok tt, w') ∧
    clock w' = clock w ∧
    Handler.owned_sessions (clock w) (redis w') u = [] ∧
    (∀ key, key ∈ Handler.owned_sessions (clock w) (redis w) u → redis w' !! key = None) ∧
    (∀ key, key ∉ Handler.owned_sessions (clock w) (redis w) u →
            redis w' !! key = redis w !! key).
Proof.
  intros Hread.
  destruct (cleanup_loop u _ w (keys_pure_NoDup _ _ _) Hread)
    as (w' & Hrun & Hclock & _ & Hstore).
  exists w'. split.
  { unfold Handler.cleanup_user_sessions. run_with apply keys_run. exact Hrun. }
  split; [exact Hclock|].
  assert (Hin : ∀ key, key ∈ Handler.owned_sessions (clock w) (redis w) u ↔
                  bool_decide (key ∈ Redis.keys_pure (clock w) (redis w) "sessions:")
                  && owned_by (clock w) (redis w) u key = true).
  { intros key. rewrite elem_of_owned_sessions, andb_true_iff, bool_decide_eq_true. done. }
  split; [|split].
  - apply filter_nil_of_false. intros key Hk.
    apply keys_pure_elem in Hk as [Hpre [e He]].
    apply peek_Some in He as [He Hlive].
    rewrite Hstore in He.
    destruct (bool_decide _ && owned_by (clock w) (redis w) u key) eqn:Hb; [discriminate|].
    assert (Hk : key ∈ Redis.keys_pure (clock w) (redis w) "sessions:").
    { apply keys_pure_elem. split; [done|]. exists e. by apply peek_Some. }
    rewrite bool_decide_eq_true_2 in Hb by done. cbn [andb] in Hb.
    unfold Redis.get_pure, Redis.peek in *. rewrite Hstore.
    rewrite bool_decide_eq_true_2 by done. cbn [andb].
    unfold Redis.get_pure, Redis.peek. rewrite Hb. exact Hb.
  - intros key Hk. rewrite Hstore. by rewrite (proj1 (Hin key) Hk).
  - intros key Hk. rewrite Hstore.
    destruct (bool_decide _ && owned_by _ _ _ _) eqn:Hb; [|done].
    by apply Hin in Hb.
Qed.

Lemma cleanup_user_sessions_purges_exactly_witness :
  ∃ w',
    Handler.cleanup_user_sessions "alice" Demo.logged_in_again = (Ok tt, w') ∧
    clock w' = clock Demo.logged_in_again ∧
    Handler.owned_sessions (clock Demo.logged_in_again) (redis w') "alice" = [] ∧
    (∀ key, key ∈ Handler.owned_sessions (clock Demo.logged_in_again)
                    (redis Demo.logged_in_again) "alice" → redis w' !! key = None) ∧
    (∀ key, key ∉ Handler.owned_sessions (clock Demo.logged_in_again)
                    (redis Demo.logged_in_again) "alice" →
            redis w' !! key = redis Demo.logged_in_again !! key).
Proof.
  apply (cleanup_user_sessions_purges_exactly "alice" Demo.logged_in_again).
  vm_compute. repeat constructor; eexists; reflexivity.
Defined.

(** ** session/cleaner.py: the two sweeps *)

Section UserRecordsKept.

(** A computation that, however it ends, leaves the user records and
    the cache of the user manager as they were. *)
Local Abbreviation keeps m :=
  (∀ w r w', m w = (r, w') →
     user_manager w' = user_manager w ∧
     ∀ k, String.prefix "users:" k = true → redis w' !! k = redis w !! k).

Lemma keeps_bind {A B} (m : M A) (f : A → M B) :
  keeps m → (∀ a, keeps (f a)) → keeps (bind m f).
Proof.
  intros Hm Hf w r w'. unfold bind.
  destruct (m w) as [[a|e] w1] eqn:E; intros H.
  - destruct (Hm _ _ _ E) as [Hu Hk]. destruct (Hf a _ _ _ H) as [Hu' Hk'].
    split; [congruence|]. intros k Hp. rewrite Hk', Hk; done.
  - injection H as <- <-. by apply (Hm _ _ _ E).
Qed.

Lemma keeps_reader {A} (m : M A) : (∀ w, snd (m w) = w) → keeps m.
Proof. intros H w r w' E. specialize (H w). rewrite E in H. cbn in H. by subst. Qed.

Lemma keeps_publish channel payload : keeps (Events.publish channel payload).
Proof. intros w r w' [= <- <-]. done. Qed.

Lemma keeps_delete key : String.prefix "users:" key = false → keeps (Redis.delete key).
Proof.
  intros Hp w r w' [= <- <-]. split; [done|]. intros k Hk. cbn.
  apply lookup_delete_ne. intros ->. congruence.
Qed.

Lemma keeps_for_each {A} (l : list A) (body : A → M unit) :
  (∀ x, x ∈ l → keeps (body x)) → keeps (for_each l body).
Proof.
  induction l as [|x l IH]; intros H; cbn [for_each].
  - by apply keeps_reader.
  - apply keeps_bind; [apply H, list_elem_of_here|]. intros _. apply IH.
    intros y Hy. by apply H, list_elem_of_further.
Qed.

Lemma session_keys_are_no_user_keys key :
  String.prefix "sessions:" key = true → String.prefix "users:" key = false.
Proof.
  destruct key as [|a key]; [done|]. cbn [String.prefix].
  destruct (Ascii.ascii_dec "s" a) as [<-|]; [reflexivity|discriminate].
Qed.

Lemma keeps_cleanup_user_sessions u : keeps (Handler.cleanup_user_sessions u).
Proof.
  unfold Handler.cleanup_user_sessions. intros w.
  assert (Hkeys : Redis.keys "sessions:" w
                  = (Ok (Redis.keys_pure (clock w) (redis w) "sessions:"), w)) by reflexivity.
  unfold bind at 1. rewrite Hkeys. revert w Hkeys. intros w _.
  apply keeps_for_each. intros key Hin.
  apply keys_pure_elem in Hin as [Hpre _].
  apply keeps_bind.
  - apply keeps_reader. intros w0. rewrite get_run. reflexivity.
  - intros [s|]; [|by apply keeps_reader].
    destruct (String.eqb (s_user_id s) u); [|by apply keeps_reader].
    by apply keeps_delete, session_keys_are_no_user_keys.
Qed.

Lemma keeps_remove_connection u : keeps (Connections.remove_connection u).
Proof.
  unfold Connections.remove_connection. apply keeps_bind.
  - by apply keeps_delete.
  - intros _. apply keeps_publish.
Qed.

Lemma keeps_cleanup_inactive_users days : keeps (Cleaner.cleanup_inactive_users days).
Proof.
  unfold Cleaner.cleanup_inactive_users.
  apply keeps_bind; [by apply (keeps_reader time_time)|]. intros now.
  apply keeps_bind; [by apply (keeps_reader (Redis.keys "users:"))|]. intros user_keys.
  apply keeps_for_each. intros key _.
  apply keeps_bind.
  { apply (keeps_reader (Cleaner.username_of_key key)). intros w.
    unfold Cleaner.username_of_key. by destruct (split_on ":" key !! 1%nat). }
  intros username. apply keeps_bind.
  { apply (keeps_reader (Redis.hgetall key)). intros w. by rewrite hgetall_run. }
  intros user_data. apply keeps_bind.
  { apply (keeps_reader (field_float _)). intros w. unfold field_float.
    by destruct (default (FNum 0) (user_data !! "last_login")). }
  intros last_login. destruct (last_login <? _); [|by apply (keeps_reader (ret tt))].
  apply keeps_bind; [apply keeps_cleanup_user_sessions|]. intros _.
  apply keeps_bind; [apply keeps_remove_connection|]. intros _.
  apply keeps_publish.
Qed.

(** X21.  The inactive-users sweep never touches a user record: whatever the
    store holds and however the sweep ends, every [users:*] key and the
    in-memory cache of the user manager are left as they were. *)
Theorem inactive_sweep_keeps_user_records days w :
  user_manager (snd (Cleaner.cleanup_inactive_users days w)) = user_manager w ∧
  ∀ username,
    redis (snd (Cleaner.cleanup_inactive_users days w)) !! Users.user_key username
    = redis w !! Users.user_key username.
Proof.
  destruct (Cleaner.cleanup_inactive_users days w) as [r w'] eqn:E.
  destruct (keeps_cleanup_inactive_users days _ _ _ E) as [Hu Hk].
  split; [exact Hu|]. intros username. apply Hk. simpl. by destruct username.
Qed.
End UserRecordsKept.

Lemma ttl_of_live now store key e :
  Redis.peek now store key = Some e → Redis.ttl_pure now store key ≠ -2.
Proof.
  intros Hp. unfold Redis.ttl_pure. rewrite Hp.
  apply peek_Some in Hp as [_ Hl]. unfold Redis.live in Hl.
  destruct (e_expire_at e) as [t|]; [|done]. apply Z.ltb_lt in Hl. lia.
Qed.

Section ExpiredSweep.
Variables (days : Z) (w : World).

Local Abbreviation stale key :=
  (∃ s, Redis.get_pure (clock w) (redis w) key = Ok (Some s) ∧
        days * 86400 < clock w - s_last_access s).
Local Abbreviation readable key := (∃ o, Redis.get_pure (clock w) (redis w) key = Ok o).

Lemma scan_expired_run keys :
  Forall (λ key, is_Some (Redis.peek (clock w) (redis w) key)) keys →
  ∃ r,
    Cleaner.scan_expired (clock w) days keys [] w = (r, w) ∧
    (∀ deleted, r = Ok deleted → deleted = []) ∧
    (Forall (λ key, readable key) keys →
     (Exists (λ key, stale key) keys →
      r = Raise (AttributeError "'str' object has no attribute 'decode'")) ∧
     (¬ Exists (λ key, stale key) keys → r = Ok [])).
Proof.
  induction keys as [|key rest IH]; intros Hlive.
  - exists (Ok []). split; [reflexivity|]. split; [by intros ? [= <-]|].
    intros _. split; [by intros H%Exists_nil|done].
  - apply Forall_cons in Hlive as [[e He] Hlive].
    destruct (IH Hlive) as (r & Hrun & Hnil & Hcases).
    cbn [Cleaner.scan_expired].
    assert (Httl : Redis.ttl key w = (Ok (Redis.ttl_pure (clock w) (redis w) key), w))
      by reflexivity.
    rewrite (bind_ok _ _ _ _ _ Httl).
    rewrite (proj2 (Z.eqb_neq _ _) (ttl_of_live _ _ _ _ He)).
    pose proof (get_run key w) as Hget.
    destruct (Redis.get_pure (clock w) (redis w) key) as [[s|]|err] eqn:Hg.
    + rewrite (bind_ok _ _ _ _ _ Hget). cbn iota.
      destruct (days * 86400 <? clock w - s_last_access s) eqn:Hst.
      * eexists. split; [reflexivity|]. split; [discriminate|]. intros _.
        split; [done|]. intros Hno. exfalso. apply Hno. apply Exists_cons_hd.
        exists s. split; [done|]. by apply Z.ltb_lt.
      * exists r. split; [exact Hrun|]. split; [exact Hnil|].
        intros Hread. apply Forall_cons in Hread as [_ Hread].
        destruct (Hcases Hread) as [Hyes Hno]. split.
        -- intros Hex. apply Exists_cons in Hex as [(s' & Hs' & Hlt)|Hex]; [|by apply Hyes].
           rewrite Hg in Hs'. injection Hs' as <-. apply Z.ltb_ge in Hst. lia.
        -- intros Hnex. apply Hno. intros Hex. apply Hnex. by apply Exists_cons_tl.
    + rewrite (bind_ok _ _ _ _ _ Hget). cbn iota.
      exists r. split; [exact Hrun|]. split; [exact Hnil|].
      intros Hread. apply Forall_cons in Hread as [_ Hread].
      destruct (Hcases Hread) as [Hyes Hno]. split.
      * intros Hex. apply Exists_cons in Hex as [(s' & Hs' & _)|Hex]; [|by apply Hyes].
        rewrite Hg in Hs'. discriminate.
      * intros Hnex. apply Hno. intros Hex. apply Hnex. by apply Exists_cons_tl.
    + rewrite (bind_raise _ _ _ _ _ Hget).
      eexists. split; [reflexivity|]. split; [discriminate|].
      intros Hread. apply Forall_cons in Hread as [[o Ho] _]. rewrite Hg in Ho. discriminate.
Qed.

(** X22.  The expired-sessions sweep deletes nothing.  The keys it scans are
    live, so none reads a TTL of [-2]; and when it meets a session older
    than the cutoff it raises [AttributeError] on its log line (the keys
    are [str], and the line calls [key.decode()]) before any [DEL] is
    sent.  [cleanup] then ends there, and the inactive-users sweep does
    not run. *)
Theorem expired_sweep_deletes_nothing :
  snd (Cleaner.cleanup_expired_sessions days w) = w ∧
  (Forall (λ key, readable key) (Redis.keys_pure (clock w) (redis w) "sessions:") →
   (Exists (λ key, stale key) (Redis.keys_pure (clock w) (redis w) "sessions:") →
    Cleaner.cleanup_expired_sessions days w
      = (Raise (AttributeError "'str' object has no attribute 'decode'"), w) ∧
    Cleaner.cleanup days w
      = (Raise (AttributeError "'str' object has no attribute 'decode'"), w)) ∧
   (¬ Exists (λ key, stale key) (Redis.keys_pure (clock w) (redis w) "sessions:") →
    Cleaner.cleanup_expired_sessions days w = (Ok tt, w))).
Proof.
  destruct (scan_expired_run (Redis.keys_pure (clock w) (redis w) "sessions:"))
    as (r & Hrun & Hnil & Hcases).
  { apply Forall_forall. intros key Hk. by apply keys_pure_elem in Hk as [_ ?]. }
  assert (Hsweep : Cleaner.cleanup_expired_sessions days w =
                   (match r with Ok _ => Ok tt | Raise e => Raise e end, w)).
  { unfold Cleaner.cleanup_expired_sessions.
    run_with apply keys_run. run_prim.
    destruct r as [deleted|e].
    - rewrite (bind_ok _ _ _ _ _ Hrun). by rewrite (Hnil deleted eq_refl).
    - by rewrite (bind_raise _ _ _ _ _ Hrun). }
  split; [by rewrite Hsweep|].
  intros Hread. destruct (Hcases Hread) as [Hyes Hno]. split.
  - intros Hex. rewrite Hsweep, (Hyes Hex). split; [reflexivity|].
    unfold Cleaner.cleanup. apply bind_raise. by rewrite Hsweep, (Hyes Hex).
  - intros Hnex. by rewrite Hsweep, (Hno Hnex).
Qed.
End ExpiredSweep.

(** ** session/users.py: accounts *)

Lemma register_world req w u w1 :
  Users.register req w = (Ok u, w1) →
  u = rr_username req ∧
  ∃ f e,
    w1 = emit (EvPublish ("events:user:register:" +:+ rr_username req)
                 (JObj [("username", JStr (rr_username req));
                        ("user_data",
                         Users.user_json
                           (<["password" := FStr (sha256_hexdigest (ext w) (rr_password req))]>
                            (<["email" := FStr (rr_email req)]>
                             (<["role" := FStr "user"]>
                              (<["last_login" := FNum (clock w)]> ∅)))))]))
           (set_user_manager
              (Users.cache_user (rr_username req)
                 (<["password" := FStr (sha256_hexdigest (ext w) (rr_password req))]>
                  (<["email" := FStr (rr_email req)]>
                   (<["role" := FStr "user"]>
                    (<["last_login" := FNum (clock w)]> ∅)))))
              (emit (EvExpire (Users.user_key (rr_username req))
                       (um_timeout_seconds (user_manager (set_user_manager f w)) * 12))
                 (emit (EvHSet (Users.user_key (rr_username req))
                          (map_to_list
                             (<["password" := FStr (sha256_hexdigest (ext w) (rr_password req))]>
                              (<["email" := FStr (rr_email req)]>
                               (<["role" := FStr "user"]>
                                (<["last_login" := FNum (clock w)]> ∅))))))
                    (set_redis (λ _, <[Users.user_key (rr_username req) := e]> (redis w))
                       (set_user_manager f w))))).
Proof.
  intros H. unfold Users.register in H.
  destruct (Users.get_user_from_redis (rr_username req) w) as [[found|e0] w0] eqn:Hg;
    head_returns H Hg.
  apply get_user_from_redis_world in Hg as [f ->].
  destruct (Users.user_found found); [discriminate H|].
  run_in H with reflexivity. run_in H with reflexivity.
  match type of H with
  | bind ?m _ ?w0 = _ => destruct (m w0) as [[[]|e0] w2] eqn:Hsave; head_returns H Hsave
  end.
  injection H as <- <-. split; [reflexivity|].
  apply save_user_to_redis_world in Hsave as [e ->]. by exists f, e.
Qed.

(** X23.  Once a user name has been registered, registering it again is
    refused with a 400, whatever the e-mail and the password, for as
    long as the process lives: the record is found in the cache of the
    user manager, which has no expiry.  Nothing is written. *)
Theorem register_twice_is_refused req req' w u w1 t :
  Users.register req w = (Ok u, w1) →
  rr_username req' = rr_username req →
  Users.register req' (set_clock t w1)
  = (Raise (HTTPException 400 (DText "Username already exists")), set_clock t w1).
Proof.
  intros H Hname. apply register_world in H as (-> & f & e & ->).
  unfold Users.register. rewrite Hname.
  match goal with
  | |- bind ?m _ ?W = _ => eassert (Hfound : m W = (Ok (Some _), W))
  end.
  { unfold Users.get_user_from_redis. run_prim.
    cbn [user_manager set_clock emit set_user_manager set_redis Users.cache_user users_cache].
    rewrite lookup_insert_eq. reflexivity. }
  run_with exact Hfound.
  cbn [Users.user_found]. rewrite bool_decide_eq_false_2 by apply insert_non_empty.
  reflexivity.
Qed.

Lemma register_twice_is_refused_witness :
  Users.register {| rr_username := "alice"; rr_email := "other@x"; rr_password := "pw2" |}
    (set_clock 5000 Demo.registered)
  = (Raise (HTTPException 400 (DText "Username already exists")), set_clock 5000 Demo.registered).
Proof.
  apply (register_twice_is_refused
           {| rr_username := "alice"; rr_email := "a@x"; rr_password := "pw" |}
           {| rr_username := "alice"; rr_email := "other@x"; rr_password := "pw2" |}
           (set_clock 1000 Demo.init) "alice" Demo.registered 5000);
    [vm_compute; reflexivity|reflexivity].
Defined.

(** X24.  A login for an unknown user, or with a password whose hash is not
    the stored one, is refused with the same 401; no Redis command is
    issued and no event is published. *)
Theorem login_rejects_bad_credentials req w found w1 :
  Users.get_user_from_redis (lr_username req) w = (Ok found, w1) →
  Users.user_found found = false ∨
  (∃ stored, default ∅ found !! "password" = Some stored ∧
             field_text stored ≠ sha256_hexdigest (ext w) (lr_password req)) →
  Users.login req w = (Raise (HTTPException 401 (DText "Invalid username or password")), w1) ∧
  redis w1 = redis w ∧ trace w1 = trace w.
Proof.
  intros Hg Hbad.
  destruct (get_user_from_redis_world _ _ _ _ Hg) as [f Hw1]. split; [|by subst w1].
  unfold Users.login. apply bind_raise. unfold Users.check_credentials.
  run_with exact Hg.
  destruct (Users.user_found found) eqn:Hf; cbn [negb]; [|reflexivity].
  destruct Hbad as [?|(stored & Hs & Hne)]; [discriminate|].
  unfold Users.item. rewrite Hs. run_prim. unfold Users._hash_password. run_prim.
  replace (ext w1) with (ext w) by (by subst w1).
  by rewrite (proj2 (String.eqb_neq _ _) Hne).
Qed.

Lemma login_rejects_bad_credentials_witness :
  (∃ found,
     Users.get_user_from_redis "alice" (set_clock 1010 Demo.registered)
       = (Ok found, set_clock 1010 Demo.registered) ∧
     ∃ stored, default ∅ found !! "password" = Some stored ∧
               field_text stored ≠ sha256_hexdigest (ext Demo.registered) "wrong") ∧
  Users.login {| lr_username := "alice"; lr_password := "wrong" |}
    (set_clock 1010 Demo.registered)
  = (Raise (HTTPException 401 (DText "Invalid username or password")),
     set_clock 1010 Demo.registered).
Proof.
  assert (Hg : Users.get_user_from_redis "alice" (set_clock 1010 Demo.registered)
               = (Ok (users_cache (user_manager Demo.registered) !! "alice"),
                  set_clock 1010 Demo.registered)) by (vm_compute; reflexivity).
  assert (Hs : default ∅ (users_cache (user_manager Demo.registered) !! "alice") !! "password"
               = Some (FStr "sha256(pw)")) by (vm_compute; reflexivity).
  split.
  - eexists. split; [exact Hg|]. eexists. split; [exact Hs|]. vm_compute. discriminate.
  - apply (login_rejects_bad_credentials {| lr_username := "alice"; lr_password := "wrong" |}
             (set_clock 1010 Demo.registered) _ _ Hg).
    right. eexists. split; [exact Hs|]. vm_compute. discriminate.
Defined.

Lemma save_user_to_redis_run u ud w h :
  Redis.hgetall_pure (clock w) (redis w) (Users.user_key u) = Ok h →
  Users.save_user_to_redis u ud w =
  (Ok tt,
   emit (EvPublish ("events:user:register:" +:+ u)
           (JObj [("username", JStr u); ("user_data", Users.user_json ud)]))
     (set_user_manager (Users.cache_user u ud)
        (emit (EvExpire (Users.user_key u) (um_timeout_seconds (user_manager w) * 12))
           (emit (EvHSet (Users.user_key u) (map_to_list ud))
              (set_redis
                 (λ _, <[Users.user_key u :=
                           {| e_value := RHash (Redis.hash_update (map_to_list ud) h);
                              e_expire_at :=
                                Some (clock w + um_timeout_seconds (user_manager w) * 12) |}]>
                         (redis w)) w))))).
Proof.
  intros Hg.
  destruct (hset_pure_merges _ _ _ (map_to_list ud) _ Hg) as (ex & Hset & Hlive).
  unfold Users.save_user_to_redis. cbn zeta.
  run_with (apply hset_ok; exact Hset).
  run_prim.
  run_with (apply expire_some; eapply expire_pure_stored; [apply lookup_insert_eq|exact Hlive]).
  run_prim.
  cbn [redis emit set_redis clock user_manager].
  rewrite insert_insert_eq. reflexivity.
Qed.

Lemma hset_pure_hash now store key mapping store' :
  Redis.hset_pure now store key mapping = Ok store' →
  ∃ h ex, store' = <[key := {| e_value := RHash h; e_expire_at := ex |}]> store ∧
          Redis.live now {| e_value := RHash h; e_expire_at := ex |} = true.
Proof.
  unfold Redis.hset_pure. destruct (Redis.peek now store key) as [e0|] eqn:Hp.
  - apply peek_Some in Hp as [_ Hl].
    destruct (e_value e0); [discriminate|]. intros [= <-]. eexists _, _. by split.
  - intros [= <-]. eexists _, _. by split.
Qed.

(** After a successful [save_user_to_redis], the key of the user holds
    a hash, whenever it is read. *)
Lemma saved_user_is_a_hash u ud w w2 t :
  Users.save_user_to_redis u ud w = (Ok tt, w2) →
  ∃ h, Redis.hgetall_pure t (redis w2) (Users.user_key u) = Ok h.
Proof.
  intros H. unfold Users.save_user_to_redis in H. cbn zeta in H.
  destruct (Redis.hset_pure (clock w) (redis w) (Users.user_key u) (map_to_list ud))
    as [store'|e] eqn:Hset.
  - pose proof (hset_ok _ _ _ _ Hset) as Hrun. head_returns H Hrun.
    apply hset_pure_hash in Hset as (h & ex & -> & Hlive).
    run_in H with reflexivity.
    run_in H with (apply expire_some; eapply expire_pure_stored;
                   [apply lookup_insert_eq|exact Hlive]).
    run_in H with reflexivity. injection H as <-.
    cbn [redis emit set_user_manager set_redis e_value].
    unfold Redis.hgetall_pure, Redis.peek. rewrite lookup_insert_eq.
    destruct (Redis.live t _); cbn; eauto.
  - pose proof (hset_raise _ _ _ _ Hset) as Hrun. head_returns H Hrun.
Qed.

Lemma delete_old_session_run u w c :
  Connections.get_connection_info u w = (Ok c, w) →
  Users.delete_old_session u w =
  (Ok tt,
   match c with
   | Some conn =>
       if truthy (cd_get conn "session_id") then
         let old := default "" (cd_get conn "session_id") in
         emit (EvPublish ("events:session:logout:" +:+ u)
                 (JObj [("user_id", JStr u); ("session_id", JStr old);
                        ("reason", JStr "new_login")]))
           (emit (EvPublish ("events:connection:removed:" +:+ u) (JObj [("user_id", JStr u)]))
              (emit (EvDelete (Connections.connection_key u))
                 (set_redis (delete (Connections.connection_key u))
                    (emit (EvDelete (Handler.session_key old))
                       (set_redis (delete (Handler.session_key old)) w)))))
       else w
   | None => w
   end).
Proof.
  intros Hc. unfold Users.delete_old_session. run_with exact Hc.
  destruct c as [conn|]; [|reflexivity].
  destruct (truthy (cd_get conn "session_id")); reflexivity.
Qed.

(** X25.  A user who has just registered can log in with the same password,
    at any later instant, provided the connection record of the user can
    be read and the session and connection timeouts are positive: the
    login returns a token for [sub = user_id = username] with role
    [user], and the id of a fresh session. *)
Theorem registered_user_can_log_in req w u w1 t c :
  Users.register req w = (Ok u, w1) →
  Connections.get_connection_info u (set_clock t w1) = (Ok c, set_clock t w1) →
  0 < sh_timeout_seconds (session_handler w) →
  0 < cm_timeout_seconds (connection_manager w) →
  ∃ resp w',
    Users.login {| lr_username := rr_username req; lr_password := rr_password req |}
      (set_clock t w1) = (Ok resp, w') ∧
    access_token resp
      = jwt_encode (ext w) (<["sub" := u]> (<["user_id" := u]> (<["role" := "user"]> ∅))) ∧
    token_type resp = "bearer" ∧
    lresp_user resp = [("username", u); ("role", "user")] ∧
    lresp_session_id resp = uuid4 (ext w) (uuid_counter w).
Proof.
  intros Hreg Hconn Hts Htc.
  assert (Hhash : ∃ h, Redis.hgetall_pure t (redis w1) (Users.user_key u) = Ok h).
  { unfold Users.register in Hreg.
    destruct (Users.get_user_from_redis (rr_username req) w) as [[found|e0] w0] eqn:Hg;
      head_returns Hreg Hg.
    destruct (Users.user_found found); [discriminate Hreg|].
    run_in Hreg with reflexivity. run_in Hreg with reflexivity.
    match type of Hreg with
    | bind ?m _ ?w0 = _ => destruct (m w0) as [[[]|e0] w2] eqn:Hsave; head_returns Hreg Hsave
    end.
    injection Hreg as <- <-. by eapply saved_user_is_a_hash. }
  destruct Hhash as [h Hh].
  apply register_world in Hreg as (-> & f & e & Hw1).
  set (u := rr_username req) in *.
  set (ud := <["password" := FStr (sha256_hexdigest (ext w) (rr_password req))]>
               (<["email" := FStr (rr_email req)]>
                  (<["role" := FStr "user"]> (<["last_login" := FNum (clock w)]> ∅)))) in *.
  set (W := set_clock t w1) in *.
  assert (Hframe : ext W = ext w ∧ uuid_counter W = uuid_counter w ∧ clock W = t ∧
                   session_handler W = session_handler w ∧
                   connection_manager W = connection_manager w ∧
                   security_manager W = security_manager w ∧
                   users_cache (user_manager W) !! u = Some ud ∧ redis W = redis w1).
  { unfold W. rewrite Hw1. cbn. repeat split. apply lookup_insert_eq. }
  destruct Hframe as (Hext & Huuid & Hclock & Hsh & Hcm & Hsec & Hcache & Hredis).
  clearbody W. clear Hw1.
  (* the credentials *)
  set (token := jwt_encode (ext w)
                  (<["sub" := u]> (<["user_id" := u]> (<["role" := "user"]> ∅)))).
  assert (Hcred : Users.check_credentials
                    {| lr_username := u; lr_password := rr_password req |} W
                  = (Ok (ud, token), W)).
  { unfold Users.check_credentials. cbn [lr_username lr_password].
    assert (Hfound : Users.get_user_from_redis u W = (Ok (Some ud), W)).
    { unfold Users.get_user_from_redis. run_prim. by rewrite Hcache. }
    run_with exact Hfound.
    cbn [Users.user_found]. rewrite bool_decide_eq_false_2 by apply insert_non_empty.
    cbn [negb from_option id]. unfold Users.item, Users._hash_password.
    unfold ud at 1. rewrite lookup_insert_eq. run_prim. run_prim.
    rewrite Hext. cbn [field_text]. rewrite String.eqb_refl. cbn [negb].
    unfold ud at 1. rewrite !lookup_insert_ne by done. rewrite lookup_insert_eq.
    run_prim. unfold Security.create_access_token. run_prim. by rewrite Hext. }
  (* the user record is saved *)
  set (ud' := <["last_login" := FNum t]> ud).
  pose proof (save_user_to_redis_run u ud' W h) as Hsave.
  rewrite Hclock, Hredis in Hsave. specialize (Hsave Hh).
  set (W2 := emit _ _) in Hsave.
  assert (Hconn2 : Connections.get_connection_info u W2 = (Ok c, W2)).
  { apply (get_connection_info_transport u W2 W c); [| |exact Hconn].
    - unfold W2. cbn [redis emit set_user_manager set_redis].
      rewrite lookup_insert_ne by apply user_key_ne_connection_key. by rewrite Hredis.
    - reflexivity. }
  pose proof (delete_old_session_run u W2 c Hconn2) as Hdel.
  set (W3 := match c with Some _ => _ | None => _ end) in Hdel.
  assert (Hframe3 : ext W3 = ext w ∧ uuid_counter W3 = uuid_counter w ∧
                    session_handler W3 = session_handler w ∧
                    connection_manager W3 = connection_manager w ∧
                    security_manager W3 = security_manager w ∧
                    ∃ h3, Redis.hgetall_pure (clock W3) (redis W3) (Connections.connection_key u)
                          = Ok h3).
  { destruct (get_connection_info_stored _ _ _ Hconn2) as [h2 Hh2].
    unfold W3. destruct c as [conn|]; [destruct (truthy (cd_get conn "session_id"))|].
    - cbn. repeat split; try done. exists ∅. unfold Redis.hgetall_pure.
      by rewrite peek_delete_eq.
    - repeat split; try done. by exists h2.
    - repeat split; try done. by exists h2. }
  destruct Hframe3 as (Hext3 & Huuid3 & Hsh3 & Hcm3 & Hsec3 & h3 & Hh3).
  clearbody W3.
  destruct (fresh_session_tracked u W3 h3 Hh3) as
    (W4 & W5 & W6 & Hcreate & Htrack & Htouch & _); [by rewrite Hsh3|by rewrite Hcm3|].
  eexists _, _. split.
  { unfold Users.login. cbn [lr_username lr_password].
    run_with exact Hcred. run_prim. rewrite Hclock. fold ud'.
    run_with exact Hsave. run_with exact Hdel.
    change (Handler.get_or_create_session u "default" None)
      with (Handler.create_session u "default").
    run_with exact Hcreate. run_prim.
    run_with exact Htrack. run_with exact Htouch. run_prim.
    unfold Users.item. unfold ud' at 1.
    rewrite lookup_insert_ne by done. unfold ud at 1.
    rewrite !lookup_insert_ne by done. rewrite lookup_insert_eq.
    reflexivity. }
  cbn [access_token token_type expires_in lresp_user lresp_session_id field_text].
  rewrite Hext3, Huuid3. repeat split.
Qed.

Lemma registered_user_can_log_in_witness :
  ∃ resp w',
    Users.login
      {| lr_username :=
           rr_username {| rr_username := "alice"; rr_email := "a@x"; rr_password := "pw" |};
         lr_password :=
           rr_password {| rr_username := "alice"; rr_email := "a@x"; rr_password := "pw" |} |}
      (set_clock 1010 Demo.registered) = (Ok resp, w') ∧
    access_token resp
      = jwt_encode (ext (set_clock 1000 Demo.init))
          (<["sub" := "alice"]> (<["user_id" := "alice"]> (<["role" := "user"]> ∅))) ∧
    token_type resp = "bearer" ∧
    lresp_user resp = [("username", "alice"); ("role", "user")] ∧
    lresp_session_id resp
      = uuid4 (ext (set_clock 1000 Demo.init)) (uuid_counter (set_clock 1000 Demo.init)).
Proof.
  apply (registered_user_can_log_in
           {| rr_username := "alice"; rr_email := "a@x"; rr_password := "pw" |}
           (set_clock 1000 Demo.init) "alice" Demo.registered 1010 None);
    vm_compute; reflexivity.
Defined.

(** ** session/users.py: deleting an account *)

Lemma delete_user_from_redis_run name w :
  Users.delete_user_from_redis name w
  = (Ok tt,
     emit (EvPublish ("events:user:delete:" +:+ name) (JObj [("username", JStr name)]))
       (set_user_manager (Users.uncache_user name)
          (emit (EvDelete (Users.user_key name))
             (set_redis (delete (Users.user_key name)) w)))).
Proof. reflexivity. Qed.

Lemma remove_connection_run u w :
  Connections.remove_connection u w
  = (Ok tt,
     emit (EvPublish ("events:connection:removed:" +:+ u) (JObj [("user_id", JStr u)]))
       (emit (EvDelete (Connections.connection_key u))
          (set_redis (delete (Connections.connection_key u)) w))).
Proof. reflexivity. Qed.

Lemma session_key_is_no_user_key key name :
  String.prefix "sessions:" key = true → key ≠ Users.user_key name.
Proof. intros Hp ->. simpl in Hp. discriminate. Qed.

Lemma session_key_is_no_connection_key key u :
  String.prefix "sessions:" key = true → key ≠ Connections.connection_key u.
Proof. intros Hp ->. simpl in Hp. discriminate. Qed.

(** X26.  [delete_account] removes the user record of the principal's name
    (from Redis and from the cache), every live session owned by the
    principal's id and the connection record of that id, and leaves
    every other key as it was, provided every live [sessions:*] key
    holds a session. *)
Theorem delete_account_purges_user uid name role session_id w :
  Forall (λ key, ∃ r, Redis.get_pure (clock w) (redis w) key = Ok r)
         (Redis.keys_pure (clock w) (redis w) "sessions:") →
  ∃ w',
    Users.delete_account {| pr_user_id := uid; pr_username := Some name; pr_role := role;
                            pr_session_id := session_id |} w
      = (Ok "Account deleted successfully", w') ∧
    redis w' !! Users.user_key name = None ∧
    users_cache (user_manager w') !! name = None ∧
    redis w' !! Connections.connection_key uid = None ∧
    Handler.owned_sessions (clock w) (redis w') uid = [] ∧
    ∀ key, key ∉ Handler.owned_sessions (clock w) (redis w) uid →
           key ≠ Users.user_key name → key ≠ Connections.connection_key uid →
           redis w' !! key = redis w !! key.
Proof.
  intros Hread.
  pose proof (delete_user_from_redis_run name w) as Hdel.
  set (w1 := emit _ _) in Hdel.
  assert (Hclock1 : clock w1 = clock w) by reflexivity.
  assert (Hstore1 : ∀ key, key ≠ Users.user_key name → redis w1 !! key = redis w !! key).
  { intros key Hk. unfold w1. cbn [redis emit set_user_manager set_redis].
    by apply lookup_delete_ne. }
  assert (Hget1 : ∀ key, key ≠ Users.user_key name →
            Redis.get_pure (clock w) (redis w1) key = Redis.get_pure (clock w) (redis w) key).
  { intros key Hk. unfold Redis.get_pure, Redis.peek. by rewrite Hstore1. }
  assert (Hkeys1 : ∀ key, key ∈ Redis.keys_pure (clock w) (redis w1) "sessions:" ↔
                          key ∈ Redis.keys_pure (clock w) (redis w) "sessions:").
  { intros key. rewrite !keys_pure_elem.
    split; intros [Hp Hs]; (split; [exact Hp|]); unfold Redis.peek in *.
    - by rewrite <- Hstore1 by by apply session_key_is_no_user_key.
    - by rewrite Hstore1 by by apply session_key_is_no_user_key. }
  destruct (cleanup_loop uid (Redis.keys_pure (clock w1) (redis w1) "sessions:") w1
              (keys_pure_NoDup _ _ _))
    as (w2 & Hloop & Hclock2 & Hum2 & Hstore2).
  { rewrite Hclock1. apply Forall_forall. intros key Hk.
    pose proof Hk as [Hp _]%keys_pure_elem.
    rewrite Hget1 by by apply session_key_is_no_user_key.
    apply (proj1 (Forall_forall _ _) Hread). by apply Hkeys1. }
  rewrite Hclock1 in Hstore2.
  assert (Hrun : Handler.cleanup_user_sessions uid w1 = (Ok tt, w2)).
  { unfold Handler.cleanup_user_sessions. run_with apply keys_run. exact Hloop. }
  pose proof (remove_connection_run uid w2) as Hrem.
  set (w3 := emit _ _) in Hrem.
  assert (Hstore3 : ∀ key, key ≠ Connections.connection_key uid →
                           redis w3 !! key = redis w2 !! key).
  { intros key Hk. unfold w3. cbn [redis emit set_redis]. by apply lookup_delete_ne. }
  (* a key the loop deleted was a live session of the user *)
  assert (Hswept : ∀ key,
            bool_decide (key ∈ Redis.keys_pure (clock w) (redis w1) "sessions:")
            && owned_by (clock w) (redis w1) uid key = true →
            key ∈ Handler.owned_sessions (clock w) (redis w) uid).
  { intros key [Hin Hown]%andb_true_iff. apply bool_decide_eq_true in Hin.
    apply elem_of_owned_sessions. split; [by apply Hkeys1|].
    apply keys_pure_elem in Hin as [Hp _].
    by rewrite <- Hget1 by by apply session_key_is_no_user_key. }
  eexists. split.
  { unfold Users.delete_account. cbn [pr_username pr_user_id default from_option id].
    run_with exact Hdel. run_with exact Hrun. run_with exact Hrem. run_prim. reflexivity. }
  cbn [redis emit set_redis user_manager].
  split; [|split; [|split; [|split]]].
  - rewrite Hstore3 by apply user_key_ne_connection_key.
    rewrite Hstore2. destruct (_ && _); [done|].
    unfold w1. cbn [redis emit set_user_manager set_redis]. apply lookup_delete_eq.
  - change (user_manager w3) with (user_manager w2). rewrite Hum2.
    unfold w1. cbn [user_manager emit set_user_manager set_redis Users.uncache_user users_cache].
    apply lookup_delete_eq.
  - unfold w3. cbn [redis emit set_redis]. apply lookup_delete_eq.
  - apply filter_nil_of_false. intros key Hk.
    apply keys_pure_elem in Hk as [Hp [e He]].
    assert (H3 : redis w3 !! key = redis w2 !! key)
      by by apply Hstore3, session_key_is_no_connection_key.
    unfold Redis.get_pure, Redis.peek in *. rewrite H3 in *. rewrite Hstore2 in *.
    destruct (bool_decide _ && _) eqn:Hb; [discriminate|].
    assert (Hin : key ∈ Redis.keys_pure (clock w) (redis w1) "sessions:").
    { apply keys_pure_elem. split; [done|]. by exists e. }
    rewrite bool_decide_eq_true_2 in Hb by done. exact Hb.
  - intros key Hown Huk Hck. rewrite Hstore3, Hstore2 by done.
    destruct (bool_decide _ && _) eqn:Hb.
    + by apply Hswept in Hb.
    + by apply Hstore1.
Qed.

Lemma delete_account_purges_user_witness :
  ∃ w',
    Users.delete_account {| pr_user_id := "alice"; pr_username := Some "alice";
                            pr_role := "user"; pr_session_id := Some "uuid-1" |}
        Demo.logged_in_again
      = (Ok "Account deleted successfully", w') ∧
    redis w' !! Users.user_key "alice" = None ∧
    users_cache (user_manager w') !! "alice" = None ∧
    redis w' !! Connections.connection_key "alice" = None ∧
    Handler.owned_sessions (clock Demo.logged_in_again) (redis w') "alice" = [] ∧
    ∀ key, key ∉ Handler.owned_sessions (clock Demo.logged_in_again)
                   (redis Demo.logged_in_again) "alice" →
           key ≠ Users.user_key "alice" → key ≠ Connections.connection_key "alice" →
           redis w' !! key = redis Demo.logged_in_again !! key.
Proof.
  apply (delete_account_purges_user "alice" "alice" "user" (Some "uuid-1")
           Demo.logged_in_again).
  vm_compute. repeat constructor; eexists; reflexivity.
Defined.

(** ** session/connections.py: a record is read back as written *)

Lemma tracked_fields_merged sid gw flag now h :
  Redis.hash_update (Connections.tracked_fields sid gw flag now) h
  = <["last_seen" := FNum now]>
      (<["ws_connected" := FStr (if flag then "1" else "0")]>
         (<["gateway_id" := FStr gw]> (<["session_id" := FStr sid]> h))).
Proof. reflexivity. Qed.

(** X27.  What [track_connection] writes is what [get_connection_info] reads:
    the session, the gateway, the flag and the time of the write, over
    whatever other fields the record already had; and after
    [remove_connection] the user has no record. *)
Theorem tracked_connection_is_read_back u sid gw flag w h :
  Redis.hgetall_pure (clock w) (redis w) (Connections.connection_key u) = Ok h →
  0 < cm_timeout_seconds (connection_manager w) →
  ∃ w1 c w2,
    Connections.track_connection u sid (Some gw) flag w = (Ok tt, w1) ∧
    Connections.get_connection_info u w1 = (Ok (Some c), w1) ∧
    cd_get c "session_id" = Some sid ∧
    cd_get c "gateway_id" = Some gw ∧
    cd_ws_connected c = flag ∧
    cd_last_seen c = clock w ∧
    (∀ k, k ∉ ["session_id"; "gateway_id"; "ws_connected"; "last_seen"] →
          cd_fields c !! k = h !! k) ∧
    Connections.remove_connection u w1 = (Ok tt, w2) ∧
    Connections.get_connection_info u w2 = (Ok None, w2).
Proof.
  intros Hg Ht.
  pose proof (track_connection_run u sid gw flag w h Hg) as Htrack. cbn zeta in Htrack.
  set (w1 := emit _ _) in Htrack.
  set (h1 := Redis.hash_update (Connections.tracked_fields sid gw flag (clock w)) h).
  assert (Hg1 : Redis.hgetall_pure (clock w1) (redis w1) (Connections.connection_key u) = Ok h1).
  { unfold w1. cbn [redis clock emit set_redis].
    eapply hgetall_pure_stored; [apply lookup_insert_eq|]. apply live_expiring. lia. }
  assert (Hne : h1 ≠ ∅) by apply insert_non_empty.
  assert (Hls : h1 !! "last_seen" = Some (FNum (clock w))).
  { unfold h1. rewrite tracked_fields_merged. apply lookup_insert_eq. }
  assert (Hws : h1 !! "ws_connected" = Some (FStr (if flag then "1" else "0"))).
  { unfold h1. rewrite tracked_fields_merged. rewrite lookup_insert_ne by done.
    apply lookup_insert_eq. }
  exists w1, {| cd_fields := h1; cd_ws_connected := flag; cd_last_seen := clock w |}.
  eexists. split; [exact Htrack|]. split.
  { rewrite get_connection_info_run, Hg1. unfold Connections.conn_dict.
    destruct (decide (h1 = ∅)); [done|].
    rewrite Hls, Hws. cbn [default from_option id field_text]. by destruct flag. }
  unfold cd_get. cbn [cd_fields cd_ws_connected cd_last_seen].
  split.
  { unfold h1. rewrite tracked_fields_merged.
    do 3 (rewrite lookup_insert_ne by done). by rewrite lookup_insert_eq. }
  split.
  { unfold h1. rewrite tracked_fields_merged.
    do 2 (rewrite lookup_insert_ne by done). by rewrite lookup_insert_eq. }
  split; [reflexivity|]. split; [reflexivity|]. split.
  { intros k Hk. unfold h1. rewrite tracked_fields_merged.
    rewrite !not_elem_of_cons in Hk. destruct Hk as (? & ? & ? & ? & _).
    by rewrite !lookup_insert_ne by done. }
  split; [reflexivity|].
  rewrite get_connection_info_run. cbn [redis clock emit set_redis].
  unfold Redis.hgetall_pure. by rewrite peek_delete_eq.
Qed.

Lemma tracked_connection_is_read_back_witness :
  ∃ w1 c w2,
    Connections.track_connection "alice" "uuid-9" (Some "pod-2:8000") false Demo.connected
      = (Ok tt, w1) ∧
    Connections.get_connection_info "alice" w1 = (Ok (Some c), w1) ∧
    cd_get c "session_id" = Some "uuid-9" ∧
    cd_get c "gateway_id" = Some "pod-2:8000" ∧
    cd_ws_connected c = false ∧
    cd_last_seen c = clock Demo.connected ∧
    (∀ k, k ∉ ["session_id"; "gateway_id"; "ws_connected"; "last_seen"] →
          cd_fields c !! k = cd_fields Demo.alice_ws_connection !! k) ∧
    Connections.remove_connection "alice" w1 = (Ok tt, w2) ∧
    Connections.get_connection_info "alice" w2 = (Ok None, w2).
Proof.
  apply (tracked_connection_is_read_back "alice" "uuid-9" "pod-2:8000" false Demo.connected
           (cd_fields Demo.alice_ws_connection)); vm_compute; reflexivity.
Defined.
